(** * Swing Score Engine: a shallow embedding of [swing_score_engine.py]
    and of the score adjustment of [app_new.py].

    Conventions of the embedding.

    - A Python/numpy float is a value of [float]: not-a-number, the two
      infinities, or a finite number carried as an exact rational.  Arithmetic
      on finite values is exact (binary rounding is idealised away); the
      special values follow IEEE 754 as numpy applies it (a quotient by zero
      is an infinity or NaN, never an exception; every comparison with NaN is
      false).  Zero carries no sign.
    - Python [int]s are [Z]; Python [dict]s are [gmap string pyval].
    - A [try]/[except] block is a computation in the exception monad
      [result]; the handler is the [match] on its outcome.
    - The indicator library ([pandas_ta]) and the market-data client are
      external to the repository: the engine is parameterised over them
      (classes [pandas_ta] and [DataClient]).
    - The server around the engine ([database.py], [auth.py],
      [market_analyst.py] and the routes of [app_new.py]) is embedded in
      modules named after the files.  The [licenses] table is a list of rows
      threaded through the functions that read and write it, the clock and
      the entropy source are arguments, and the two HTTP services of the
      analyst are a class ([market_analyst.Services]). *)

From Stdlib Require Import QArith Qabs Qround Lqa ZArith String List.
From stdpp Require Import gmap strings pretty sorting.
From Stdlib Require Import Ascii.

#[local] Open Scope Z_scope.
#[local] Open Scope string_scope.

(* ================================================================== *)
(** ** Floats *)
(* ================================================================== *)

Inductive float : Type :=
| NaN
| NegInf
| Fin (q : Q)
| PosInf.

Definition Qlt_bool (x y : Q) : bool := negb (Qle_bool y x).

(** Sign of a rational: [Lt] negative, [Eq] zero, [Gt] positive. *)
Definition Qsign (q : Q) : comparison := (0 ?= q)%Q.

Definition fneg (x : float) : float :=
  match x with
  | NaN => NaN
  | NegInf => PosInf
  | Fin q => Fin (- q)
  | PosInf => NegInf
  end.

Definition fadd (x y : float) : float :=
  match x, y with
  | NaN, _ | _, NaN => NaN
  | PosInf, NegInf | NegInf, PosInf => NaN
  | PosInf, _ | _, PosInf => PosInf
  | NegInf, _ | _, NegInf => NegInf
  | Fin a, Fin b => Fin (a + b)
  end.

Definition fsub (x y : float) : float := fadd x (fneg y).

(** An infinity of the given sign; [Eq] (an infinity times zero) is NaN. *)
Definition inf_of_sign (s : comparison) : float :=
  match s with
  | Lt => PosInf
  | Gt => NegInf
  | Eq => NaN
  end.

Definition flip_sign (s : comparison) : comparison :=
  match s with
  | Lt => Gt
  | Gt => Lt
  | Eq => Eq
  end.

Definition fmul (x y : float) : float :=
  match x, y with
  | NaN, _ | _, NaN => NaN
  | Fin a, Fin b => Fin (a * b)
  | PosInf, Fin b | Fin b, PosInf => inf_of_sign (Qsign b)
  | NegInf, Fin b | Fin b, NegInf => inf_of_sign (flip_sign (Qsign b))
  | PosInf, PosInf | NegInf, NegInf => PosInf
  | PosInf, NegInf | NegInf, PosInf => NegInf
  end.

Definition fdiv (x y : float) : float :=
  match x, y with
  | NaN, _ | _, NaN => NaN
  | Fin a, Fin b =>
      if Qeq_bool b 0 then inf_of_sign (Qsign a) else Fin (a / b)
  | Fin _, (PosInf | NegInf) => Fin 0
  | PosInf, Fin b => if Qlt_bool b 0 then NegInf else PosInf
  | NegInf, Fin b => if Qlt_bool b 0 then PosInf else NegInf
  | (PosInf | NegInf), (PosInf | NegInf) => NaN
  end.

Definition fabs (x : float) : float :=
  match x with
  | NaN => NaN
  | NegInf | PosInf => PosInf
  | Fin q => Fin (Qabs q)
  end.

Definition flt (x y : float) : bool :=
  match x, y with
  | NaN, _ | _, NaN => false
  | _, NegInf => false
  | PosInf, _ => false
  | NegInf, _ => true
  | _, PosInf => true
  | Fin a, Fin b => Qlt_bool a b
  end.

Definition fle (x y : float) : bool :=
  match x, y with
  | NaN, _ | _, NaN => false
  | NegInf, _ => true
  | _, PosInf => true
  | _, NegInf => false
  | PosInf, _ => false
  | Fin a, Fin b => Qle_bool a b
  end.

Definition fgt (x y : float) : bool := flt y x.

(** [float(n)] for a Python int, and a decimal literal [n / d]. *)
Definition of_Z (n : Z) : float := Fin (inject_Z n).
Definition lit (n : Z) (d : positive) : float := Fin (n # d).

(** Python's built-in [max(a, b)] on floats: the first argument wins unless
    the second is strictly greater. *)
Definition py_max (a b : float) : float := if fgt b a then b else a.

(** Round half to even, the rule of Python's [round]. *)
Definition Qround_half_even (q : Q) : Z :=
  let f := Qfloor q in
  match ((q - inject_Z f) ?= (1 # 2))%Q with
  | Lt => f
  | Gt => f + 1
  | Eq => if Z.even f then f else f + 1
  end.

(** [round(x, 1)]: NaN and the infinities are returned unchanged. *)
Definition py_round1 (x : float) : float :=
  match x with
  | Fin q => Fin (inject_Z (Qround_half_even (q * 10)) / 10)
  | _ => x
  end.

(** *** Format specifications [.Nf] and [+.Nf] *)

Fixpoint zero_pad (width : nat) (s : string) : string :=
  match width with
  | O => s
  | S w => if (String.length s <? width)%nat then zero_pad w ("0" ++ s) else s
  end.

Definition format_fixed (plus : bool) (digits : nat) (x : float) : string :=
  let sign (neg : bool) := if neg then "-" else if plus then "+" else "" in
  match x with
  | NaN => sign false ++ "nan"
  | PosInf => sign false ++ "inf"
  | NegInf => "-inf"
  | Fin q =>
      let scale := 10 ^ Z.of_nat digits in
      let n := Qround_half_even (Qabs q * inject_Z scale) in
      let whole := pretty (n / scale) in
      let frac := zero_pad digits (pretty (n mod scale)) in
      sign (Qlt_bool q 0) ++ whole ++
      match digits with O => "" | _ => "." ++ frac end
  end.

(* ================================================================== *)
(** ** Python values, exceptions and data frames *)
(* ================================================================== *)

#[warnings="-register-all"]
Inductive pyval : Type :=
| VNone
| VBool (b : bool)
| VInt (n : Z)
| VFloat (x : float)
| VStr (s : string)
| VDict (d : gmap string pyval).

(** A raised exception: its class and its message ([str(e)]). *)
Record exn : Type := PyExc { exc_class : string; exc_msg : string }.

Definition py_str (e : exn) : string := exc_msg e.

Inductive result (A : Type) : Type :=
| Ok (a : A)
| Raise (e : exn).

Arguments Ok {A} a.
Arguments Raise {A} e.

Definition bind {A B : Type} (m : result A) (k : A -> result B) : result B :=
  match m with
  | Ok a => k a
  | Raise e => Raise e
  end.

Notation "x <- m ;; k" := (bind m (fun x => k))
  (at level 100, m at next level, right associativity).

(** One daily bar as [fetch_bars_rest] stores it. *)
Record Bar : Type := mkBar {
  timestamp : Z;
  open : float;
  high : float;
  low : float;
  close : float;
  volume : Z
}.

(** A frame is its rows in index order.  The indicator columns the engine
    adds to a frame ([df['sma_200'] = ...]) are written and then read back at
    the last row only; no indicator reads them, so the frame is modelled by
    its price columns. *)
Definition DataFrame : Type := list Bar.

Definition col (field : Bar -> float) (df : DataFrame) : list float :=
  map field df.

(** [series.iloc[-k]] for k >= 1: the k-th value from the end. *)
Definition iloc_neg (s : list float) (k : nat) : result float :=
  match nth_error (rev s) (pred k) with
  | Some x => Ok x
  | None => Raise (PyExc "IndexError" "single positional indexer is out-of-bounds")
  end.

(** The value read at the last row of a column that was assigned from what an
    indicator returned.  The library returns [None] when the series is too
    short for the window (the assigned column then holds [None]), otherwise a
    series aligned on the frame's index, NaN where the indicator is undefined.
    The engine reads such a column only after [df['close'].iloc[-1]]
    succeeded, so the frame has a last row. *)
Definition cell : Type := option float.

Definition last_row (ind : option (list float)) : cell :=
  match ind with
  | None => None
  | Some c => Some (List.last c NaN)
  end.

Definition pd_isna (c : cell) : bool :=
  match c with
  | None | Some NaN => true
  | Some _ => false
  end.

(** The float in a cell; used only under [not pd.isna(...)]. *)
Definition cell_val (c : cell) : float :=
  match c with
  | Some x => x
  | None => NaN
  end.

(** [x if not pd.isna(x) else None] *)
Definition cell_or_None (c : cell) : pyval :=
  if pd_isna c then VNone else VFloat (cell_val c).

(** [f'{c:.Nf}']: formatting [None] with a float format raises. *)
Definition format_cell (plus : bool) (digits : nat) (c : cell) : result string :=
  match c with
  | Some x => Ok (format_fixed plus digits x)
  | None =>
      Raise (PyExc "TypeError" "unsupported format string passed to NoneType.__format__")
  end.

(** The indicator library.  Every call may raise. *)
Class pandas_ta : Type := {
  ta_sma : list float -> nat -> result (option (list float));
  ta_ema : list float -> nat -> result (option (list float));
  ta_rsi : list float -> nat -> result (option (list float));
  ta_atr : list float -> list float -> list float -> nat ->
           result (option (list float))
}.

(** The market-data client: [get_stock_bars] answers a request for one
    symbol with [bars.data], a mapping from symbols to bar lists in the order
    the provider sent them (kept as an association list: the order of its
    keys shows in an error message).  The request window ([start], [end]) is
    the client's concern. *)
Class DataClient : Type := {
  get_stock_bars : string -> result (list (string * list Bar))
}.

(** The order of the frame's index (the bars' timestamps). *)
Definition index_le (a b : Bar) : Prop := timestamp a <= timestamp b.

#[global]
Instance index_le_dec : RelDecision index_le.
Proof. intros a b. unfold index_le. apply _. Defined.

(** What a factor scorer returns: [{'score': ..., 'details': ...}]. *)
Record FactorResult : Type := mkFactor {
  score : Z;
  details : gmap string pyval
}.

(** Truth value of [d.get(key)]: a missing key gives [None]. *)
Definition py_truthy (v : option pyval) : bool :=
  match v with
  | Some (VBool b) => b
  | Some (VInt n) => negb (Z.eqb n 0)
  | Some (VStr s) => negb (String.eqb s "")
  | Some (VFloat (Fin q)) => negb (Qeq_bool q 0)
  | Some (VFloat _) => true
  | Some (VDict d) => negb (bool_decide (d = ∅))
  | Some VNone | None => false
  end.

(* ================================================================== *)
(** ** The scoring engine ([SwingScoreEngine]) *)
(* ================================================================== *)

Section Engine.

Context {ta : pandas_ta} {data_client : DataClient}.

(** *** [calculate_technicals] *)

(** TREND FILTER block: the base score, [max_score_cap] and the details. *)
Definition trend_filter (current_price : float) (sma_200 : cell)
    (details : gmap string pyval) : Z * Z * gmap string pyval :=
  if negb (pd_isna sma_200) then
    if fgt current_price (cell_val sma_200) then
      (50, 100,
       <["in_uptrend" := VBool true]>
         (<["trend_filter" :=
              VStr ("[OK] UPTREND: $" ++ format_fixed false 2 current_price ++
                    " > 200 SMA $" ++ format_fixed false 2 (cell_val sma_200) ++
                    " (Base +50)")]> details))
    else
      (0, 40,
       <["in_uptrend" := VBool false]>
         (<["trend_filter" :=
              VStr ("⛔ DOWNTREND: $" ++ format_fixed false 2 current_price ++
                    " < 200 SMA $" ++ format_fixed false 2 (cell_val sma_200) ++
                    " (Capped at 40)")]> details))
  else
    (25, 100,
     <["in_uptrend" := VNone]>
       (<["trend_filter" := VStr "Insufficient data (need 200 days)"]> details)).

(** RSI DIP BONUS block: [rsi_score] and the details. *)
Definition rsi_dip_bonus (rsi : cell) (details : gmap string pyval)
    : Z * gmap string pyval :=
  if negb (pd_isna rsi) then
    let r := cell_val rsi in
    let shown := format_fixed false 1 r in
    if fgt r (of_Z 70) then
      (-20, <["rsi_signal" := VStr ("🔴 OVERBOUGHT: RSI " ++ shown ++ " > 70 (-20)")]> details)
    else if fle (of_Z 50) r && fle r (of_Z 70) then
      (10, <["rsi_signal" := VStr ("🟡 MOMENTUM: RSI " ++ shown ++ " in 50-70 (+10)")]> details)
    else if fle (of_Z 30) r && flt r (of_Z 50) then
      (30, <["rsi_signal" := VStr ("🟢 SWEET SPOT: RSI " ++ shown ++ " in 30-50 (+30)")]> details)
    else
      (10, <["rsi_signal" := VStr ("🟠 OVERSOLD: RSI " ++ shown ++ " < 30 (+10)")]> details)
  else
    (0, <["rsi_signal" := VStr "RSI unavailable"]> details).

(** [((current_price - ema_20) / ema_20) * 100] *)
Definition ema_distance (current_price ema_20 : float) : float :=
  fmul (fdiv (fsub current_price ema_20) ema_20) (of_Z 100).

(** EMA PROXIMITY block: [ema_score] and the details. *)
Definition ema_proximity (current_price : float) (ema_20 : cell)
    (details : gmap string pyval) : Z * gmap string pyval :=
  if negb (pd_isna ema_20) then
    let ema_distance_pct := ema_distance current_price (cell_val ema_20) in
    let shown := format_fixed true 1 ema_distance_pct in
    let '(ema_score, details) :=
      if fle (fabs ema_distance_pct) (of_Z 2) then
        (20, <["ema_signal" := VStr ("🟢 NEAR SUPPORT: " ++ shown ++ "% from 20 EMA (+20)")]> details)
      else if fgt ema_distance_pct (of_Z 10) then
        (-10, <["ema_signal" := VStr ("🔴 EXTENDED: " ++ shown ++ "% above 20 EMA (-10)")]> details)
      else if flt ema_distance_pct (of_Z (-10)) then
        (-10, <["ema_signal" := VStr ("🔴 FALLING: " ++ shown ++ "% below 20 EMA (-10)")]> details)
      else
        (0, <["ema_signal" := VStr ("🟡 MODERATE: " ++ shown ++ "% from 20 EMA (0)")]> details)
    in
    (ema_score, <["ema_distance_pct" := VFloat ema_distance_pct]> details)
  else
    (0, <["ema_signal" := VStr "20 EMA unavailable"]> details).

(** The part of the [try] block that follows the reads at the last row: it
    cannot raise. *)
Definition technicals_of (current_price : float) (sma_200 ema_20 rsi : cell)
    : FactorResult :=
  let details : gmap string pyval :=
    <["raw_values" :=
        VDict (<["rsi" := cell_or_None rsi]>
                 (<["ema_20" := cell_or_None ema_20]>
                    (<["sma_200" := cell_or_None sma_200]>
                       (<["price" := VFloat current_price]> ∅))))]> ∅ in
  let '(score, max_score_cap, details) := trend_filter current_price sma_200 details in
  let '(rsi_score, details) := rsi_dip_bonus rsi details in
  let score := score + rsi_score in
  let details := <["rsi_score" := VInt rsi_score]> details in
  let '(ema_score, details) := ema_proximity current_price ema_20 details in
  let score := score + ema_score in
  let details := <["ema_score" := VInt ema_score]> details in
  let final_score := Z.max 0 (Z.min score max_score_cap) in
  let details :=
    if Z.ltb max_score_cap 100 then
      <["cap_applied" :=
          VStr ("Score capped at " ++ pretty max_score_cap ++ " (downtrend protection)")]> details
    else details in
  let details :=
    <["trend_score" := VInt (if py_truthy (details !! "in_uptrend") then 50 else 0)]> details in
  mkFactor final_score details.

(** The body of the [try] block.  The calls that can raise (the indicators
    and [df['close'].iloc[-1]]) all come before the first write to [details]
    and to [score]. *)
Definition technicals_try (df : DataFrame) : result FactorResult :=
  sma_col <- ta_sma (col close df) 200 ;;
  ema_col <- ta_ema (col close df) 20 ;;
  rsi_col <- ta_rsi (col close df) 14 ;;
  current_price <- iloc_neg (col close df) 1 ;;
  Ok (technicals_of current_price (last_row sma_col) (last_row ema_col) (last_row rsi_col)).

Definition calculate_technicals (df : DataFrame) : FactorResult :=
  match technicals_try df with
  | Ok r => r
  | Raise e => mkFactor 0 (<["error" := VStr (py_str e)]> ∅)
  end.

(** *** [calculate_market_regime] *)

(** The [try] block: the score and details it ends with.  It can raise in the
    indicator, at [spy_df['close'].iloc[-1]] and in the "Bear" message (which
    formats [spy_sma_50] even when the library gave [None]); at each of these
    [score] is still 0 and [details] still empty. *)
Definition market_regime_try (spy_df : DataFrame) (vix_df : option DataFrame)
    : result (Z * gmap string pyval) :=
  sma_col <- ta_sma (col close spy_df) 50 ;;
  spy_current <- iloc_neg (col close spy_df) 1 ;;
  let spy_sma_50 := last_row sma_col in
  trend <-
    (if negb (pd_isna spy_sma_50) && fgt spy_current (cell_val spy_sma_50) then
       Ok (15, <["spy_trend" :=
                   VStr ("Bull: $" ++ format_fixed false 2 spy_current ++ " > $" ++
                         format_fixed false 2 (cell_val spy_sma_50) ++ " (+15)")]>
                 (∅ : gmap string pyval))
     else
       shown <- format_cell false 2 spy_sma_50 ;;
       Ok (0, <["spy_trend" :=
                  VStr ("Bear: $" ++ format_fixed false 2 spy_current ++ " < $" ++
                        shown ++ " (0)")]> ∅)) ;;
  let '(score, details) := trend in
  fear <-
    (match vix_df with
     | Some vix =>
         if (0 <? length vix)%nat then
           vix_current <- iloc_neg (col close vix) 1 ;;
           let shown := format_fixed false 1 vix_current in
           let '(vix_score, text) :=
             if flt vix_current (of_Z 20) then (15, shown ++ " (Low Fear, +15)")
             else if fgt vix_current (of_Z 30) then (-20, shown ++ " (HIGH FEAR, -20)")
             else (0, shown ++ " (Elevated, 0)") in
           Ok (score + vix_score, <["vix" := VStr text]> details)
         else
           Ok (score, <["vix" := VStr "Not available (assuming neutral)"]> details)
     | None =>
         Ok (score, <["vix" := VStr "Not available (assuming neutral)"]> details)
     end) ;;
  let '(score, details) := fear in
  Ok (score, <["regime_score" := VInt (Z.max 0 score)]> details).

Definition calculate_market_regime (spy_df : DataFrame) (vix_df : option DataFrame)
    : FactorResult :=
  match market_regime_try spy_df vix_df with
  | Ok (score, details) => mkFactor (Z.max 0 score) details
  | Raise e => mkFactor (Z.max 0 0) (<["error" := VStr (py_str e)]> ∅)
  end.

(** *** [calculate_relative_strength] *)

(** [((s.iloc[-1] - s.iloc[-6]) / s.iloc[-6]) * 100], read in that order. *)
Definition five_day_return (s : list float) : result float :=
  latest <- iloc_neg s 1 ;;
  base <- iloc_neg s 6 ;;
  divisor <- iloc_neg s 6 ;;
  Ok (fmul (fdiv (fsub latest base) divisor) (of_Z 100)).

(** The [try] block; both returns are computed before [details] is touched.
    The result is the tuple [(score, details, kill_switch)]. *)
Definition relative_strength_try (stock_df spy_df : DataFrame)
    : result (Z * gmap string pyval * bool) :=
  stock_return <- five_day_return (col close stock_df) ;;
  spy_return <- five_day_return (col close spy_df) ;;
  let details : gmap string pyval :=
    <["spy_5d_return" := VStr (format_fixed true 2 spy_return ++ "%")]>
      (<["stock_5d_return" := VStr (format_fixed true 2 stock_return ++ "%")]> ∅) in
  if flt stock_return (of_Z 0) && fgt spy_return (of_Z 0) then
    Ok (0, <["status" := VStr "[ALERT] RELATIVE WEAKNESS (Auto-Fail)"]> details, true)
  else if fgt stock_return spy_return then
    Ok (20, <["status" := VStr "Leader (+20)"]> details, false)
  else
    Ok (0, <["status" := VStr "Laggard (0)"]> details, false).

Definition calculate_relative_strength (stock_df spy_df : DataFrame)
    : Z * gmap string pyval * bool :=
  match relative_strength_try stock_df spy_df with
  | Ok r => r
  | Raise e => (0, <["error" := VStr (py_str e)]> ∅, false)
  end.

(** *** [calculate_trade_setup] *)

(** Entry zone: [(buy_min, buy_max)]. *)
Definition entry_zone (current_price : float) (ema_20 : cell) : float * float :=
  if negb (pd_isna ema_20) then
    (fmul (cell_val ema_20) (lit 98 100), fmul (cell_val ema_20) (lit 102 100))
  else
    (fmul current_price (lit 98 100), fmul current_price (lit 102 100)).

(** Stop loss: [sell_stop]. *)
Definition stop_loss (current_price : float) (sma_200 : cell) : float :=
  if negb (pd_isna sma_200) then
    let sma_stop := fmul (cell_val sma_200) (lit 99 100) in
    let pct_stop := fmul current_price (lit 92 100) in
    py_max sma_stop pct_stop
  else
    fmul current_price (lit 92 100).

(** TARGET A: [target_safe]. *)
Definition target_a (current_price : float) (sma_50 : cell) : float :=
  let base_target := fmul current_price (lit 104 100) in
  if negb (pd_isna sma_50) && fgt (cell_val sma_50) current_price then
    let distance_to_sma50 :=
      fdiv (fsub (cell_val sma_50) current_price) current_price in
    if flt distance_to_sma50 (lit 4 100) then fmul (cell_val sma_50) (lit 995 1000)
    else base_target
  else base_target.

(** TARGET B: [(target_aggro, volatility_supported)]. *)
Definition target_b (current_price : float) (atr : cell) : float * bool :=
  let target_aggro := fmul current_price (lit 110 100) in
  let volatility_supported :=
    if negb (pd_isna atr) then
      let atr_ratio := fdiv (fsub target_aggro current_price) (cell_val atr) in
      if fgt atr_ratio (of_Z 5) then false else true
    else true in
  (target_aggro, volatility_supported).

(** [((target - current_price) / current_price) * 100] *)
Definition target_pct (target current_price : float) : float :=
  fmul (fdiv (fsub target current_price) current_price) (of_Z 100).

(** PROBABILITY ESTIMATES: [(prob_safe, prob_aggro)]. *)
Definition probability_estimates (current_price : float) (sma_200 : cell)
    (volatility_supported : bool) : Z * Z :=
  let prob_safe := 75 in
  let prob_aggro := 40 in
  let '(prob_safe, prob_aggro) :=
    if negb (pd_isna sma_200) && fgt current_price (cell_val sma_200) then
      (Z.min 85 (prob_safe + 10), Z.min 55 (prob_aggro + 10))
    else (prob_safe, prob_aggro) in
  let prob_aggro :=
    if negb volatility_supported then Z.max 20 (prob_aggro - 15) else prob_aggro in
  (prob_safe, prob_aggro).

(** The part of the [try] block that follows the reads at the last row. *)
Definition trade_setup_of (current_price : float) (ema_20 sma_50 sma_200 atr : cell)
    : gmap string pyval :=
  let '(buy_min, buy_max) := entry_zone current_price ema_20 in
  let sell_stop := stop_loss current_price sma_200 in
  let target_safe := target_a current_price sma_50 in
  let target_safe_pct := target_pct target_safe current_price in
  let '(target_aggro, volatility_supported) := target_b current_price atr in
  let target_aggro_pct := target_pct target_aggro current_price in
  let '(prob_safe, prob_aggro) :=
    probability_estimates current_price sma_200 volatility_supported in
  <["buy_min" := VFloat buy_min]>
  (<["buy_max" := VFloat buy_max]>
  (<["sell_stop" := VFloat sell_stop]>
  (<["target_safe" := VFloat target_safe]>
  (<["target_safe_pct" := VFloat (py_round1 target_safe_pct)]>
  (<["target_aggro" := VFloat target_aggro]>
  (<["target_aggro_pct" := VFloat (py_round1 target_aggro_pct)]>
  (<["prob_safe" := VInt prob_safe]>
  (<["prob_aggro" := VInt prob_aggro]>
  (<["volatility_supported" := VBool volatility_supported]>
  (<["recommended" := VStr "safe"]> ∅)))))))))).

(** The body of the [try] block: it can raise in the indicators and at
    [df['close'].iloc[-1]]. *)
Definition trade_setup_try (df : DataFrame) : result (gmap string pyval) :=
  ema_col <- ta_ema (col close df) 20 ;;
  sma50_col <- ta_sma (col close df) 50 ;;
  sma200_col <- ta_sma (col close df) 200 ;;
  atr_col <- ta_atr (col high df) (col low df) (col close df) 14 ;;
  current_price <- iloc_neg (col close df) 1 ;;
  Ok (trade_setup_of current_price (last_row ema_col) (last_row sma50_col)
        (last_row sma200_col) (last_row atr_col)).

(** The dictionary of the [except] branch. *)
Definition trade_setup_default (e : exn) : gmap string pyval :=
  <["buy_min" := VInt 0]>
  (<["buy_max" := VInt 0]>
  (<["sell_stop" := VInt 0]>
  (<["target_safe" := VInt 0]>
  (<["target_safe_pct" := VFloat (lit 40 10)]>
  (<["target_aggro" := VInt 0]>
  (<["target_aggro_pct" := VFloat (lit 100 10)]>
  (<["prob_safe" := VInt 75]>
  (<["prob_aggro" := VInt 40]>
  (<["volatility_supported" := VBool true]>
  (<["recommended" := VStr "safe"]>
  (<["error" := VStr (py_str e)]> ∅))))))))))).

Definition calculate_trade_setup (df : DataFrame) : gmap string pyval :=
  match trade_setup_try df with
  | Ok setup => setup
  | Raise e => trade_setup_default e
  end.

(** The keys of a TradeSetup, as the docstring and the spec list them. *)
Definition trade_setup_keys : list string :=
  "buy_min" :: "buy_max" :: "sell_stop" :: "target_safe" :: "target_safe_pct" ::
  "target_aggro" :: "target_aggro_pct" :: "prob_safe" :: "prob_aggro" ::
  "volatility_supported" :: "recommended" :: nil.

(** [d[key]] read as a float (NaN when the entry is missing or no float). *)
Definition float_at (d : gmap string pyval) (key : string) : float :=
  match d !! key with
  | Some (VFloat x) => x
  | _ => NaN
  end.

(** The ordering [sell_stop < buy_min < buy_max < target_safe], and
    [target_safe < target_aggro] whenever [target_safe_pct < 10]. *)
Definition setup_ordered (ts : gmap string pyval) : Prop :=
  flt (float_at ts "sell_stop") (float_at ts "buy_min") = true /\
  flt (float_at ts "buy_min") (float_at ts "buy_max") = true /\
  flt (float_at ts "buy_max") (float_at ts "target_safe") = true /\
  (flt (float_at ts "target_safe_pct") (of_Z 10) = true ->
   flt (float_at ts "target_safe") (float_at ts "target_aggro") = true).

(** A cell that is undefined or holds a positive finite number. *)
Definition positive_if_defined (c : cell) : Prop :=
  match c with
  | Some (Fin q) => (0 < q)%Q
  | Some NaN | None => True
  | Some _ => False
  end.

(** *** [_get_verdict] *)

Definition _get_verdict (score : Z) (kill_switch : bool) : string :=
  if kill_switch then "AVOID (Rel. Weakness)"
  else if Z.leb 80 score then "STRONG BUY"
  else if Z.leb 60 score then "BUY"
  else if Z.leb 40 score then "HOLD"
  else "AVOID".

(** *** [fetch_bars_rest] *)

(** [str(list(d.keys()))] for string keys. *)
Fixpoint py_repr_items (keys : list string) : string :=
  match keys with
  | nil => ""
  | k :: nil => "'" ++ k ++ "'"
  | k :: rest => "'" ++ k ++ "', " ++ py_repr_items rest
  end.

Definition py_repr_list (keys : list string) : string :=
  "[" ++ py_repr_items keys ++ "]".

Fixpoint assoc_get (symbol : string) (data : list (string * list Bar))
    : option (list Bar) :=
  match data with
  | nil => None
  | (k, v) :: rest => if String.eqb k symbol then Some v else assoc_get symbol rest
  end.

(** [df.sort_index()] on the timestamp index. *)
Definition sort_index (df : DataFrame) : DataFrame :=
  merge_sort index_le df.

Definition fetch_bars_try (symbol : string) : result DataFrame :=
  data <- get_stock_bars symbol ;;
  match data with
  | nil => Raise (PyExc "ValueError" ("No data returned for " ++ symbol))
  | _ =>
      match assoc_get symbol data with
      | None =>
          Raise (PyExc "ValueError"
                   ("Symbol " ++ symbol ++ " not in response. Available: " ++
                    py_repr_list (map fst data)))
      | Some bar_list =>
          if Nat.eqb (length bar_list) 0 then
            Raise (PyExc "ValueError" ("Empty data for " ++ symbol))
          else Ok (sort_index bar_list)
      end
  end.

Definition fetch_bars_rest (symbol : string) : result DataFrame :=
  match fetch_bars_try symbol with
  | Ok df => Ok df
  | Raise e =>
      Raise (PyExc "Exception" ("Failed to fetch bars for " ++ symbol ++ ": " ++ py_str e))
  end.

(** *** [calculate_score] *)

Definition breakdown (tech_result regime_result : FactorResult)
    (relative_strength : Z) (rel_details : gmap string pyval) : pyval :=
  VDict (<["technicals" := VInt (score tech_result)]>
        (<["market_regime" := VInt (score regime_result)]>
        (<["relative_strength" := VInt relative_strength]>
        (<["details" :=
             VDict (<["technicals" := VDict (details tech_result)]>
                   (<["market_regime" := VDict (details regime_result)]>
                   (<["relative_strength" := VDict rel_details]> ∅)))]> ∅)))).

(** The inner [try] around the VIX fetch: any failure gives [None]. *)
Definition fetch_vix : option DataFrame :=
  match fetch_bars_rest "VIX" with
  | Ok df => Some df
  | Raise _ => None
  end.

Definition score_try (ticker : string) : result (gmap string pyval) :=
  stock_df <- fetch_bars_rest ticker ;;
  spy_df <- fetch_bars_rest "SPY" ;;
  let vix_df := fetch_vix in
  let tech_result := calculate_technicals stock_df in
  let regime_result := calculate_market_regime spy_df vix_df in
  let '(rel_score, rel_details, kill_switch) :=
    calculate_relative_strength stock_df spy_df in
  if kill_switch then
    current_price <- iloc_neg (col close stock_df) 1 ;;
    Ok (<["ticker" := VStr ticker]>
       (<["score" := VInt 0]>
       (<["verdict" := VStr (_get_verdict 0 true)]>
       (<["reason" := VStr "RELATIVE WEAKNESS KILL SWITCH"]>
       (<["breakdown" := breakdown tech_result regime_result 0 rel_details]>
       (<["current_price" := VFloat current_price]> ∅))))))
  else
    let final_score := score tech_result + score regime_result + rel_score in
    let verdict := _get_verdict final_score false in
    let trade_setup := calculate_trade_setup stock_df in
    current_price <- iloc_neg (col close stock_df) 1 ;;
    Ok (<["ticker" := VStr ticker]>
       (<["score" := VInt final_score]>
       (<["verdict" := VStr verdict]>
       (<["breakdown" := breakdown tech_result regime_result rel_score rel_details]>
       (<["current_price" := VFloat current_price]>
       (<["trade_setup" := VDict trade_setup]> ∅)))))).

Definition calculate_score (ticker : string) : gmap string pyval :=
  match score_try ticker with
  | Ok r => r
  | Raise e => <["error" := VStr ("Score calculation failed: " ++ py_str e)]> ∅
  end.

End Engine.

(* ================================================================== *)
(** ** The calling layer: score adjustment of [app_new.analyze_ticker] *)
(* ================================================================== *)

(** [int(round(x))] *)
Definition py_int_round (x : float) : result Z :=
  match x with
  | Fin q => Ok (Qround_half_even q)
  | NaN => Raise (PyExc "ValueError" "cannot convert float NaN to integer")
  | _ => Raise (PyExc "OverflowError" "cannot convert float infinity to integer")
  end.

(** [d[key]] *)
Definition py_getitem (d : gmap string pyval) (key : string) : result pyval :=
  match d !! key with
  | Some v => Ok v
  | None => Raise (PyExc "KeyError" ("'" ++ key ++ "'"))
  end.

(** "Calculate AI adjustment (0-10 points)" *)
Definition ai_points_of (ai_sentiment_score : Z) : result Z :=
  let ai_points := fmul (fdiv (of_Z (ai_sentiment_score + 10)) (of_Z 20)) (of_Z 10) in
  rounded <- py_int_round ai_points ;;
  Ok (Z.max 0 (Z.min 10 rounded)).

(** "Get verdict using same logic as scoring engine" *)
Definition app_verdict (kill_switch : bool) (final_score : Z) : string :=
  if kill_switch then "AVOID (Rel. Weakness)"
  else if Z.leb 80 final_score then "STRONG BUY"
  else if Z.leb 60 final_score then "BUY"
  else if Z.leb 40 final_score then "HOLD"
  else if Z.leb 20 final_score then "AVOID"
  else "STRONG SELL".

(** From the engine's result and the collaborator's [sentiment_score] to
    [(ai_points, final_score, verdict)] of the response. *)
Definition adjust_with_ai (technical_result : gmap string pyval)
    (ai_sentiment_score : Z) : result (Z * Z * string) :=
  ai_points <- ai_points_of ai_sentiment_score ;;
  engine_score <- py_getitem technical_result "score" ;;
  match engine_score with
  | VInt n =>
      let final_score := n + ai_points in
      let final_score := Z.min 100 final_score in
      let kill_switch := bool_decide (is_Some (technical_result !! "reason")) in
      Ok (ai_points, final_score, app_verdict kill_switch final_score)
  | _ => Raise (PyExc "TypeError" "unsupported operand type(s) for +")
  end.

(* ================================================================== *)
(** ** Python's [str] methods *)
(* ================================================================== *)

(** A Python [str] is carried as the bytes of its UTF-8 encoding.  On ASCII
    text [upper], [lower] and [strip] are the byte-wise functions below.
    Beyond ASCII they follow the Unicode tables ("ß".upper() is "SS"), which
    are not reproduced here: the methods are a class whose only laws are
    their values on ASCII text, and every theorem holds for whatever they do
    elsewhere. *)

Definition is_ascii_char (c : ascii) : bool := (nat_of_ascii c <? 128)%nat.

Fixpoint is_ascii (s : string) : bool :=
  match s with
  | EmptyString => true
  | String c rest => is_ascii_char c && is_ascii rest
  end.

Definition is_upper_letter (c : ascii) : bool :=
  (65 <=? nat_of_ascii c)%nat && (nat_of_ascii c <=? 90)%nat.

Definition is_lower_letter (c : ascii) : bool :=
  (97 <=? nat_of_ascii c)%nat && (nat_of_ascii c <=? 122)%nat.

(** ASCII white space as [str.strip] sees it: tab to carriage return, the
    four separators 28..31, and the space. *)
Definition is_space (c : ascii) : bool :=
  let n := nat_of_ascii c in
  ((9 <=? n)%nat && (n <=? 13)%nat) || ((28 <=? n)%nat && (n <=? 32)%nat).

Definition is_letter (c : ascii) : bool := is_upper_letter c || is_lower_letter c.

(** Every character of the string satisfies [p]. *)
Fixpoint string_forall (p : ascii -> bool) (s : string) : bool :=
  match s with
  | EmptyString => true
  | String c rest => p c && string_forall p rest
  end.

Definition ascii_upper_char (c : ascii) : ascii :=
  if is_lower_letter c then ascii_of_nat (nat_of_ascii c - 32) else c.

Definition ascii_lower_char (c : ascii) : ascii :=
  if is_upper_letter c then ascii_of_nat (nat_of_ascii c + 32) else c.

Fixpoint string_map (f : ascii -> ascii) (s : string) : string :=
  match s with
  | EmptyString => EmptyString
  | String c rest => String (f c) (string_map f rest)
  end.

Definition ascii_upper : string -> string := string_map ascii_upper_char.
Definition ascii_lower : string -> string := string_map ascii_lower_char.

Fixpoint ascii_lstrip (s : string) : string :=
  match s with
  | EmptyString => EmptyString
  | String c rest => if is_space c then ascii_lstrip rest else s
  end.

Fixpoint ascii_rstrip (s : string) : string :=
  match s with
  | EmptyString => EmptyString
  | String c rest =>
      let r := ascii_rstrip rest in
      if is_space c && String.eqb r "" then EmptyString else String c r
  end.

Definition ascii_strip (s : string) : string := ascii_rstrip (ascii_lstrip s).

Class str_methods : Type := {
  str_upper : string -> string;
  str_lower : string -> string;
  str_strip : string -> string;
  (** [int(s)] for a string: [None] stands for the ValueError. *)
  str_to_int : string -> option Z;
  str_upper_ascii : forall s, is_ascii s = true -> str_upper s = ascii_upper s;
  str_lower_ascii : forall s, is_ascii s = true -> str_lower s = ascii_lower s;
  str_strip_ascii : forall s, is_ascii s = true -> str_strip s = ascii_strip s
}.

(** The string made of a line feed. *)
Definition newline : string := String (ascii_of_nat 10) EmptyString.

(** [s.replace(c, '')] for a one-character [c]. *)
Fixpoint str_remove (c : ascii) (s : string) : string :=
  match s with
  | EmptyString => EmptyString
  | String a rest =>
      if Ascii.eqb a c then str_remove c rest else String a (str_remove c rest)
  end.

(** [needle in hay] *)
Fixpoint str_contains (needle hay : string) : bool :=
  String.prefix needle hay ||
  match hay with
  | EmptyString => false
  | String _ rest => str_contains needle rest
  end.

(** [d.get(k, default)] on a literal dictionary with string keys. *)
Fixpoint dict_get {A : Type} (d : list (string * A)) (k : string) (default : A) : A :=
  match d with
  | nil => default
  | (k', v) :: rest => if String.eqb k' k then v else dict_get rest k default
  end.

(** [f'{n:+d}'] *)
Definition format_signed (n : Z) : string :=
  if Z.ltb n 0 then pretty n else "+" ++ pretty n.

(* ================================================================== *)
(** ** The licence database ([database.py]) *)
(* ================================================================== *)

Module database.

(** A row of the [licenses] table.  The surrogate key [id] is never read by
    the code and is left out; a row is identified by its place in the table.
    Timestamps are seconds on the server's clock.  Column lengths are the
    backend's concern and are not modelled. *)
Record License : Type := mkLicense {
  key : string;
  email : string;
  status : string;
  tier : string;
  created_at : Z;
  last_used : option Z;
  request_count : Z
}.

(** The table, in the order in which a query without [ORDER BY] yields its
    rows. *)
Definition table : Type := list License.

Definition is_valid (l : License) : bool := String.eqb (status l) "active".

(** [record_usage], on the row. *)
Definition record_usage (now : Z) (l : License) : License :=
  mkLicense (key l) (email l) (status l) (tier l) (created_at l)
    (Some now) (request_count l + 1).

(** [License.query.filter_by(...).first()] *)
Definition query_first (p : License -> bool) (t : table) : option License :=
  List.find p t.

(** What a commit writes back after the row returned by [first()] was
    changed: that row, in place. *)
Fixpoint update_first (p : License -> bool) (f : License -> License) (t : table)
    : table :=
  match t with
  | nil => nil
  | l :: rest => if p l then f l :: rest else l :: update_first p f rest
  end.

Definition by_key (k : string) (l : License) : bool := String.eqb (key l) k.

(** *** [generate_license_key] *)

Definition hex_digit (d : N) : ascii :=
  match String.get (N.to_nat d) "0123456789abcdef" with
  | Some c => c
  | None => "0"%char
  end.

Fixpoint hex_digits (width : nat) (n : N) : string :=
  match width with
  | O => EmptyString
  | S w => hex_digits w (n / 16) ++ String (hex_digit (n mod 16)) EmptyString
  end.

(** [secrets.token_hex(nbytes)] on a draw from the system's entropy: the
    low [nbytes] bytes of the draw, as lowercase hexadecimal digits. *)
Definition token_hex (nbytes : nat) (draw : N) : string :=
  hex_digits (2 * nbytes) draw.

(** The alphabet of a key's segments, for stating the format: the digits
    and the capitals A to F. *)
Definition is_upper_hex_char (c : ascii) : bool :=
  let n := nat_of_ascii c in
  ((48 <=? n)%nat && (n <=? 57)%nat) || ((65 <=? n)%nat && (n <=? 70)%nat).

Fixpoint is_upper_hex (s : string) : bool :=
  match s with
  | EmptyString => true
  | String c rest => is_upper_hex_char c && is_upper_hex rest
  end.

Section Keys.

Context {py : str_methods}.

(** The candidate key made of the draws [i] and [i + 1] of the entropy
    source. *)
Definition candidate_key (prefix : string) (entropy : nat -> N) (i : nat) : string :=
  let segment1 := str_upper (token_hex 3 (entropy i)) in
  let segment2 := str_upper (token_hex 3 (entropy (S i))) in
  prefix ++ "-" ++ segment1 ++ "-" ++ segment2.

(** The first candidate and the [while] loop that redraws as long as the
    candidate is taken.  [fuel] bounds the number of candidates tried;
    [None] is the loop still running when the fuel is spent.  The result is
    the key and the position reached in the entropy source. *)
Fixpoint generate_license_key (fuel : nat) (prefix : string) (t : table)
    (entropy : nat -> N) (i : nat) : option (string * nat) :=
  match fuel with
  | O => None
  | S fuel' =>
      let key := candidate_key prefix entropy i in
      match query_first (by_key key) t with
      | Some _ => generate_license_key fuel' prefix t entropy (2 + i)
      | None => Some (key, (2 + i)%nat)
      end
  end.

(** *** [create_license] *)

Definition tier_prefixes : list (string * string) :=
  ("free", "FREE") :: ("pro", "PRO") :: ("enterprise", "ENT") :: nil.

Definition create_license (fuel : nat) (now : Z) (entropy : nat -> N) (i : nat)
    (email tier status : string) (t : table) : option (License * table * nat) :=
  let prefix := dict_get tier_prefixes (str_lower tier) "PRO" in
  match generate_license_key fuel prefix t entropy i with
  | None => None
  | Some (key, i') =>
      let license := mkLicense key email status (str_lower tier) now None 0 in
      Some (license, (t ++ license :: nil)%list, i')
  end.

End Keys.

(** *** [validate_license] *)

(** The returned pair and the table afterwards.  The pair is
    [(True, license)], written [inl license], or [(False, message)], written
    [inr message].  The key is what [request.headers.get] gave: a string or
    [None]. *)
Definition validate_license (now : Z) (key : option string) (t : table)
    : (License + string) * table :=
  match key with
  | None => (inr "License key is required", t)
  | Some k =>
      if String.eqb k "" then (inr "License key is required", t)
      else
        match query_first (by_key k) t with
        | None => (inr "License key not found", t)
        | Some license =>
            if negb (is_valid license) then
              (inr ("License is " ++ status license), t)
            else
              (inl (record_usage now license),
               update_first (by_key k) (record_usage now) t)
        end
  end.

(** *** [revoke_license] *)

Definition revoke (l : License) : License :=
  mkLicense (key l) (email l) "revoked" (tier l) (created_at l)
    (last_used l) (request_count l).

Definition revoke_license (k : string) (t : table) : bool * table :=
  match query_first (by_key k) t with
  | None => (false, t)
  | Some _ => (true, update_first (by_key k) revoke t)
  end.

(** *** [get_license_stats] *)

Record Stats : Type := mkStats {
  total_licenses : Z;
  active : Z;
  revoked : Z;
  total_requests : Z
}.

Definition count_status (s : string) (t : table) : Z :=
  Z.of_nat (length (List.filter (fun l => String.eqb (status l) s) t)).

Definition requests_of (t : table) : Z :=
  fold_right (fun l acc => request_count l + acc) 0 t.

(** [func.sum(License.request_count)] is NULL on an empty table, hence the
    [or 0]. *)
Definition sum_requests (t : table) : option Z :=
  match t with
  | nil => None
  | _ => Some (requests_of t)
  end.

Definition get_license_stats (t : table) : Stats :=
  mkStats (Z.of_nat (length t)) (count_status "active" t)
    (count_status "revoked" t)
    (match sum_requests t with
     | Some n => if Z.eqb n 0 then 0 else n
     | None => 0
     end).

End database.

(* ================================================================== *)
(** ** The licence check ([auth.py]) *)
(* ================================================================== *)

Module auth.

(** A JSON response: the body and the status code. *)
Definition unauthorized (message : string) : gmap string pyval * Z :=
  (<["error" := VStr "Unauthorized"]>
   (<["message" := VStr message]>
   (<["hint" := VStr "Include valid license key in X-License-Key header"]> ∅)),
   401).

(** [require_license(f)]: the wrapped view.  [license_key] is the
    [X-License-Key] header, [to_response] is the view's type of response
    built from a JSON body and a status, and the view receives the licence
    set on the request together with the table as validation left it. *)
Definition require_license {R : Type}
    (to_response : gmap string pyval * Z -> R)
    (f : database.License -> database.table -> R * database.table)
    (now : Z) (license_key : option string) (t : database.table)
    : R * database.table :=
  match database.validate_license now license_key t with
  | (inr message, t) => (to_response (unauthorized message), t)
  | (inl license, t) => f license t
  end.

(** [get_license_info] of a request on which the licence was set. *)
Definition get_license_info (license : database.License) : gmap string pyval :=
  <["email" := VStr (database.email license)]>
  (<["tier" := VStr (database.tier license)]>
  (<["request_count" := VInt (database.request_count license)]> ∅)).

(** [check_rate_limit] *)
Definition rate_limits : list (string * Z) :=
  ("free", 10) :: ("pro", 1000) :: ("enterprise", 10000) :: nil.

Definition check_rate_limit (license : database.License) : bool * string :=
  let limit := dict_get rate_limits (database.tier license) 10 in
  if Z.leb (limit * 365) (database.request_count license) then
    (false, "Rate limit exceeded for " ++ database.tier license ++ " tier")
  else (true, "OK").

End auth.

(* ================================================================== *)
(** ** The market analyst ([market_analyst.py]) *)
(* ================================================================== *)

Module market_analyst.

(** An article of the news provider's answer, typed as the provider
    documents it; [None] is a missing key.  [publisher] is the publisher
    object, inside it the name. *)
Record Article : Type := mkArticle {
  title : option string;
  tickers : option (list string);
  description : option string;
  published_utc : option string;
  publisher : option (option string);
  article_url : option string
}.

(** The two services the analyst calls over HTTP.
    - [polygon_news]: the request for the latest 50 articles (it carries no
      ticker); the answer is [data['results']], [None] when the key is
      missing; it raises on a transport error, an error status or a body that
      is no JSON.
    - [openai_analysis]: the chat completion for the prompt built from the
      ticker, the score, the breakdown and the headlines; the answer is the
      parsed content ([json.loads(analysis_text)]); it raises on any failure
      on the way.  The prompt's text is not modelled: building it cannot fail
      on the engine's breakdown, and what the service makes of it is the
      service's. *)
Class Services : Type := {
  polygon_news : result (option (list Article));
  openai_analysis : string -> pyval -> pyval -> list (gmap string pyval) -> result pyval
}.

(** [int(x)] *)
Definition py_int {py : str_methods} (v : pyval) : result Z :=
  match v with
  | VInt n => Ok n
  | VBool b => Ok (if b then 1 else 0)
  | VFloat (Fin q) => Ok (Z.quot (Qnum q) (Zpos (Qden q)))
  | VFloat NaN => Raise (PyExc "ValueError" "cannot convert float NaN to integer")
  | VFloat _ => Raise (PyExc "OverflowError" "cannot convert float infinity to integer")
  | VStr s =>
      match str_to_int s with
      | Some n => Ok n
      | None => Raise (PyExc "ValueError" "invalid literal for int() with base 10")
      end
  | VNone | VDict _ =>
      Raise (PyExc "TypeError"
               "int() argument must be a string, a bytes-like object or a real number")
  end.

(** The receiver of a [.get]: anything but a dictionary has no such
    method. *)
Definition as_dict (v : pyval) : result (gmap string pyval) :=
  match v with
  | VDict d => Ok d
  | _ => Raise (PyExc "AttributeError" "object has no attribute 'get'")
  end.

(** [d.get(key, default)] *)
Definition py_get (d : gmap string pyval) (key : string) (default : pyval) : pyval :=
  match d !! key with
  | Some v => v
  | None => default
  end.

Section Analyst.

Context {py : str_methods} {services : Services}.

(** *** [fetch_news] *)

(** The dictionary kept for a relevant article. *)
Definition news_entry (article : Article) : gmap string pyval :=
  <["title" := VStr (default "" (title article))]>
  (<["description" := VStr (default "" (description article))]>
  (<["published_utc" := VStr (default "" (published_utc article))]>
  (<["publisher" :=
       VStr (match publisher article with
             | Some (Some name) => name
             | _ => "Unknown"
             end)]>
  (<["article_url" := VStr (default "#" (article_url article))]> ∅)))).

(** "Check if ticker is in the tickers list OR mentioned in title" *)
Definition relevant (ticker : string) (article : Article) : bool :=
  let ticker_upper := str_upper ticker in
  let in_tickers_list :=
    existsb (String.eqb ticker_upper) (map str_upper (default nil (tickers article))) in
  let in_title := str_contains ticker_upper (str_upper (default "" (title article))) in
  in_tickers_list || in_title.

(** The [for] loop over the results, with its [break]. *)
Fixpoint collect_articles (ticker : string) (results : list Article)
    (ticker_articles : list (gmap string pyval)) : list (gmap string pyval) :=
  match results with
  | nil => ticker_articles
  | article :: rest =>
      if relevant ticker article then
        let ticker_articles := (ticker_articles ++ news_entry article :: nil)%list in
        if (10 <=? length ticker_articles)%nat then ticker_articles
        else collect_articles ticker rest ticker_articles
      else collect_articles ticker rest ticker_articles
  end.

Definition fetch_news (ticker : string) : list (gmap string pyval) :=
  match polygon_news with
  | Ok (Some results) =>
      if Nat.eqb (length results) 0 then nil
      else collect_articles ticker results nil
  | Ok None => nil
  | Raise _ => nil
  end.

(** *** [analyze_context] *)

(** [score >= n] for whatever was passed as the score. *)
Definition score_ge (score : pyval) (n : Z) : result bool :=
  match score with
  | VInt s => Ok (Z.leb n s)
  | VBool b => Ok (Z.leb n (if b then 1 else 0))
  | VFloat x => Ok (fle (of_Z n) x)
  | _ => Raise (PyExc "TypeError" "'>=' not supported between instances")
  end.

(** "Intelligent fallback based on score": the [except] branch. *)
Definition fallback (score : pyval) : result (gmap string pyval) :=
  strong <- score_ge score 70 ;;
  choice <-
    (if strong : bool then
       Ok ("Strong technical setup with favorable market conditions. Monitor for entry timing.",
           "Potential for short-term pullback", 5)
     else
       mixed <- score_ge score 50 ;;
       if mixed : bool then
         Ok ("Mixed signals present. If holding, maintain position. If flat, wait for clearer setup.",
             "Unclear momentum direction", 0)
       else
         Ok ("Technical setup not favorable for swing entry at current levels.",
             "Weak momentum and market headwinds", -3)) ;;
  let '(fallback_analysis, fallback_risk, fallback_score) := choice in
  Ok (<["sentiment_score" := VInt fallback_score]>
     (<["analysis" := VStr fallback_analysis]>
     (<["key_risk" := VStr fallback_risk]>
     (<["news_count" := VInt 0]> ∅)))).

(** The [try] block from the call of the service on. *)
Definition analyze_context_try (ticker : string) (score breakdown : pyval)
    (news_list : list (gmap string pyval)) : result (gmap string pyval) :=
  reply <- openai_analysis ticker score breakdown news_list ;;
  analysis <- as_dict reply ;;
  let sentiment_score := py_get analysis "sentiment_score" (VInt 0) in
  n <- py_int sentiment_score ;;
  let sentiment_score := Z.max (-10) (Z.min 10 n) in
  Ok (<["sentiment_score" := VInt sentiment_score]>
     (<["analysis" := py_get analysis "analysis" (VStr "Analysis unavailable")]>
     (<["key_risk" := py_get analysis "key_risk" (VStr "Monitor market conditions")]>
     (<["news_count" := VInt (Z.of_nat (length news_list))]> ∅)))).

(** The method raises only out of its [except] branch, when the score does
    not compare with a number. *)
Definition analyze_context (ticker : string) (score breakdown : pyval)
    (news_list : list (gmap string pyval)) : result (gmap string pyval) :=
  match analyze_context_try ticker score breakdown news_list with
  | Ok r => Ok r
  | Raise _ => fallback score
  end.

(** *** [get_comprehensive_analysis] *)

Definition get_comprehensive_analysis (ticker : string) (score breakdown : pyval)
    : gmap string pyval :=
  let news_list := fetch_news ticker in
  match analyze_context ticker score breakdown news_list with
  | Ok analysis => analysis
  | Raise _ =>
      <["sentiment_score" := VInt 0]>
      (<["analysis" := VStr "Analysis temporarily unavailable"]>
      (<["key_risk" := VStr "System error"]>
      (<["news_count" := VInt 0]> ∅)))
  end.

End Analyst.

End market_analyst.

(* ================================================================== *)
(** ** The endpoints ([app_new.py]) *)
(* ================================================================== *)

Module app_new.

(** *** [validate_ticker] *)

(** The capitals at the head of a string, [n] at most, and what follows
    them. *)
Fixpoint span_capitals (n : nat) (s : string) : nat * string :=
  match n, s with
  | S n', String c rest =>
      if is_upper_letter c then
        let '(k, tail) := span_capitals n' rest in (S k, tail)
      else (O, s)
  | _, _ => (O, s)
  end.

(** [re.match(r'^[A-Z]{1,5}$', s)]: one to five capitals up to the end of the
    string, where [$] also matches just before a newline that ends the
    string. *)
Definition ticker_re_match (s : string) : bool :=
  let '(k, tail) := span_capitals 5 s in
  (1 <=? k)%nat &&
  (String.eqb tail "" || String.eqb tail newline).

Definition validate_ticker {py : str_methods} (ticker : string) : bool * string :=
  if String.eqb ticker "" then (false, "")
  else
    let cleaned := str_remove "$"%char (str_upper (str_strip ticker)) in
    if negb (ticker_re_match cleaned) then (false, "")
    else (true, cleaned).

(** *** [analyze_ticker] *)

(** A JSON response.  The body's [news] entry is a list, which [pyval] does
    not have: it is carried beside the other entries, [None] when the body
    has no such entry. *)
Record Response : Type := mkResponse {
  body : gmap string pyval;
  news : option (list (gmap string pyval));
  status_code : Z
}.

(** [jsonify(body), status] for a body without lists. *)
Definition jsonify (r : gmap string pyval * Z) : Response :=
  mkResponse (fst r) None (snd r).

(** The receiver of [.strip()]. *)
Definition as_str (v : pyval) : result string :=
  match v with
  | VStr s => Ok s
  | _ => Raise (PyExc "AttributeError" "object has no attribute 'strip'")
  end.

(** The integer an [int] or [bool] sentiment stands for in
    [(s + 10) / 20] and under the format [+d]; on any other value one of the
    two raises.  [analyze_context] only ever returns an [int]. *)
Definition sentiment_of (v : pyval) : result Z :=
  match v with
  | VInt n => Ok n
  | VBool b => Ok (if b then 1 else 0)
  | VFloat _ => Raise (PyExc "ValueError" "Unknown format code 'd' for object of type 'float'")
  | _ => Raise (PyExc "TypeError" "unsupported operand type(s) for +")
  end.

(** The dictionaries that stand in for the analysis when it is disabled and
    when it raised. *)
Definition ai_disabled : gmap string pyval :=
  <["sentiment_score" := VInt 0]>
  (<["analysis" := VStr "AI analysis disabled"]>
  (<["key_risk" := VStr "N/A"]> ∅)).

Definition ai_unavailable : gmap string pyval :=
  <["sentiment_score" := VInt 0]>
  (<["analysis" := VStr "AI analysis unavailable"]>
  (<["key_risk" := VStr "Analysis error"]> ∅)).

Section Analyze.

Context {py : str_methods} {ta : pandas_ta}.

(** "STEP 2: Holistic AI Analysis (if enabled)": the dictionary [ai_result].
    The arguments of the call are evaluated inside the [try]. *)
Definition ai_analysis (market_analyst : option market_analyst.Services)
    (use_ai : pyval) (cleaned_ticker : string)
    (technical_result : gmap string pyval)
    (news_articles : list (gmap string pyval)) : gmap string pyval :=
  match market_analyst with
  | Some services =>
      if py_truthy (Some use_ai) then
        match
          (score <- py_getitem technical_result "score" ;;
           breakdown <- py_getitem technical_result "breakdown" ;;
           market_analyst.analyze_context (services := services)
             cleaned_ticker score breakdown news_articles)
        with
        | Ok ai_result => ai_result
        | Raise _ => ai_unavailable
        end
      else ai_disabled
  | None => ai_disabled
  end.

(** From "Calculate AI adjustment" to the response.  The engine's score is
    an [int]; the sum is modelled for that case. *)
Definition build_response (cleaned_ticker : string)
    (technical_result ai_result : gmap string pyval)
    (news_articles : list (gmap string pyval)) (timestamp : string)
    : result Response :=
  ai_sentiment_score <-
    sentiment_of (market_analyst.py_get ai_result "sentiment_score" (VInt 0)) ;;
  ai_points <- ai_points_of ai_sentiment_score ;;
  breakdown <- py_getitem technical_result "breakdown" ;;
  breakdown <- market_analyst.as_dict breakdown ;;
  details <- py_getitem breakdown "details" ;;
  details <- market_analyst.as_dict details ;;
  let details :=
    <["ai_sentiment" :=
        VDict (<["ai_score" := VStr (format_signed ai_sentiment_score ++ "/10")]>
              (<["points" := VStr (pretty ai_points ++ "/10")]>
              (<["analysis" := market_analyst.py_get ai_result "analysis" (VStr "N/A")]>
              (<["key_risk" := market_analyst.py_get ai_result "key_risk" (VStr "N/A")]>
                 ∅))))]>
      details in
  let breakdown :=
    <["details" := VDict details]> (<["ai_sentiment" := VInt ai_points]> breakdown) in
  engine_score <- py_getitem technical_result "score" ;;
  match engine_score with
  | VInt engine_score =>
      let final_score := engine_score + ai_points in
      let final_score := Z.min 100 final_score in
      let kill_switch := bool_decide (is_Some (technical_result !! "reason")) in
      let verdict := app_verdict kill_switch final_score in
      current_price <- py_getitem technical_result "current_price" ;;
      let response : gmap string pyval :=
        <["ticker" := VStr cleaned_ticker]>
        (<["score" := VInt final_score]>
        (<["verdict" := VStr verdict]>
        (<["breakdown" := VDict breakdown]>
        (<["ai_summary" :=
             market_analyst.py_get ai_result "analysis" (VStr "No analysis available")]>
        (<["current_price" := current_price]>
        (<["timestamp" := VStr timestamp]>
        (<["trade_setup" :=
             market_analyst.py_get technical_result "trade_setup" (VDict ∅)]>
           ∅))))))) in
      let response :=
        match technical_result !! "reason" with
        | Some reason => <["warning" := reason]> response
        | None => response
        end in
      Ok (mkResponse response (Some (firstn 3 news_articles)) 200)
  | _ => Raise (PyExc "TypeError" "unsupported operand type(s) for +")
  end.

(** The body of the [try] block.  [request_json] is [request.get_json()],
    [scorer] and [market_analyst] are the two components, [None] when their
    start-up failed, and [timestamp] is the formatted clock.  The workers of
    the executor run one after the other here: each result is awaited before
    the next is used, and neither of the two submitted calls can raise. *)
Definition analyze_ticker_try (scorer : option DataClient)
    (market_analyst : option market_analyst.Services) (timestamp : string)
    (request_json : result pyval) : result Response :=
  json <- request_json ;;
  data <- market_analyst.as_dict json ;;
  ticker <- as_str (market_analyst.py_get data "ticker" (VStr "")) ;;
  let ticker := str_strip ticker in
  let use_ai := market_analyst.py_get data "use_ai" (VBool true) in
  let '(is_valid, cleaned_ticker) := validate_ticker ticker in
  if negb is_valid then
    Ok (jsonify
          (<["error" :=
               VStr "Invalid ticker symbol. Please enter 1-5 letters (e.g., AAPL, TSLA)"]> ∅,
           400))
  else
    match scorer with
    | None => Ok (jsonify (<["error" := VStr "Swing Score Engine not available"]> ∅, 500))
    | Some data_client =>
        let technical_result :=
          calculate_score (data_client := data_client) cleaned_ticker in
        if bool_decide (is_Some (technical_result !! "error")) then
          Ok (jsonify (technical_result, 500))
        else
          let news_articles :=
            match market_analyst with
            | Some services =>
                market_analyst.fetch_news (services := services) cleaned_ticker
            | None => nil
            end in
          let ai_result :=
            ai_analysis market_analyst use_ai cleaned_ticker technical_result
              news_articles in
          build_response cleaned_ticker technical_result ai_result news_articles
            timestamp
    end.

Definition analyze_ticker (scorer : option DataClient)
    (market_analyst : option market_analyst.Services) (timestamp : string)
    (request_json : result pyval) : Response :=
  match analyze_ticker_try scorer market_analyst timestamp request_json with
  | Ok response => response
  | Raise _ =>
      jsonify (<["error" := VStr "Could not analyze ticker. Please try again."]> ∅, 500)
  end.

(** The route [/api/analyze]: [analyze_ticker] behind [require_license].
    The view does not touch the table. *)
Definition api_analyze (scorer : option DataClient)
    (market_analyst : option market_analyst.Services) (timestamp : string)
    (now : Z) (license_key : option string) (request_json : result pyval)
    (t : database.table) : Response * database.table :=
  auth.require_license jsonify
    (fun _ t => (analyze_ticker scorer market_analyst timestamp request_json, t))
    now license_key t.

End Analyze.

(** *** [license_info] *)

(** The route [/api/license/info]: behind [require_license] the licence is
    always set on the request, so the view answers with its data. *)
Definition license_info (now : Z) (license_key : option string)
    (t : database.table) : Response * database.table :=
  auth.require_license jsonify
    (fun license t =>
       (jsonify (<["status" := VStr "success"]>
                (<["license" := VDict (auth.get_license_info license)]> ∅), 200), t))
    now license_key t.

(** *** [create_test_key] *)

Definition test_key : string := "PRO-TEST00-KEY123".

(** The route [/admin/create-test-key]; it asks for no credentials. *)
Definition create_test_key (now : Z) (t : database.table)
    : Response * database.table :=
  match database.query_first (database.by_key test_key) t with
  | Some existing =>
      (jsonify (<["status" := VStr "exists"]>
               (<["key" := VStr test_key]>
               (<["message" := VStr "Test key already exists"]> ∅)), 200), t)
  | None =>
      let test_license :=
        database.mkLicense test_key "test@swingtradingcopilot.com" "active" "pro"
          now None 0 in
      (jsonify (<["status" := VStr "created"]>
               (<["key" := VStr test_key]>
               (<["message" := VStr "Test key created successfully"]> ∅)), 201),
       (t ++ test_license :: nil)%list)
  end.

End app_new.

(* ================================================================== *)
(** ** A reference indicator library and sample data *)
(* ================================================================== *)

(** Modelled from the spec: the indicator library ([pandas_ta]) is not part of
    the repository.  The spec describes it as a black box giving "one numeric
    series per indicator aligned to the input series' index" and names the
    indicators in its glossary (simple and exponential moving average, RSI,
    average true range).  [Reference] implements their textbook definitions:
    rolling mean, exponential smoothing seeded by the first window's mean, and
    Wilder's smoothing for RSI and ATR.  Every theorem about the engine holds
    for an arbitrary library; this instance only supplies concrete inputs. *)
Module Reference.

Definition fred (x : float) : float :=
  match x with
  | Fin q => Fin (Qred q)
  | _ => x
  end.

Definition mean (w : list float) : float :=
  fred (fdiv (fold_left fadd w (Fin 0)) (of_Z (Z.of_nat (length w)))).

(** Rolling mean over the [n] rows ending at row [i]. *)
Definition sma_row (xs : list float) (n i : nat) : float :=
  if (S i <? n)%nat then NaN else mean (firstn n (skipn (S i - n) xs)).

Definition sma (xs : list float) (n : nat) : option (list float) :=
  if (length xs <? n)%nat then None
  else Some (map (sma_row xs n) (seq 0 (length xs))).

(** [y_t = alpha * x_t + (1 - alpha) * y_(t-1)] *)
Fixpoint smooth_from (alpha : Q) (prev : float) (xs : list float) : list float :=
  match xs with
  | nil => nil
  | x :: rest =>
      let y := fred (fadd (fmul (Fin alpha) x) (fmul (Fin (1 - alpha)) prev)) in
      y :: smooth_from alpha y rest
  end.

(** Undefined on the first [n - 1] rows, the mean of the first [n] values at
    row [n - 1], smoothed from there on. *)
Definition smooth (alpha : Q) (n : nat) (xs : list float) : list float :=
  if (length xs <? n)%nat then repeat NaN (length xs)
  else
    let seed := mean (firstn n xs) in
    app (repeat NaN (n - 1)) (seed :: smooth_from alpha seed (skipn n xs)).

Definition ema (xs : list float) (n : nat) : option (list float) :=
  if (length xs <? n)%nat then None
  else Some (smooth (2 # Pos.of_nat (n + 1)) n xs).

Fixpoint diffs (xs : list float) : list float :=
  match xs with
  | nil => nil
  | a :: rest =>
      match rest with
      | nil => nil
      | b :: _ => fsub b a :: diffs rest
      end
  end.

Definition gain (d : float) : float := if flt (Fin 0) d then d else Fin 0.
Definition loss (d : float) : float := if flt d (Fin 0) then fneg d else Fin 0.

Definition rsi_of (g_l : float * float) : float :=
  fred (fdiv (fmul (of_Z 100) (fst g_l)) (fadd (fst g_l) (snd g_l))).

Definition rsi (xs : list float) (n : nat) : option (list float) :=
  if (length xs <=? n)%nat then None
  else
    let d := diffs xs in
    let wilder := smooth (1 # Pos.of_nat n) n in
    Some (NaN :: map rsi_of (combine (wilder (map gain d)) (wilder (map loss d)))).

(** True range of each row given the previous close. *)
Fixpoint true_ranges (prev_close : option float) (hlc : list (float * float * float))
    : list float :=
  match hlc with
  | nil => nil
  | (h, l, c) :: rest =>
      let tr :=
        match prev_close with
        | None => fsub h l
        | Some pc => py_max (fsub h l) (py_max (fabs (fsub h pc)) (fabs (fsub l pc)))
        end in
      tr :: true_ranges (Some c) rest
  end.

Definition atr (hs ls cs : list float) (n : nat) : option (list float) :=
  if (length cs <? n)%nat then None
  else Some (smooth (1 # Pos.of_nat n) n
               (true_ranges None (combine (combine hs ls) cs))).

#[global]
Instance reference_ta : pandas_ta := {|
  ta_sma xs n := Ok (sma xs n);
  ta_ema xs n := Ok (ema xs n);
  ta_rsi xs n := Ok (rsi xs n);
  ta_atr hs ls cs n := Ok (atr hs ls cs n)
|}.

End Reference.

(** Sample frames.  A bar of day [t] closing at [c], trading one unit either
    side of the close. *)
Module Samples.

Definition day (t : nat) (c : Q) : Bar :=
  mkBar (Z.of_nat t) (Fin c) (Fin (c + 1)) (Fin (c - 1)) (Fin c) 1000.

Definition frame (closes : list Q) : DataFrame :=
  map (fun tc => day (fst tc) (snd tc)) (combine (seq 1 (length closes)) closes).

(** A pullback inside an uptrend, built so that Wilder's RSI is exactly 40:
    203 days at 100, a rise of g = 14^6 / 10^7 held for six days, and a last
    day that gives back l = (3/2) * 13^6 / 10^7.  The smoothed gain is then
    g/14 * (13/14)^6 and the smoothed loss l/14, in the ratio 2 : 3. *)
Definition pullback_closes : list Q :=
  (app (repeat 100 203)
     (app (repeat (1007529536 # 10000000) 6) ((10002893225 # 100000000) :: nil)))%Q.

(** A market proxy that rose one point a day for 55 days and then lost a point
    a day for five days (60 bars). *)
Definition rising_market_closes : list Q :=
  (app (map (fun i => inject_Z (400 + Z.of_nat i)) (seq 0 55))
     (453 :: 452 :: 451 :: 450 :: 449 :: nil))%Q.

(** A calm volatility index: 60 days at 15. *)
Definition calm_vix_closes : list Q := repeat 15%Q 60.

(** 205 days at 100 followed by five days at 98 (210 bars): the last close is
    below the 200-day mean. *)
Definition slump_closes : list Q := (app (repeat 100 205) (repeat 98 5))%Q.

(** 200 days at 100: the last close equals the 200-day mean. *)
Definition flat_closes : list Q := repeat 100%Q 200.

(** Twenty days rising one point a day from 100 to 119. *)
Definition advance_closes : list Q :=
  map (fun i => inject_Z (100 + Z.of_nat i)) (seq 0 20).

(** Six days falling from 100 to 95, and six days rising from 400 to 405. *)
Definition falling_closes : list Q := (100 :: 99 :: 98 :: 97 :: 96 :: 95 :: nil)%Q.
Definition climbing_closes : list Q := (400 :: 401 :: 402 :: 403 :: 404 :: 405 :: nil)%Q.

(** A sell-off: 205 days at 100, then five days losing ten points each down
    to 50, while the market proxy slides from 450 to 400 over the same five
    days and the volatility index stands at 35. *)
Definition selloff_closes : list Q :=
  (app (repeat 100 205) (90 :: 80 :: 70 :: 60 :: 50 :: nil))%Q.
Definition sliding_market_closes : list Q :=
  (app (repeat 450 55) (440 :: 430 :: 420 :: 410 :: 400 :: nil))%Q.
Definition fearful_vix_closes : list Q := repeat 35%Q 60.

(** Five days only. *)
Definition short_closes : list Q := (100 :: 101 :: 102 :: 103 :: 104 :: nil)%Q.

(** The finite number in a cell (0 when there is none). *)
Definition fin_of (c : cell) : Q :=
  match c with
  | Some (Fin q) => q
  | _ => 0%Q
  end.

(** A client that serves fixed frames for the ticker, SPY and VIX. *)
Definition serve (ticker : string) (stock spy : list Q) (vix : option (list Q))
    : DataClient :=
  {| get_stock_bars symbol :=
       if String.eqb symbol ticker then Ok ((symbol, frame stock) :: nil)
       else if String.eqb symbol "SPY" then Ok ((symbol, frame spy) :: nil)
       else if String.eqb symbol "VIX" then
         match vix with
         | Some closes => Ok ((symbol, frame closes) :: nil)
         | None => Ok nil
         end
       else Ok nil |}.

(** The scenarios used below. *)
Definition aligned_client : DataClient :=
  serve "AAPL" pullback_closes rising_market_closes (Some calm_vix_closes).
Definition selloff_client : DataClient :=
  serve "AAPL" selloff_closes sliding_market_closes (Some fearful_vix_closes).
Definition weak_client : DataClient :=
  serve "AAPL" falling_closes climbing_closes None.
Definition short_client : DataClient :=
  serve "AAPL" short_closes climbing_closes None.

(** The float a computation returned (NaN when it raised). *)
Definition value_of (r : result float) : float :=
  match r with
  | Ok x => x
  | Raise _ => NaN
  end.

End Samples.

(** Sample surroundings of the server: an interpreter whose strings are
    ASCII, a licence table, an entropy source, an analyst's services and a
    request. *)
Module Fixtures.

(** [int(s)] on a string of decimal digits; anything else is refused (a
    sign, blanks or underscores, which Python would read, do not occur in
    the samples). *)
Fixpoint digits_to_int (acc : Z) (s : string) : option Z :=
  match s with
  | EmptyString => Some acc
  | String c rest =>
      let n := nat_of_ascii c in
      if ((48 <=? n)%nat && (n <=? 57)%nat)%bool
      then digits_to_int (10 * acc + Z.of_nat (n - 48)) rest
      else None
  end.

(** Python's [str] methods where every string is ASCII. *)
Definition ascii_methods : str_methods := {|
  str_upper := ascii_upper;
  str_lower := ascii_lower;
  str_strip := ascii_strip;
  str_to_int s := if String.eqb s "" then None else digits_to_int 0 s;
  str_upper_ascii := fun _ _ => eq_refl;
  str_lower_ascii := fun _ _ => eq_refl;
  str_strip_ascii := fun _ _ => eq_refl
|}.

(** Two customers: an active "pro" licence and a revoked "free" one. *)
Definition alice : database.License :=
  database.mkLicense "PRO-A3F92E-B7D4C1" "alice@example.com" "active" "pro"
    1700000000 None 0.
Definition bob : database.License :=
  database.mkLicense "FREE-0012AB-34CD56" "bob@example.com" "revoked" "free"
    1700000500 (Some 1700000900) 12.
Definition customers : database.table := alice :: bob :: nil.

(** An entropy source whose first two draws spell alice's key, so that the
    first candidate for a "pro" key is taken. *)
Definition entropy (i : nat) : N :=
  match i with
  | 0%nat => 10746158
  | 1%nat => 12047553
  | 2%nat => 1977405
  | 3%nat => 8388863
  | _ => N.of_nat i
  end.

(** An analyst whose news feed holds one article on the ticker and one on
    another, and whose model answers with a sentiment of 7. *)
Definition headline : market_analyst.Article :=
  market_analyst.mkArticle (Some "AAPL beats estimates") (Some ("AAPL" :: nil))
    (Some "Quarterly results") (Some "2024-01-02T10:00:00Z")
    (Some (Some "Newswire")) (Some "https://example.com/aapl").
Definition unrelated : market_analyst.Article :=
  market_analyst.mkArticle (Some "Oil slips") (Some ("XOM" :: nil)) None None None None.
Definition analyst : market_analyst.Services := {|
  market_analyst.polygon_news := Ok (Some (unrelated :: headline :: nil));
  market_analyst.openai_analysis _ _ _ _ :=
    Ok (VDict (<["sentiment_score" := VInt 7]>
               (<["analysis" := VStr "Constructive news flow"]>
               (<["key_risk" := VStr "Earnings next week"]> ∅))))
|}.

(** The JSON body [{"ticker": ticker}], and the same with [use_ai] off. *)
Definition request (ticker : string) : gmap string pyval :=
  <["ticker" := VStr ticker]> ∅.
Definition request_without_ai (ticker : string) : gmap string pyval :=
  <["use_ai" := VBool false]> (request ticker).

End Fixtures.

(* ================================================================== *)
(** * Properties *)
(* ================================================================== *)

(** ** Comparisons of floats *)

Lemma Qlt_bool_iff (x y : Q) : Qlt_bool x y = true <-> (x < y)%Q.
Proof.
  unfold Qlt_bool. rewrite negb_true_iff. split.
  - intros H. apply Qnot_le_lt. intros Hle.
    apply Qle_bool_iff in Hle. congruence.
  - intros H. destruct (Qle_bool y x) eqn:E; [|reflexivity].
    apply Qle_bool_iff in E. exfalso. exact (Qlt_not_le _ _ H E).
Qed.

Lemma Qlt_bool_false_iff (x y : Q) : Qlt_bool x y = false <-> (y <= x)%Q.
Proof.
  unfold Qlt_bool. rewrite negb_false_iff. apply Qle_bool_iff.
Qed.

Lemma Qle_bool_false_iff (x y : Q) : Qle_bool x y = false <-> (y < x)%Q.
Proof.
  rewrite <- Qlt_bool_iff. unfold Qlt_bool.
  destruct (Qle_bool x y); simpl; split; congruence.
Qed.

(** A strict comparison excludes its converse, whatever the operands. *)
Lemma flt_asym (x y : float) : flt x y = true -> flt y x = false.
Proof.
  destruct x as [| |a|], y as [| |b|]; simpl; try congruence.
  rewrite Qlt_bool_iff, Qlt_bool_false_iff. apply Qlt_le_weak.
Qed.

(** Boolean comparisons of rationals, as propositions. *)
Ltac qprop :=
  repeat match goal with
  | H : Qlt_bool _ _ = true |- _ => apply Qlt_bool_iff in H
  | H : Qlt_bool _ _ = false |- _ => apply Qlt_bool_false_iff in H
  | H : Qle_bool _ _ = true |- _ => apply Qle_bool_iff in H
  | H : Qle_bool _ _ = false |- _ => apply Qle_bool_false_iff in H
  | H : Qeq_bool _ _ = true |- _ => apply Qeq_bool_iff in H
  | |- Qlt_bool _ _ = true => apply Qlt_bool_iff
  | |- Qlt_bool _ _ = false => apply Qlt_bool_false_iff
  | |- Qle_bool _ _ = true => apply Qle_bool_iff
  | |- Qle_bool _ _ = false => apply Qle_bool_false_iff
  end.

Lemma Qeq_bool_pos (p : Q) : (0 < p)%Q -> Qeq_bool p 0 = false.
Proof.
  intros Hp. destruct (Qeq_bool p 0) eqn:E; [|reflexivity].
  apply Qeq_bool_iff in E. rewrite E in Hp. discriminate.
Qed.

(** ** The three blocks of the technical factor *)

Section Technicals.

Context {ta : pandas_ta}.

Lemma trend_filter_cases (cp : float) (sma_200 : cell) (d : gmap string pyval) :
  let '(base, cap, _) := trend_filter cp sma_200 d in
  (base = 50 /\ cap = 100) \/ (base = 0 /\ cap = 40) \/ (base = 25 /\ cap = 100).
Proof.
  unfold trend_filter.
  destruct (negb (pd_isna sma_200)); [destruct (fgt cp (cell_val sma_200))|]; auto.
Qed.

Lemma rsi_dip_bonus_cases (rsi : cell) (d : gmap string pyval) :
  fst (rsi_dip_bonus rsi d) ∈ [-20; 10; 30; 0].
Proof.
  unfold rsi_dip_bonus.
  repeat match goal with |- context [if ?b then _ else _] => destruct b end;
    simpl; set_solver.
Qed.

Lemma ema_proximity_cases (cp : float) (ema_20 : cell) (d : gmap string pyval) :
  fst (ema_proximity cp ema_20 d) ∈ [20; -10; 0].
Proof.
  unfold ema_proximity.
  repeat match goal with |- context [if ?b then _ else _] => destruct b end;
    simpl; set_solver.
Qed.

(** The scores of the blocks do not depend on the details passed in. *)
Lemma rsi_dip_bonus_score (rsi : cell) (d d' : gmap string pyval) :
  fst (rsi_dip_bonus rsi d) = fst (rsi_dip_bonus rsi d').
Proof.
  unfold rsi_dip_bonus.
  repeat match goal with |- context [if ?b then _ else _] => destruct b end;
    reflexivity.
Qed.

Lemma ema_proximity_score (cp : float) (ema_20 : cell) (d d' : gmap string pyval) :
  fst (ema_proximity cp ema_20 d) = fst (ema_proximity cp ema_20 d').
Proof.
  unfold ema_proximity.
  repeat match goal with |- context [if ?b then _ else _] => destruct b end;
    reflexivity.
Qed.

(** The returned score is the clamped sum of the three blocks. *)
Lemma technicals_of_score (cp : float) (sma_200 ema_20 rsi : cell) :
  score (technicals_of cp sma_200 ema_20 rsi) =
  let '(base, cap, _) := trend_filter cp sma_200 ∅ in
  Z.max 0 (Z.min (base + fst (rsi_dip_bonus rsi ∅) + fst (ema_proximity cp ema_20 ∅)) cap).
Proof.
  unfold technicals_of.
  set (d0 := <["raw_values" := _]> ∅).
  assert (Ht : forall d, fst (trend_filter cp sma_200 d) = fst (trend_filter cp sma_200 ∅)).
  { intros d. unfold trend_filter.
    destruct (negb (pd_isna sma_200)); [destruct (fgt cp (cell_val sma_200))|];
      reflexivity. }
  specialize (Ht d0).
  destruct (trend_filter cp sma_200 d0) as [[base cap] d1].
  destruct (trend_filter cp sma_200 ∅) as [[base' cap'] d1'].
  simpl in Ht. inversion Ht; subst base' cap'.
  pose proof (rsi_dip_bonus_score rsi d1 ∅) as Hr.
  destruct (rsi_dip_bonus rsi d1) as [rs d2]. simpl in Hr.
  pose proof (ema_proximity_score cp ema_20 (<["rsi_score" := VInt rs]> d2) ∅) as He.
  destruct (ema_proximity cp ema_20 (<["rsi_score" := VInt rs]> d2)) as [es d3].
  simpl in He. simpl. rewrite Hr, He. reflexivity.
Qed.

Lemma technicals_of_bounds (cp : float) (sma_200 ema_20 rsi : cell) :
  0 <= score (technicals_of cp sma_200 ema_20 rsi) <= 100.
Proof.
  rewrite technicals_of_score.
  pose proof (trend_filter_cases cp sma_200 ∅) as Ht.
  destruct (trend_filter cp sma_200 ∅) as [[base cap] d]. lia.
Qed.

Lemma calculate_technicals_bounds (df : DataFrame) :
  0 <= score (calculate_technicals df) <= 100.
Proof.
  unfold calculate_technicals, technicals_try.
  destruct (ta_sma _ _); simpl; [|lia].
  destruct (ta_ema _ _); simpl; [|lia].
  destruct (ta_rsi _ _); simpl; [|lia].
  destruct (iloc_neg _ _); simpl; [|lia].
  apply technicals_of_bounds.
Qed.

Lemma trend_filter_uptrend (cp : float) (c : cell) (d : gmap string pyval) :
  pd_isna c = false -> fgt cp (cell_val c) = true ->
  fst (trend_filter cp c d) = (50, 100).
Proof. intros Hna Hgt. unfold trend_filter. rewrite Hna, Hgt. reflexivity. Qed.

Lemma trend_filter_downtrend (cp : float) (c : cell) (d : gmap string pyval) :
  pd_isna c = false -> fgt cp (cell_val c) = false ->
  trend_filter cp c d =
  (0, 40,
   <["in_uptrend" := VBool false]>
     (<["trend_filter" :=
          VStr ("⛔ DOWNTREND: $" ++ format_fixed false 2 cp ++
                " < 200 SMA $" ++ format_fixed false 2 (cell_val c) ++
                " (Capped at 40)")]> d)).
Proof. intros Hna Hgt. unfold trend_filter. rewrite Hna, Hgt. reflexivity. Qed.

(** A cell that compares with something is defined. *)
Lemma flt_cell_defined (x : float) (c : cell) :
  flt x (cell_val c) = true \/ flt (cell_val c) x = true -> pd_isna c = false.
Proof.
  destruct c as [[| |q|]|]; simpl; try reflexivity;
    destruct x; simpl; intros [H|H]; congruence.
Qed.

(** The technical factor when every read succeeds. *)
Lemma calculate_technicals_ok (df : DataFrame) (sc ec rc : option (list float))
    (cp : float) :
  ta_sma (col close df) 200 = Ok sc ->
  ta_ema (col close df) 20 = Ok ec ->
  ta_rsi (col close df) 14 = Ok rc ->
  iloc_neg (col close df) 1 = Ok cp ->
  calculate_technicals df = technicals_of cp (last_row sc) (last_row ec) (last_row rc).
Proof.
  intros Hs He Hr Hp. unfold calculate_technicals, technicals_try.
  rewrite Hs, He, Hr, Hp. reflexivity.
Qed.

(** C5. Downtrend cap: whenever the last close is strictly below the
    200-period SMA, the technical factor returns at most 40, whatever the RSI
    and EMA blocks contribute (and whatever else the indicator library
    does). *)
Theorem downtrend_cap (df : DataFrame) (sma_col : option (list float))
    (current_price : float) :
  ta_sma (col close df) 200 = Ok sma_col ->
  iloc_neg (col close df) 1 = Ok current_price ->
  flt current_price (cell_val (last_row sma_col)) = true ->
  score (calculate_technicals df) <= 40.
Proof.
  intros Hs Hp Hlt.
  unfold calculate_technicals, technicals_try. rewrite Hs. simpl.
  destruct (ta_ema _ _) as [ec|]; simpl; [|lia].
  destruct (ta_rsi _ _) as [rc|]; simpl; [|lia].
  rewrite Hp. simpl. rewrite technicals_of_score.
  rewrite (trend_filter_downtrend current_price (last_row sma_col) ∅).
  - lia.
  - apply (flt_cell_defined current_price). auto.
  - unfold fgt. apply flt_asym, Hlt.
Qed.

(** Within one percent of a non-zero EMA, the signed distance the code
    computes is a finite number between -1 and 1. *)
Lemma ema_distance_within (p e : Q) :
  ~ (e == 0)%Q -> (Qabs (p - e) <= (1 # 100) * Qabs e)%Q ->
  exists d, ema_distance (Fin p) (Fin e) = Fin d /\ (Qabs d <= 1)%Q.
Proof.
  intros Hne Hnear. unfold ema_distance, fsub, fadd, fneg, fdiv, of_Z.
  destruct (Qeq_bool e 0) eqn:E.
  { apply Qeq_bool_iff in E. contradiction. }
  simpl. eexists; split; [reflexivity|].
  set (t := ((p + - e) / e)%Q).
  assert (Ht : (t * e == p - e)%Q).
  { unfold t. rewrite Qmult_comm, Qmult_div_r by exact Hne. reflexivity. }
  apply Qabs_Qle_condition.
  revert Hnear. apply Qabs_case; intros Hd; apply Qabs_case; intros Hs Hnear;
    change (inject_Z 100) with (100 # 1)%Q; split; nra.
Qed.

(** C6. RSI sweet spot: in an uptrend (last close strictly above the
    200-period SMA) with RSI equal to 40 and the last close within 1% of a
    non-zero 20-period EMA, the technical factor returns exactly
    100 = 50 (base) + 30 (RSI) + 20 (EMA); the clamp to [0, 100] leaves it
    unchanged. *)
Theorem rsi_sweet_spot (df : DataFrame) (sc ec rc : option (list float))
    (p e r : Q) :
  ta_sma (col close df) 200 = Ok sc ->
  ta_ema (col close df) 20 = Ok ec ->
  ta_rsi (col close df) 14 = Ok rc ->
  iloc_neg (col close df) 1 = Ok (Fin p) ->
  fgt (Fin p) (cell_val (last_row sc)) = true ->
  last_row rc = Some (Fin r) -> (r == 40)%Q ->
  last_row ec = Some (Fin e) -> ~ (e == 0)%Q ->
  (Qabs (p - e) <= (1 # 100) * Qabs e)%Q ->
  score (calculate_technicals df) = 100 /\
  fst (trend_filter (Fin p) (last_row sc) ∅) = (50, 100) /\
  fst (rsi_dip_bonus (last_row rc) ∅) = 30 /\
  fst (ema_proximity (Fin p) (last_row ec) ∅) = 20.
Proof.
  intros Hs He Hr Hp Hup Hrsi Hr40 Hema Hne Hnear.
  assert (Ht : fst (trend_filter (Fin p) (last_row sc) ∅) = (50, 100)).
  { apply trend_filter_uptrend; [|exact Hup].
    apply (flt_cell_defined (Fin p)). right. exact Hup. }
  assert (Hb : fst (rsi_dip_bonus (last_row rc) ∅) = 30).
  { rewrite Hrsi. unfold rsi_dip_bonus, fgt, of_Z. simpl.
    assert (H1 : Qlt_bool (inject_Z 70) r = false)
      by (apply Qlt_bool_false_iff; rewrite Hr40; discriminate).
    assert (H2 : Qle_bool (inject_Z 50) r = false)
      by (apply Qle_bool_false_iff; rewrite Hr40; reflexivity).
    assert (H3 : Qle_bool (inject_Z 30) r = true)
      by (apply Qle_bool_iff; rewrite Hr40; discriminate).
    assert (H4 : Qlt_bool r (inject_Z 50) = true)
      by (apply Qlt_bool_iff; rewrite Hr40; reflexivity).
    rewrite H1, H2, H3, H4. reflexivity. }
  assert (Hx : fst (ema_proximity (Fin p) (last_row ec) ∅) = 20).
  { rewrite Hema. unfold ema_proximity. simpl.
    destruct (ema_distance_within p e Hne Hnear) as (d & Hd & Hd1).
    rewrite Hd. simpl.
    assert (H1 : Qle_bool (Qabs d) (inject_Z 2) = true).
    { apply Qle_bool_iff. eapply Qle_trans; [exact Hd1|discriminate]. }
    rewrite H1. reflexivity. }
  repeat split; try assumption.
  rewrite (calculate_technicals_ok df sc ec rc (Fin p)) by assumption.
  rewrite technicals_of_score.
  destruct (trend_filter (Fin p) (last_row sc) ∅) as [[base cap] d].
  simpl in Ht. inversion Ht; subst. rewrite Hb, Hx. reflexivity.
Qed.

(** The RSI and EMA blocks write their own keys only. *)
Lemma rsi_dip_bonus_details (rsi : cell) (d : gmap string pyval) (k : string) :
  k <> "rsi_signal" -> snd (rsi_dip_bonus rsi d) !! k = d !! k.
Proof.
  intros Hk. unfold rsi_dip_bonus.
  repeat match goal with |- context [if ?b then _ else _] => destruct b end;
    simpl; apply lookup_insert_ne; congruence.
Qed.

Lemma ema_proximity_details (cp : float) (ema_20 : cell) (d : gmap string pyval)
    (k : string) :
  k <> "ema_signal" -> k <> "ema_distance_pct" ->
  snd (ema_proximity cp ema_20 d) !! k = d !! k.
Proof.
  intros Hk Hk'. unfold ema_proximity.
  repeat match goal with |- context [if ?b then _ else _] => destruct b end;
    simpl; rewrite ?lookup_insert_ne by congruence; reflexivity.
Qed.

(** C9. Equality takes the downtrend branch: when the last close equals the
    200-period SMA, the trend filter gives base 0 and cap 40, flags
    [in_uptrend] false, and the factor returns the RSI and EMA blocks' sum
    clamped to [0, 40]. *)
Theorem close_equal_sma_is_downtrend (df : DataFrame)
    (sc ec rc : option (list float)) (p s : Q) :
  ta_sma (col close df) 200 = Ok sc ->
  ta_ema (col close df) 20 = Ok ec ->
  ta_rsi (col close df) 14 = Ok rc ->
  iloc_neg (col close df) 1 = Ok (Fin p) ->
  last_row sc = Some (Fin s) -> (p == s)%Q ->
  let r := calculate_technicals df in
  fst (trend_filter (Fin p) (last_row sc) ∅) = (0, 40) /\
  score r =
    Z.max 0 (Z.min (0 + fst (rsi_dip_bonus (last_row rc) ∅) +
                    fst (ema_proximity (Fin p) (last_row ec) ∅)) 40) /\
  score r <= 40 /\
  details r !! "in_uptrend" = Some (VBool false) /\
  details r !! "trend_score" = Some (VInt 0) /\
  details r !! "cap_applied" =
    Some (VStr "Score capped at 40 (downtrend protection)").
Proof.
  intros Hs He Hr Hp Hsma Heq r.
  assert (Hgt : fgt (Fin p) (cell_val (last_row sc)) = false).
  { rewrite Hsma. simpl. apply Qlt_bool_false_iff. rewrite Heq. apply Qle_refl. }
  assert (Hna : pd_isna (last_row sc) = false) by (rewrite Hsma; reflexivity).
  assert (Hscore : score r =
    Z.max 0 (Z.min (0 + fst (rsi_dip_bonus (last_row rc) ∅) +
                    fst (ema_proximity (Fin p) (last_row ec) ∅)) 40)).
  { unfold r. rewrite (calculate_technicals_ok df sc ec rc (Fin p)) by assumption.
    rewrite technicals_of_score.
    rewrite (trend_filter_downtrend _ _ _ Hna Hgt). reflexivity. }
  split; [rewrite (trend_filter_downtrend _ _ _ Hna Hgt); reflexivity|].
  split; [exact Hscore|].
  split; [rewrite Hscore; lia|].
  assert (Hup : details r !! "in_uptrend" = Some (VBool false) /\
                details r !! "trend_score" = Some (VInt 0) /\
                details r !! "cap_applied" =
                  Some (VStr "Score capped at 40 (downtrend protection)")).
  { unfold r. rewrite (calculate_technicals_ok df sc ec rc (Fin p)) by assumption.
    unfold technicals_of.
    rewrite (trend_filter_downtrend _ _ _ Hna Hgt).
    match goal with |- context [rsi_dip_bonus _ ?d] => set (d1 := d) end.
    pose proof (rsi_dip_bonus_details (last_row rc) d1 "in_uptrend"
                  ltac:(discriminate)) as H2.
    destruct (rsi_dip_bonus (last_row rc) d1) as [rs d2]. simpl in H2.
    match goal with |- context [ema_proximity _ _ ?d] => set (d2' := d) end.
    pose proof (ema_proximity_details (Fin p) (last_row ec) d2' "in_uptrend"
                  ltac:(discriminate) ltac:(discriminate)) as H3.
    destruct (ema_proximity (Fin p) (last_row ec) d2') as [es d3]. simpl in H3.
    assert (Hin : d3 !! "in_uptrend" = Some (VBool false)).
    { rewrite H3. unfold d2'. rewrite lookup_insert_ne by discriminate.
      rewrite H2. unfold d1. apply lookup_insert_eq. }
    simpl. repeat split.
    - rewrite !lookup_insert_ne by discriminate. exact Hin.
    - rewrite lookup_insert_eq. rewrite !lookup_insert_ne by discriminate.
      rewrite Hin. reflexivity.
    - rewrite lookup_insert_ne by discriminate. rewrite lookup_insert_eq.
      reflexivity. }
  exact Hup.
Qed.

End Technicals.

(** A frame in a downtrend: 205 days at 100, then five at 98. *)
Lemma downtrend_cap_witness :
  score (@calculate_technicals Reference.reference_ta
           (Samples.frame Samples.slump_closes)) <= 40.
Proof.
  apply (@downtrend_cap Reference.reference_ta (Samples.frame Samples.slump_closes)
           (Reference.sma (col close (Samples.frame Samples.slump_closes)) 200)
           (Fin 98)).
  - reflexivity.
  - vm_compute. reflexivity.
  - vm_compute. reflexivity.
Defined.

(** The settled pullback meets every hypothesis of [rsi_sweet_spot]. *)
Lemma rsi_sweet_spot_witness :
  score (@calculate_technicals Reference.reference_ta
           (Samples.frame Samples.pullback_closes)) = 100.
Proof.
  pose (closes := col close (Samples.frame Samples.pullback_closes)).
  apply (@rsi_sweet_spot Reference.reference_ta
           (Samples.frame Samples.pullback_closes)
           (Reference.sma closes 200) (Reference.ema closes 20)
           (Reference.rsi closes 14)
           (10002893225 # 100000000)
           (Samples.fin_of (last_row (Reference.ema closes 20))) 40).
  - reflexivity.
  - reflexivity.
  - reflexivity.
  - vm_compute. reflexivity.
  - vm_compute. reflexivity.
  - vm_compute. reflexivity.
  - reflexivity.
  - vm_compute. reflexivity.
  - apply Qeq_bool_neq. vm_compute. reflexivity.
  - apply Qle_bool_iff. vm_compute. reflexivity.
Defined.

(** 200 days at 100: the close equals its 200-day mean. *)
Lemma close_equal_sma_is_downtrend_witness :
  score (@calculate_technicals Reference.reference_ta
           (Samples.frame Samples.flat_closes)) <= 40.
Proof.
  pose (closes := col close (Samples.frame Samples.flat_closes)).
  apply (@close_equal_sma_is_downtrend Reference.reference_ta
           (Samples.frame Samples.flat_closes)
           (Reference.sma closes 200) (Reference.ema closes 20)
           (Reference.rsi closes 14) 100 100).
  - reflexivity.
  - reflexivity.
  - reflexivity.
  - vm_compute. reflexivity.
  - vm_compute. reflexivity.
  - reflexivity.
Defined.

(** ** Market regime and relative strength *)

Section Factors.

Context {ta : pandas_ta}.

Lemma calculate_market_regime_bounds (spy_df : DataFrame) (vix_df : option DataFrame) :
  0 <= score (calculate_market_regime spy_df vix_df) <= 30.
Proof.
  unfold calculate_market_regime, market_regime_try.
  destruct (ta_sma _ _) as [sc|]; cbn [bind score]; [|lia].
  destruct (iloc_neg (col close spy_df) 1) as [cur|]; cbn [bind score]; [|lia].
  destruct (negb (pd_isna (last_row sc)) && fgt cur (cell_val (last_row sc)));
    [|destruct (format_cell false 2 (last_row sc)); cbn [bind score]; [|lia]];
    (destruct vix_df as [vix|]; cbn [bind score]; [|lia]);
    (destruct (0 <? length vix)%nat; cbn [bind score]; [|lia]);
    (destruct (iloc_neg (col close vix) 1) as [v|]; cbn [bind score]; [|lia]);
    (destruct (flt v (of_Z 20)); [cbn [bind score]; lia|]);
    destruct (fgt v (of_Z 30)); cbn [bind score]; lia.
Qed.

(** The relative-strength score is 0 or 20, and 0 whenever the kill switch
    is set. *)
Lemma calculate_relative_strength_cases (stock_df spy_df : DataFrame) :
  let '(rel_score, _, kill_switch) := calculate_relative_strength stock_df spy_df in
  (rel_score = 0 \/ (rel_score = 20 /\ kill_switch = false)).
Proof.
  unfold calculate_relative_strength, relative_strength_try.
  destruct (five_day_return (col close stock_df)) as [sr|]; cbn [bind]; [|auto].
  destruct (five_day_return (col close spy_df)) as [mr|]; cbn [bind]; [|auto].
  destruct (flt sr (of_Z 0) && fgt mr (of_Z 0)); [auto|].
  destruct (fgt sr mr); auto.
Qed.

(** The factor's three outcomes, by the two returns. *)
Lemma calculate_relative_strength_ok (stock_df spy_df : DataFrame)
    (stock_return spy_return : float) :
  five_day_return (col close stock_df) = Ok stock_return ->
  five_day_return (col close spy_df) = Ok spy_return ->
  let details : gmap string pyval :=
    <["spy_5d_return" := VStr (format_fixed true 2 spy_return ++ "%")]>
      (<["stock_5d_return" := VStr (format_fixed true 2 stock_return ++ "%")]> ∅) in
  calculate_relative_strength stock_df spy_df =
  if flt stock_return (of_Z 0) && fgt spy_return (of_Z 0) then
    (0, <["status" := VStr "[ALERT] RELATIVE WEAKNESS (Auto-Fail)"]> details, true)
  else if fgt stock_return spy_return then
    (20, <["status" := VStr "Leader (+20)"]> details, false)
  else
    (0, <["status" := VStr "Laggard (0)"]> details, false).
Proof.
  intros Hs Hm. unfold calculate_relative_strength, relative_strength_try.
  rewrite Hs, Hm. cbn [bind].
  destruct (flt stock_return (of_Z 0) && fgt spy_return (of_Z 0)); [reflexivity|].
  destruct (fgt stock_return spy_return); reflexivity.
Qed.

(** Reading [iloc[-k]] succeeds exactly on series of at least [k] values. *)
Lemma iloc_neg_Ok (s : list float) (k : nat) :
  (1 <= k <= length s)%nat -> exists x, iloc_neg s k = Ok x.
Proof.
  intros Hk. unfold iloc_neg.
  destruct (nth_error (rev s) (pred k)) as [x|] eqn:E; [eauto|].
  apply nth_error_None in E. rewrite length_rev in E. lia.
Qed.

Lemma iloc_neg_Raise (s : list float) (k : nat) :
  (length s < k)%nat ->
  iloc_neg s k = Raise (PyExc "IndexError" "single positional indexer is out-of-bounds").
Proof.
  intros Hk. unfold iloc_neg.
  destruct (nth_error (rev s) (pred k)) as [x|] eqn:E; [|reflexivity].
  assert (pred k < length (rev s))%nat by (apply nth_error_Some; congruence).
  rewrite length_rev in *. lia.
Qed.

Lemma five_day_return_short (s : list float) :
  (length s < 6)%nat ->
  five_day_return s =
  Raise (PyExc "IndexError" "single positional indexer is out-of-bounds").
Proof.
  intros Hlen. unfold five_day_return.
  destruct (iloc_neg s 1) as [x|e] eqn:E1; simpl.
  - rewrite (iloc_neg_Raise s 6 Hlen). reflexivity.
  - destruct s as [|a s'].
    + rewrite (iloc_neg_Raise nil 1) in E1 by (simpl; lia). congruence.
    + destruct (iloc_neg_Ok (a :: s') 1) as [y Hy]; [simpl; lia|]. congruence.
Qed.

Lemma five_day_return_nonempty (s : list float) (r : float) :
  five_day_return s = Ok r -> exists x, iloc_neg s 1 = Ok x.
Proof.
  unfold five_day_return. destruct (iloc_neg s 1) as [x|e]; simpl; [eauto|discriminate].
Qed.

(** With fewer than six bars on either side the factor fails internally and
    returns its fallback. *)
Lemma calculate_relative_strength_short (stock_df spy_df : DataFrame) :
  (length stock_df < 6 \/ length spy_df < 6)%nat ->
  relative_strength_try stock_df spy_df =
  Raise (PyExc "IndexError" "single positional indexer is out-of-bounds").
Proof.
  intros Hlen. unfold relative_strength_try.
  destruct (Nat.lt_ge_cases (length stock_df) 6) as [Hs|Hs].
  - rewrite five_day_return_short by (unfold col; rewrite length_map; exact Hs).
    reflexivity.
  - assert (Hm : (length spy_df < 6)%nat) by lia.
    destruct (five_day_return (col close stock_df)) as [sr|e] eqn:E; simpl.
    + rewrite five_day_return_short by (unfold col; rewrite length_map; exact Hm).
      reflexivity.
    + unfold five_day_return in E.
      destruct (iloc_neg_Ok (col close stock_df) 1) as [x Hx];
        [unfold col; rewrite length_map; lia|].
      destruct (iloc_neg_Ok (col close stock_df) 6) as [y Hy];
        [unfold col; rewrite length_map; lia|].
      rewrite Hx, Hy in E. simpl in E. discriminate.
Qed.

End Factors.

(** ** The aggregator *)

Section Aggregator.

Context {ta : pandas_ta} {data_client : DataClient}.

(** A frame that was fetched has at least one row. *)
Lemma fetch_bars_rest_nonempty (symbol : string) (df : DataFrame) :
  fetch_bars_rest symbol = Ok df -> (0 < length df)%nat.
Proof.
  unfold fetch_bars_rest, fetch_bars_try.
  destruct (get_stock_bars symbol) as [data|]; cbn [bind]; [|discriminate].
  destruct data as [|entry data']; [discriminate|].
  destruct (assoc_get symbol (entry :: data')) as [bar_list|]; [|discriminate].
  destruct (Nat.eqb (length bar_list) 0) eqn:E; [discriminate|].
  intros [= <-]. apply Nat.eqb_neq in E.
  unfold sort_index.
  rewrite (Permutation_length (merge_sort_Permutation index_le bar_list)). lia.
Qed.

Lemma fetched_current_price (symbol : string) (df : DataFrame) :
  fetch_bars_rest symbol = Ok df -> exists x, iloc_neg (col close df) 1 = Ok x.
Proof.
  intros H. apply fetch_bars_rest_nonempty in H.
  apply iloc_neg_Ok. unfold col. rewrite length_map. lia.
Qed.

(** The result on the kill-switch path. *)
Lemma calculate_score_kill_switch (ticker : string) (stock_df spy_df : DataFrame)
    (rel_score : Z) (rel_details : gmap string pyval) (current_price : float) :
  fetch_bars_rest ticker = Ok stock_df ->
  fetch_bars_rest "SPY" = Ok spy_df ->
  calculate_relative_strength stock_df spy_df = (rel_score, rel_details, true) ->
  iloc_neg (col close stock_df) 1 = Ok current_price ->
  calculate_score ticker =
  <["ticker" := VStr ticker]>
  (<["score" := VInt 0]>
  (<["verdict" := VStr "AVOID (Rel. Weakness)"]>
  (<["reason" := VStr "RELATIVE WEAKNESS KILL SWITCH"]>
  (<["breakdown" :=
       breakdown (calculate_technicals stock_df)
         (calculate_market_regime spy_df fetch_vix) 0 rel_details]>
  (<["current_price" := VFloat current_price]> ∅))))).
Proof.
  intros Hs Hm Hrel Hp. unfold calculate_score, score_try.
  rewrite Hs, Hm. cbn [bind]. rewrite Hrel, Hp. reflexivity.
Qed.

(** The result on the normal path. *)
Lemma calculate_score_normal (ticker : string) (stock_df spy_df : DataFrame)
    (rel_score : Z) (rel_details : gmap string pyval) (current_price : float) :
  fetch_bars_rest ticker = Ok stock_df ->
  fetch_bars_rest "SPY" = Ok spy_df ->
  calculate_relative_strength stock_df spy_df = (rel_score, rel_details, false) ->
  iloc_neg (col close stock_df) 1 = Ok current_price ->
  let tech_result := calculate_technicals stock_df in
  let regime_result := calculate_market_regime spy_df fetch_vix in
  let final_score := score tech_result + score regime_result + rel_score in
  calculate_score ticker =
  <["ticker" := VStr ticker]>
  (<["score" := VInt final_score]>
  (<["verdict" := VStr (_get_verdict final_score false)]>
  (<["breakdown" := breakdown tech_result regime_result rel_score rel_details]>
  (<["current_price" := VFloat current_price]>
  (<["trade_setup" := VDict (calculate_trade_setup stock_df)]> ∅))))).
Proof.
  intros Hs Hm Hrel Hp. unfold calculate_score, score_try.
  rewrite Hs, Hm. cbn [bind]. rewrite Hrel, Hp. reflexivity.
Qed.

(** Off the kill switch the composite is the plain sum of the three
    sub-scores and lies between 0 and 150: technicals contribute up to 100,
    the regime up to 30 and relative strength up to 20, and nothing in the
    engine caps the sum. *)
Theorem composite_is_sum_within_150 (ticker : string) (stock_df spy_df : DataFrame)
    (rel_score : Z) (rel_details : gmap string pyval) :
  fetch_bars_rest ticker = Ok stock_df ->
  fetch_bars_rest "SPY" = Ok spy_df ->
  calculate_relative_strength stock_df spy_df = (rel_score, rel_details, false) ->
  exists final_score,
    calculate_score ticker !! "score" = Some (VInt final_score) /\
    final_score =
      score (calculate_technicals stock_df) +
      score (calculate_market_regime spy_df fetch_vix) + rel_score /\
    0 <= final_score <= 150.
Proof.
  intros Hs Hm Hrel.
  destruct (fetched_current_price ticker stock_df Hs) as [cp Hp].
  rewrite (calculate_score_normal ticker stock_df spy_df rel_score rel_details cp)
    by assumption.
  eexists. split; [reflexivity|split; [reflexivity|]].
  pose proof (calculate_technicals_bounds stock_df).
  pose proof (calculate_market_regime_bounds spy_df fetch_vix).
  pose proof (calculate_relative_strength_cases stock_df spy_df) as Hc.
  rewrite Hrel in Hc. lia.
Qed.

(** C2. Kill switch: when the ticker's 5-bar return is negative and the
    market proxy's is positive, the result has score 0, verdict
    "AVOID (Rel. Weakness)", the reason string, and relative strength reported
    as 0 next to the technical and regime sub-scores, whatever these are; no
    trade setup is attached. *)
Theorem kill_switch_invariant (ticker : string) (stock_df spy_df : DataFrame)
    (stock_return spy_return : float) :
  fetch_bars_rest ticker = Ok stock_df ->
  fetch_bars_rest "SPY" = Ok spy_df ->
  five_day_return (col close stock_df) = Ok stock_return ->
  five_day_return (col close spy_df) = Ok spy_return ->
  flt stock_return (of_Z 0) = true ->
  fgt spy_return (of_Z 0) = true ->
  let r := calculate_score ticker in
  r !! "score" = Some (VInt 0) /\
  r !! "verdict" = Some (VStr "AVOID (Rel. Weakness)") /\
  r !! "reason" = Some (VStr "RELATIVE WEAKNESS KILL SWITCH") /\
  r !! "trade_setup" = None /\
  exists b,
    r !! "breakdown" = Some (VDict b) /\
    b !! "relative_strength" = Some (VInt 0) /\
    b !! "technicals" = Some (VInt (score (calculate_technicals stock_df))) /\
    b !! "market_regime" =
      Some (VInt (score (calculate_market_regime spy_df fetch_vix))).
Proof.
  intros Hs Hm Hsr Hmr Hneg Hpos r.
  pose proof (calculate_relative_strength_ok stock_df spy_df _ _ Hsr Hmr) as Hrel.
  cbv zeta in Hrel. rewrite Hneg, Hpos in Hrel. cbn [andb] in Hrel.
  destruct (five_day_return_nonempty _ _ Hsr) as [cp Hp].
  unfold r.
  rewrite (calculate_score_kill_switch ticker stock_df spy_df _ _ cp Hs Hm Hrel Hp).
  do 4 (split; [reflexivity|]).
  unfold breakdown. eexists. repeat split; reflexivity.
Qed.

(** C10. Internal failure of the relative-strength factor: when its [try]
    block raises (with fewer than six bars it raises IndexError, see
    [calculate_relative_strength_short]), the factor returns score 0, the
    [error] detail and no kill switch, and the aggregator continues on the
    normal path: the composite is technicals + regime + 0, the verdict is the
    plain mapping of that sum, no reason is set, no error is reported and the
    trade setup is attached. *)
Theorem relative_strength_failure_is_neutral (ticker : string)
    (stock_df spy_df : DataFrame) (e : exn) :
  fetch_bars_rest ticker = Ok stock_df ->
  fetch_bars_rest "SPY" = Ok spy_df ->
  relative_strength_try stock_df spy_df = Raise e ->
  calculate_relative_strength stock_df spy_df =
    (0, <["error" := VStr (py_str e)]> ∅, false) /\
  let r := calculate_score ticker in
  let final_score :=
    score (calculate_technicals stock_df) +
    score (calculate_market_regime spy_df fetch_vix) + 0 in
  r !! "score" = Some (VInt final_score) /\
  r !! "verdict" = Some (VStr (_get_verdict final_score false)) /\
  r !! "reason" = None /\
  r !! "error" = None /\
  r !! "trade_setup" = Some (VDict (calculate_trade_setup stock_df)) /\
  exists b,
    r !! "breakdown" = Some (VDict b) /\
    b !! "relative_strength" = Some (VInt 0).
Proof.
  intros Hs Hm Hraise.
  assert (Hrel : calculate_relative_strength stock_df spy_df =
                 (0, <["error" := VStr (py_str e)]> ∅, false)).
  { unfold calculate_relative_strength. rewrite Hraise. reflexivity. }
  split; [exact Hrel|].
  destruct (fetched_current_price ticker stock_df Hs) as [cp Hp].
  cbv zeta.
  rewrite (calculate_score_normal ticker stock_df spy_df _ _ cp Hs Hm Hrel Hp).
  do 5 (split; [reflexivity|]).
  unfold breakdown. eexists. split; reflexivity.
Qed.

End Aggregator.

(** ** The trade setup *)

Section TradeSetup.

Context {ta : pandas_ta}.

(** The returned dictionary, field by field. *)
Lemma trade_setup_of_fields (cp : float) (ema_20 sma_50 sma_200 atr : cell) :
  trade_setup_of cp ema_20 sma_50 sma_200 atr =
  let target_safe := target_a cp sma_50 in
  let target_aggro := fst (target_b cp atr) in
  let volatility_supported := snd (target_b cp atr) in
  let probs := probability_estimates cp sma_200 volatility_supported in
  <["buy_min" := VFloat (fst (entry_zone cp ema_20))]>
  (<["buy_max" := VFloat (snd (entry_zone cp ema_20))]>
  (<["sell_stop" := VFloat (stop_loss cp sma_200)]>
  (<["target_safe" := VFloat target_safe]>
  (<["target_safe_pct" := VFloat (py_round1 (target_pct target_safe cp))]>
  (<["target_aggro" := VFloat target_aggro]>
  (<["target_aggro_pct" := VFloat (py_round1 (target_pct target_aggro cp))]>
  (<["prob_safe" := VInt (fst probs)]>
  (<["prob_aggro" := VInt (snd probs)]>
  (<["volatility_supported" := VBool volatility_supported]>
  (<["recommended" := VStr "safe"]> ∅)))))))))).
Proof.
  unfold trade_setup_of.
  destruct (entry_zone cp ema_20) as [buy_min buy_max].
  destruct (target_b cp atr) as [target_aggro volatility_supported].
  cbn [fst snd].
  destruct (probability_estimates cp sma_200 volatility_supported) as [ps pa].
  reflexivity.
Qed.

(** What success of the [try] block means. *)
Lemma trade_setup_try_Ok (df : DataFrame) (ts : gmap string pyval) :
  trade_setup_try df = Ok ts ->
  exists ec mc sc ac cp,
    ta_ema (col close df) 20 = Ok ec /\
    ta_sma (col close df) 50 = Ok mc /\
    ta_sma (col close df) 200 = Ok sc /\
    ta_atr (col high df) (col low df) (col close df) 14 = Ok ac /\
    iloc_neg (col close df) 1 = Ok cp /\
    ts = trade_setup_of cp (last_row ec) (last_row mc) (last_row sc) (last_row ac).
Proof.
  unfold trade_setup_try.
  destruct (ta_ema _ _) as [ec|]; cbn [bind]; [|discriminate].
  destruct (ta_sma (col close df) 50) as [mc|]; cbn [bind]; [|discriminate].
  destruct (ta_sma (col close df) 200) as [sc|]; cbn [bind]; [|discriminate].
  destruct (ta_atr _ _ _ _) as [ac|]; cbn [bind]; [|discriminate].
  destruct (iloc_neg _ _) as [cp|]; cbn [bind]; [|discriminate].
  intros [= <-]. exists ec, mc, sc, ac, cp. repeat split; reflexivity.
Qed.

Lemma calculate_trade_setup_Ok (df : DataFrame) (ts : gmap string pyval) :
  trade_setup_try df = Ok ts -> calculate_trade_setup df = ts.
Proof. intros H. unfold calculate_trade_setup. rewrite H. reflexivity. Qed.

Lemma probability_estimates_cases (cp : float) (sma_200 : cell) (vs : bool) :
  let above := negb (pd_isna sma_200) && fgt cp (cell_val sma_200) in
  probability_estimates cp sma_200 vs =
  match above, vs with
  | true, true => (85, 50)
  | true, false => (85, 35)
  | false, true => (75, 40)
  | false, false => (75, 25)
  end.
Proof.
  unfold probability_estimates.
  destruct (negb (pd_isna sma_200) && fgt cp (cell_val sma_200)), vs; reflexivity.
Qed.

(** C7. Probability bounds: on success, 75 <= prob_safe <= 85 and
    20 <= prob_aggro <= 55.  The bases 75 / 40 are raised by 10 (capped at
    85 / 55) exactly when the last close is above a defined 200-period SMA,
    and prob_aggro is then lowered by 15 (floored at 20) exactly when
    [volatility_supported] is false. *)
Theorem probability_bounds (df : DataFrame) (ts : gmap string pyval)
    (sma_col : option (list float)) (current_price : float) :
  trade_setup_try df = Ok ts ->
  ta_sma (col close df) 200 = Ok sma_col ->
  iloc_neg (col close df) 1 = Ok current_price ->
  exists prob_safe prob_aggro volatility_supported,
    calculate_trade_setup df !! "prob_safe" = Some (VInt prob_safe) /\
    calculate_trade_setup df !! "prob_aggro" = Some (VInt prob_aggro) /\
    calculate_trade_setup df !! "volatility_supported" =
      Some (VBool volatility_supported) /\
    75 <= prob_safe <= 85 /\
    20 <= prob_aggro <= 55 /\
    let above_sma_200 :=
      negb (pd_isna (last_row sma_col)) &&
      fgt current_price (cell_val (last_row sma_col)) in
    prob_safe = (if above_sma_200 then Z.min 85 (75 + 10) else 75) /\
    prob_aggro =
      (let raised := if above_sma_200 then Z.min 55 (40 + 10) else 40 in
       if volatility_supported then raised else Z.max 20 (raised - 15)).
Proof.
  intros Hts Hs Hp.
  rewrite (calculate_trade_setup_Ok df ts Hts).
  destruct (trade_setup_try_Ok df ts Hts)
    as (ec & mc & sc & ac & cp & He & Hm & Hs' & Ha & Hp' & ->).
  rewrite Hs in Hs'. rewrite Hp in Hp'.
  injection Hs' as <-. injection Hp' as <-.
  rewrite trade_setup_of_fields. cbv zeta.
  set (vs := snd (target_b current_price (last_row ac))).
  pose proof (probability_estimates_cases current_price (last_row sma_col) vs) as Hc.
  cbv zeta in Hc.
  exists (fst (probability_estimates current_price (last_row sma_col) vs)),
         (snd (probability_estimates current_price (last_row sma_col) vs)), vs.
  do 3 (split; [reflexivity|]).
  rewrite Hc.
  destruct (negb (pd_isna (last_row sma_col)) &&
            fgt current_price (cell_val (last_row sma_col))), vs;
    cbn [fst snd]; lia.
Qed.

(** C8. The trade-setup calculator never raises: its result is a dictionary
    for every frame and every behaviour of the indicator library, all
    documented keys are present in it, and when the [try] block fails with
    [e] the result is the default dictionary with [error] set to [str(e)]. *)
Theorem trade_setup_never_raises (df : DataFrame) :
  (forall key, key ∈ trade_setup_keys ->
     is_Some (calculate_trade_setup df !! key)) /\
  (forall e, trade_setup_try df = Raise e ->
     calculate_trade_setup df = trade_setup_default e /\
     calculate_trade_setup df !! "error" = Some (VStr (py_str e)) /\
     calculate_trade_setup df !! "prob_safe" = Some (VInt 75) /\
     calculate_trade_setup df !! "prob_aggro" = Some (VInt 40) /\
     calculate_trade_setup df !! "recommended" = Some (VStr "safe")) /\
  (forall ts, trade_setup_try df = Ok ts ->
     calculate_trade_setup df = ts /\ ts !! "error" = None).
Proof.
  split; [|split].
  - intros key Hkey. unfold calculate_trade_setup.
    destruct (trade_setup_try df) as [ts|e] eqn:E.
    + destruct (trade_setup_try_Ok df ts E)
        as (ec & mc & sc & ac & cp & _ & _ & _ & _ & _ & ->).
      rewrite trade_setup_of_fields. cbv zeta.
      unfold trade_setup_keys in Hkey.
      repeat (apply elem_of_cons in Hkey as [-> | Hkey]; [eexists; reflexivity|]).
      inversion Hkey.
    + unfold trade_setup_default, trade_setup_keys in *.
      repeat (apply elem_of_cons in Hkey as [-> | Hkey]; [eexists; reflexivity|]).
      inversion Hkey.
  - intros e E. unfold calculate_trade_setup. rewrite E.
    repeat split; reflexivity.
  - intros ts E. split; [apply calculate_trade_setup_Ok, E|].
    destruct (trade_setup_try_Ok df ts E)
      as (ec & mc & sc & ac & cp & _ & _ & _ & _ & _ & ->).
    rewrite trade_setup_of_fields. reflexivity.
Qed.

(** The entry zone is a proper interval around a positive anchor. *)
Lemma entry_zone_ordered (p : Q) (ema_20 : cell) :
  (0 < p)%Q -> positive_if_defined ema_20 ->
  flt (fst (entry_zone (Fin p) ema_20)) (snd (entry_zone (Fin p) ema_20)) = true.
Proof.
  intros Hp He. unfold entry_zone, lit.
  destruct ema_20 as [[| |e|]|]; simpl in *; try contradiction; qprop; lra.
Qed.

(** The safe target is a finite level above 99.5% and at most 104% of a
    positive close, whatever the 50-period SMA is. *)
Lemma target_a_bounds (p : Q) (sma_50 : cell) :
  (0 < p)%Q ->
  exists t, target_a (Fin p) sma_50 = Fin t /\
            ((995 # 1000) * p < t)%Q /\ (t <= (104 # 100) * p)%Q.
Proof.
  intros Hp. unfold target_a, lit.
  destruct sma_50 as [[| |m|]|]; simpl;
    try (eexists; split; [reflexivity|split; lra]).
  - destruct (Qlt_bool p m) eqn:Epm; simpl;
      [|eexists; split; [reflexivity|split; lra]].
    rewrite (Qeq_bool_pos p Hp). cbn [flt].
    destruct (Qlt_bool ((m + - p) / p) (4 # 100)) eqn:Ed;
      [|eexists; split; [reflexivity|split; lra]].
    eexists; split; [reflexivity|]. qprop.
    set (t := ((m + - p) / p)%Q) in *.
    assert (Ht : (t * p == m - p)%Q).
    { unfold t. rewrite Qmult_comm, Qmult_div_r; [reflexivity|].
      intros H0. rewrite H0 in Hp. discriminate. }
    split; nra.
  - assert (Hn : Qlt_bool p 0 = false) by (qprop; lra).
    rewrite Hn. simpl.
    eexists; split; [reflexivity|split; lra].
Qed.

(** The stop when the 200-period SMA is undefined or not above the close:
    between 92% and 99% of the close. *)
Lemma stop_loss_uptrend (p : Q) (sma_200 : cell) :
  (0 < p)%Q ->
  pd_isna sma_200 = true \/ fle (cell_val sma_200) (Fin p) = true ->
  exists q, stop_loss (Fin p) sma_200 = Fin q /\
            ((92 # 100) * p <= q)%Q /\ (q <= (99 # 100) * p)%Q.
Proof.
  intros Hp H. unfold stop_loss, py_max, fgt, lit.
  destruct sma_200 as [[| |s|]|]; simpl in *;
    try (eexists; split; [reflexivity|split; lra]);
    destruct H as [H|H]; try discriminate.
  destruct (Qlt_bool (s * (99 # 100)) (p * (92 # 100))) eqn:E;
    eexists; (split; [reflexivity|]); qprop; split; lra.
Qed.

(** Rounding half to even goes up by less than one. *)
Lemma Qround_half_even_upper (q : Q) :
  (inject_Z (Qround_half_even q) <= q + 1)%Q.
Proof.
  unfold Qround_half_even.
  pose proof (Qfloor_le q) as Hf.
  assert (Hs : (inject_Z (Qfloor q + 1) == inject_Z (Qfloor q) + 1)%Q)
    by (rewrite inject_Z_plus; reflexivity).
  destruct (q - inject_Z (Qfloor q) ?= 1 # 2)%Q;
    [destruct (Z.even (Qfloor q))| |]; rewrite ?Hs; lra.
Qed.

(** The reported percentage of a target at most 4% above a positive close
    stays below 10. *)
Lemma target_pct_below_10 (p t : Q) :
  (0 < p)%Q -> (t <= (104 # 100) * p)%Q ->
  flt (py_round1 (target_pct (Fin t) (Fin p))) (of_Z 10) = true.
Proof.
  intros Hp Ht. unfold target_pct, fsub, fadd, fneg, fdiv, fmul, of_Z.
  rewrite (Qeq_bool_pos p Hp). cbn [py_round1 flt]. qprop.
  set (u := ((t + - p) / p)%Q).
  assert (Hu : (u * p == t - p)%Q).
  { unfold u. rewrite Qmult_comm, Qmult_div_r; [reflexivity|].
    intros H0. rewrite H0 in Hp. discriminate. }
  assert (Hu4 : (u <= 4 # 100)%Q) by nra.
  pose proof (Qround_half_even_upper (u * inject_Z 100 * 10)) as Hr.
  change (inject_Z 100) with (100 # 1)%Q in *.
  change (inject_Z 10) with (10 # 1)%Q in *.
  set (r := inject_Z (Qround_half_even (u * (100 # 1) * 10))) in *.
  apply Qlt_shift_div_r; [reflexivity|]. lra.
Qed.

(** C3 (amended). On success with a positive finite last close, and a
    positive finite EMA20 where it is defined:
    - buy_min < buy_max and target_safe < target_aggro always hold, and
      target_safe_pct is always below 10 (the safe target is at most 104% of
      the close, the aggressive one is 110%);
    - sell_stop < target_safe holds when SMA200 is undefined or not above
      the close;
    - the whole chain sell_stop < buy_min < buy_max < target_safe <
      target_aggro holds when none of EMA20, SMA50 and SMA200 is defined,
      all levels being anchored on the close then.
    With indicators defined the entry zone hangs on EMA20 while the stop and
    the targets hang on the close, SMA200 and SMA50, and nothing orders the
    stop against the zone or the zone against the target. *)
Theorem trade_setup_ordering (df : DataFrame) (ts : gmap string pyval) (p : Q)
    (ec mc sc : option (list float)) :
  trade_setup_try df = Ok ts ->
  iloc_neg (col close df) 1 = Ok (Fin p) -> (0 < p)%Q ->
  ta_ema (col close df) 20 = Ok ec ->
  ta_sma (col close df) 50 = Ok mc ->
  ta_sma (col close df) 200 = Ok sc ->
  positive_if_defined (last_row ec) ->
  calculate_trade_setup df = ts /\
  flt (float_at ts "buy_min") (float_at ts "buy_max") = true /\
  flt (float_at ts "target_safe") (float_at ts "target_aggro") = true /\
  flt (float_at ts "target_safe_pct") (of_Z 10) = true /\
  (pd_isna (last_row sc) = true \/ fle (cell_val (last_row sc)) (Fin p) = true ->
   flt (float_at ts "sell_stop") (float_at ts "target_safe") = true) /\
  (pd_isna (last_row ec) = true -> pd_isna (last_row mc) = true ->
   pd_isna (last_row sc) = true -> setup_ordered ts).
Proof.
  intros Hts Hp Hpos He Hm Hs Hemapos.
  split; [apply calculate_trade_setup_Ok, Hts|].
  destruct (trade_setup_try_Ok df ts Hts)
    as (ec' & mc' & sc' & ac & cp & He' & Hm' & Hs' & Ha & Hp' & ->).
  rewrite He in He'. rewrite Hm in Hm'. rewrite Hs in Hs'. rewrite Hp in Hp'.
  injection He' as <-. injection Hm' as <-. injection Hs' as <-.
  injection Hp' as <-.
  rewrite trade_setup_of_fields. cbv zeta.
  set (ema_20 := last_row ec) in *. set (sma_50 := last_row mc) in *.
  set (sma_200 := last_row sc) in *. set (atr := last_row ac).
  match goal with |- context [float_at ?d _] => set (d0 := d) end.
  assert (Fmin : float_at d0 "buy_min" = fst (entry_zone (Fin p) ema_20))
    by reflexivity.
  assert (Fmax : float_at d0 "buy_max" = snd (entry_zone (Fin p) ema_20))
    by reflexivity.
  assert (Fstop : float_at d0 "sell_stop" = stop_loss (Fin p) sma_200)
    by reflexivity.
  assert (Fsafe : float_at d0 "target_safe" = target_a (Fin p) sma_50)
    by reflexivity.
  assert (Faggro : float_at d0 "target_aggro" = Fin (p * (110 # 100)))
    by reflexivity.
  assert (Fpct : float_at d0 "target_safe_pct" =
                 py_round1 (target_pct (target_a (Fin p) sma_50) (Fin p)))
    by reflexivity.
  rewrite Fmin, Fmax, Fstop, Fsafe, Faggro, Fpct. clearbody d0.
  destruct (target_a_bounds p sma_50 Hpos) as (t & Ht & Ht1 & Ht2).
  rewrite Ht.
  split; [apply entry_zone_ordered; assumption|].
  split; [simpl; qprop; lra|].
  split; [apply target_pct_below_10; assumption|].
  split.
  - intros Hup.
    destruct (stop_loss_uptrend p sma_200 Hpos Hup) as (q & Hq & Hq1 & Hq2).
    rewrite Hq. simpl. qprop. lra.
  - intros Hna_e Hna_m Hna_s. unfold setup_ordered.
    rewrite Fmin, Fmax, Fstop, Fsafe, Faggro, Fpct, Ht.
    assert (Hz : entry_zone (Fin p) ema_20 =
                 (Fin (p * (98 # 100)), Fin (p * (102 # 100)))).
    { unfold entry_zone. rewrite Hna_e. reflexivity. }
    assert (Hst : stop_loss (Fin p) sma_200 = Fin (p * (92 # 100))).
    { unfold stop_loss. rewrite Hna_s. reflexivity. }
    assert (Hta : (t == p * (104 # 100))%Q).
    { unfold target_a in Ht. rewrite Hna_m in Ht. simpl in Ht.
      injection Ht as <-. reflexivity. }
    rewrite Hz, Hst. simpl.
    repeat split; try intros _; qprop; lra.
Qed.

End TradeSetup.

(** ** The calling layer *)

(** The sentiment mapping on its documented domain: half the shifted score,
    rounded half to even, always within 0..10. *)
Lemma ai_points_of_range (s : Z) :
  -10 <= s <= 10 ->
  exists points,
    ai_points_of s = Ok points /\
    points = Qround_half_even (inject_Z (s + 10) / 20 * 10) /\
    0 <= points <= 10.
Proof.
  intros Hs.
  assert (H : exists k : nat, s = Z.of_nat k - 10 /\ (k <= 20)%nat).
  { exists (Z.to_nat (s + 10)). lia. }
  destruct H as (k & -> & Hk).
  do 21 (destruct k as [|k]; [eexists; split; [reflexivity|split; [reflexivity|lia]]|]).
  lia.
Qed.

(** The adjusted composite never exceeds 100. *)
Lemma adjust_with_ai_capped (technical_result : gmap string pyval) (s : Z)
    (ai_points final_score : Z) (verdict : string) :
  adjust_with_ai technical_result s = Ok (ai_points, final_score, verdict) ->
  final_score <= 100.
Proof.
  unfold adjust_with_ai.
  destruct (ai_points_of s) as [pts|]; cbn [bind]; [|discriminate].
  destruct (py_getitem technical_result "score") as [[| | n | | |]|];
    cbn [bind]; try discriminate.
  intros [= <- <- <-]. lia.
Qed.

(** The calling layer's verdict against the engine's [_get_verdict]: they
    agree whenever the kill switch fired and from an adjusted score of 20
    upwards; below 20 the calling layer has a band of its own, "STRONG SELL",
    where the engine answers "AVOID". *)
Theorem calling_layer_verdict (kill_switch : bool) (final_score : Z) :
  (kill_switch = true \/ 20 <= final_score ->
   app_verdict kill_switch final_score = _get_verdict final_score kill_switch) /\
  (kill_switch = false -> final_score < 20 ->
   app_verdict kill_switch final_score = "STRONG SELL" /\
   _get_verdict final_score kill_switch = "AVOID").
Proof.
  unfold app_verdict, _get_verdict. split.
  - intros H. destruct kill_switch; [reflexivity|].
    destruct H as [H|H]; [discriminate|].
    destruct (Z.leb 80 final_score); [reflexivity|].
    destruct (Z.leb 60 final_score); [reflexivity|].
    destruct (Z.leb 40 final_score); [reflexivity|].
    destruct (Z.leb 20 final_score) eqn:E; [reflexivity|]. lia.
  - intros -> H.
    destruct (Z.leb 80 final_score) eqn:E1; [lia|].
    destruct (Z.leb 60 final_score) eqn:E2; [lia|].
    destruct (Z.leb 40 final_score) eqn:E3; [lia|].
    destruct (Z.leb 20 final_score) eqn:E4; [lia|]. auto.
Qed.

(** ** Concrete runs *)

(** C1, at the failing input.  A ticker in a settled pullback (uptrend, RSI
    40, close 0.3% under EMA20) that beats a market proxy which is above its
    50-period SMA, with the volatility index at 15: the engine is on the
    normal path and returns 100 + 30 + 20 = 150. *)
Theorem composite_exceeds_100 :
  let r := @calculate_score Reference.reference_ta Samples.aligned_client "AAPL" in
  r !! "score" = Some (VInt 150) /\
  r !! "verdict" = Some (VStr "STRONG BUY") /\
  r !! "reason" = None /\
  r !! "error" = None /\
  exists b,
    r !! "breakdown" = Some (VDict b) /\
    b !! "technicals" = Some (VInt 100) /\
    b !! "market_regime" = Some (VInt 30) /\
    b !! "relative_strength" = Some (VInt 20).
Proof.
  cbv zeta. do 4 (split; [vm_compute; reflexivity|]).
  eexists. split; [vm_compute; reflexivity|].
  repeat split; vm_compute; reflexivity.
Qed.

(** C4, at the failing input.  In a sell-off the engine returns score 0 with
    verdict "AVOID" (no kill switch: the market falls too); with the lowest
    sentiment the calling layer adds 0 points and answers "STRONG SELL",
    which is not [_get_verdict 0]. *)
Theorem app_verdict_below_20 :
  let technical_result :=
    @calculate_score Reference.reference_ta Samples.selloff_client "AAPL" in
  technical_result !! "score" = Some (VInt 0) /\
  technical_result !! "verdict" = Some (VStr "AVOID") /\
  technical_result !! "reason" = None /\
  adjust_with_ai technical_result (-10) = Ok (0, 0, "STRONG SELL") /\
  _get_verdict 0 false = "AVOID".
Proof.
  cbv zeta. repeat split; vm_compute; reflexivity.
Qed.

(** ** The hypotheses above are met *)

(** A ticker that fell 5% over five bars while the market proxy rose. *)
Lemma kill_switch_invariant_witness :
  @calculate_score Reference.reference_ta Samples.weak_client "AAPL" !! "score" =
    Some (VInt 0) /\
  @calculate_score Reference.reference_ta Samples.weak_client "AAPL" !! "verdict" =
    Some (VStr "AVOID (Rel. Weakness)").
Proof.
  pose (stock_df := Samples.frame Samples.falling_closes).
  pose (spy_df := Samples.frame Samples.climbing_closes).
  destruct (@kill_switch_invariant Reference.reference_ta Samples.weak_client
              "AAPL" stock_df spy_df
              (Samples.value_of (five_day_return (col close stock_df)))
              (Samples.value_of (five_day_return (col close spy_df))))
    as (Hscore & Hverdict & _).
  - vm_compute. reflexivity.
  - vm_compute. reflexivity.
  - vm_compute. reflexivity.
  - vm_compute. reflexivity.
  - vm_compute. reflexivity.
  - vm_compute. reflexivity.
  - split; assumption.
Defined.

(** A ticker with five bars only: [iloc[-6]] is out of bounds. *)
Lemma relative_strength_failure_is_neutral_witness :
  @calculate_relative_strength
    (Samples.frame Samples.short_closes) (Samples.frame Samples.climbing_closes) =
  (0, <["error" := VStr "single positional indexer is out-of-bounds"]> ∅, false).
Proof.
  apply (@relative_strength_failure_is_neutral Reference.reference_ta
           Samples.short_client "AAPL"
           (Samples.frame Samples.short_closes)
           (Samples.frame Samples.climbing_closes)
           (PyExc "IndexError" "single positional indexer is out-of-bounds")).
  - vm_compute. reflexivity.
  - vm_compute. reflexivity.
  - vm_compute. reflexivity.
Defined.

(** The settled pullback: the setup succeeds and the bounds hold. *)
Lemma probability_bounds_witness :
  exists prob_safe prob_aggro,
    @calculate_trade_setup Reference.reference_ta
      (Samples.frame Samples.pullback_closes) !! "prob_safe" =
      Some (VInt prob_safe) /\
    @calculate_trade_setup Reference.reference_ta
      (Samples.frame Samples.pullback_closes) !! "prob_aggro" =
      Some (VInt prob_aggro) /\
    75 <= prob_safe <= 85 /\ 20 <= prob_aggro <= 55.
Proof.
  pose (df := Samples.frame Samples.pullback_closes).
  destruct (@probability_bounds Reference.reference_ta df
              (@calculate_trade_setup Reference.reference_ta df)
              (Reference.sma (col close df) 200)
              (Samples.value_of (iloc_neg (col close df) 1)))
    as (ps & pa & vs & Hps & Hpa & _ & Hbs & Hba & _).
  - reflexivity.
  - reflexivity.
  - reflexivity.
  - exists ps, pa. repeat split; try assumption; lia.
Defined.

(** Five bars only: no indicator is defined and the whole chain holds. *)
Lemma trade_setup_ordering_witness :
  setup_ordered
    (@calculate_trade_setup Reference.reference_ta
       (Samples.frame Samples.short_closes)).
Proof.
  pose (df := Samples.frame Samples.short_closes).
  destruct (@trade_setup_ordering Reference.reference_ta df
              (@calculate_trade_setup Reference.reference_ta df) 104
              (Reference.ema (col close df) 20)
              (Reference.sma (col close df) 50)
              (Reference.sma (col close df) 200))
    as (_ & _ & _ & _ & _ & Hchain).
  - reflexivity.
  - reflexivity.
  - reflexivity.
  - reflexivity.
  - reflexivity.
  - reflexivity.
  - exact I.
  - apply Hchain; reflexivity.
Defined.

(** C3 as stated fails, at each link of the chain.
    - Twenty days rising from 100 to 119: EMA20 is 109.5, so the entry zone
      is 107.31 .. 111.69, while the stop, 8% under the close, is 109.48 and
      lies inside the zone.
    - The settled pullback: SMA50 (100.09) is a resistance just above the
      close (100.03), so the safe target is 99.59, under the close and under
      buy_max (about 102.32).
    - The sell-off: the stop hangs just under SMA200 (99.25) at 98.26, far
      above the close of 50 and above both targets (52 and 55). *)
Lemma trade_setup_ordering_counterexample :
  (exists ts,
     @trade_setup_try Reference.reference_ta
       (Samples.frame Samples.advance_closes) = Ok ts /\
     flt (float_at ts "sell_stop") (lit 10948 100) = false /\
     flt (lit 10948 100) (float_at ts "sell_stop") = false /\
     flt (float_at ts "buy_min") (lit 10731 100) = false /\
     flt (lit 10731 100) (float_at ts "buy_min") = false /\
     flt (float_at ts "sell_stop") (float_at ts "buy_min") = false /\
     (setup_ordered ts -> False)) /\
  (exists ts,
     @trade_setup_try Reference.reference_ta
       (Samples.frame Samples.pullback_closes) = Ok ts /\
     flt (float_at ts "target_safe") (float_at ts "buy_max") = true /\
     flt (float_at ts "buy_min") (float_at ts "sell_stop") = true /\
     (setup_ordered ts -> False)) /\
  (exists ts,
     @trade_setup_try Reference.reference_ta
       (Samples.frame Samples.selloff_closes) = Ok ts /\
     flt (float_at ts "target_safe") (float_at ts "sell_stop") = true /\
     flt (float_at ts "target_aggro") (float_at ts "sell_stop") = true /\
     (setup_ordered ts -> False)).
Proof.
  split; [|split].
  - exists (@calculate_trade_setup Reference.reference_ta
              (Samples.frame Samples.advance_closes)).
    split; [reflexivity|].
    do 5 (split; [vm_compute; reflexivity|]).
    intros (H & _). vm_compute in H. discriminate H.
  - exists (@calculate_trade_setup Reference.reference_ta
              (Samples.frame Samples.pullback_closes)).
    split; [reflexivity|].
    do 2 (split; [vm_compute; reflexivity|]).
    intros (H & _). vm_compute in H. discriminate H.
  - exists (@calculate_trade_setup Reference.reference_ta
              (Samples.frame Samples.selloff_closes)).
    split; [reflexivity|].
    do 2 (split; [vm_compute; reflexivity|]).
    intros (H & _). vm_compute in H. discriminate H.
Qed.

(** The failure of the trade setup is reachable: an empty frame. *)
Example trade_setup_on_empty_frame :
  @calculate_trade_setup Reference.reference_ta nil =
  trade_setup_default
    (PyExc "IndexError" "single positional indexer is out-of-bounds").
Proof. reflexivity. Qed.

(** The indicators of the reference library at the last row of the sample
    frames (the values the runs above rest on). *)
Example pullback_indicators :
  let closes := map Fin Samples.pullback_closes in
  last_row (Reference.sma closes 200) = Some (Fin (400090933077 # 4000000000)) /\
  last_row (Reference.sma closes 50) = Some (Fin (100090933077 # 1000000000)) /\
  last_row (Reference.ema closes 20) = Some (Fin (3071301128809 # 30618000000)) /\
  last_row (Reference.rsi closes 14) = Some (Fin 40).
Proof. cbv zeta. repeat split; vm_compute; reflexivity. Qed.

Example advance_indicators :
  let closes := map Fin Samples.advance_closes in
  last_row (Reference.sma closes 200) = None /\
  last_row (Reference.sma closes 50) = None /\
  last_row (Reference.ema closes 20) = Some (Fin (219 # 2)).
Proof. cbv zeta. repeat split; vm_compute; reflexivity. Qed.

Example selloff_indicators :
  let closes := map Fin Samples.selloff_closes in
  last_row (Reference.sma closes 200) = Some (Fin (397 # 4)) /\
  last_row (Reference.sma closes 50) = Some (Fin 97) /\
  last_row (Reference.ema closes 20) = Some (Fin (356965240 # 4084101)) /\
  last_row (Reference.rsi closes 14) = Some (Fin 0).
Proof. cbv zeta. repeat split; vm_compute; reflexivity. Qed.

(** ** Further properties of the engine and of the calling layer *)

(** Bounds of the three factors: technicals within 0..100, market regime
    within 0..30, relative strength 0 or 20. *)
Theorem factor_bounds (ta : pandas_ta) (stock_df spy_df : DataFrame)
    (vix_df : option DataFrame) :
  0 <= score (calculate_technicals stock_df) <= 100 /\
  0 <= score (calculate_market_regime spy_df vix_df) <= 30 /\
  (fst (fst (calculate_relative_strength stock_df spy_df)) = 0 \/
   fst (fst (calculate_relative_strength stock_df spy_df)) = 20).
Proof.
  split; [apply calculate_technicals_bounds|].
  split; [apply calculate_market_regime_bounds|].
  pose proof (calculate_relative_strength_cases stock_df spy_df) as H.
  destruct (calculate_relative_strength stock_df spy_df) as [[rel d] k].
  cbn [fst]. tauto.
Qed.

(** Five bars only: relative strength fails, the composite is 25 + 0 + 0. *)
Lemma composite_is_sum_within_150_witness :
  exists final_score,
    @calculate_score Reference.reference_ta Samples.short_client "AAPL" !! "score" =
      Some (VInt final_score) /\
    0 <= final_score <= 150.
Proof.
  destruct (@composite_is_sum_within_150 Reference.reference_ta
              Samples.short_client
              "AAPL" (Samples.frame Samples.short_closes)
              (Samples.frame Samples.climbing_closes) 0
              (<["error" := VStr "single positional indexer is out-of-bounds"]> ∅))
    as (final_score & Hscore & _ & Hrange).
  - vm_compute. reflexivity.
  - vm_compute. reflexivity.
  - vm_compute. reflexivity.
  - exists final_score. split; assumption.
Defined.

(** For a sentiment score within -10..10 the calling layer adds
    round(((s + 10) / 20) * 10) points, between 0 and 10, and the adjusted
    composite is capped at 100. *)
Theorem sentiment_points (technical_result : gmap string pyval)
    (engine_score s : Z) :
  -10 <= s <= 10 ->
  technical_result !! "score" = Some (VInt engine_score) ->
  exists points verdict,
    adjust_with_ai technical_result s =
      Ok (points, Z.min 100 (engine_score + points), verdict) /\
    points = Qround_half_even (inject_Z (s + 10) / 20 * 10) /\
    0 <= points <= 10.
Proof.
  intros Hs Hscore.
  destruct (ai_points_of_range s Hs) as (points & Hp & Hround & Hrange).
  unfold adjust_with_ai, py_getitem. rewrite Hp, Hscore. cbn [bind].
  eexists _, _. split; [reflexivity|]. split; assumption.
Qed.

(** Engine score 95 with sentiment +9: ten points, capped at 100. *)
Lemma sentiment_points_witness :
  exists points verdict,
    adjust_with_ai (<["score" := VInt 95]> ∅) 9 = Ok (points, 100, verdict).
Proof.
  destruct (sentiment_points (<["score" := VInt 95]> ∅) 95 9)
    as (points & verdict & Hrun & _ & Hrange).
  - lia.
  - reflexivity.
  - exists points, verdict. rewrite Hrun.
    replace (Z.min 100 (95 + points)) with 100; [reflexivity|].
    vm_compute in Hrun. injection Hrun as <- _. reflexivity.
Defined.

(* ================================================================== *)
(** * Further properties of the engine *)
(* ================================================================== *)

(** ** The fetched frame *)

#[global]
Instance index_le_total : Total index_le.
Proof. intros a b. unfold index_le. lia. Qed.

#[global]
Instance index_le_trans : Transitive index_le.
Proof. intros a b c. unfold index_le. lia. Qed.

(** Reading the last row of the close column. *)
Lemma iloc_neg_last_row (df : DataFrame) (x : float) :
  iloc_neg (col close df) 1 = Ok x ->
  exists l b, df = (l ++ b :: nil)%list /\ x = close b.
Proof.
  unfold iloc_neg, col. rewrite <- map_rev.
  destruct (rev df) as [|b r] eqn:E; simpl; [discriminate|].
  intros [= <-]. exists (rev r), b. split; [|reflexivity].
  rewrite <- (rev_involutive df), E. reflexivity.
Qed.

(** [sort_index] rearranges the rows in the order of the index. *)
Lemma sort_index_sorted (df : DataFrame) :
  sort_index df ≡ₚ df /\ StronglySorted index_le (sort_index df).
Proof.
  unfold sort_index. split.
  - apply merge_sort_Permutation.
  - apply StronglySorted_merge_sort; apply _.
Qed.

Section Fetch.

Context {ta : pandas_ta} {data_client : DataClient}.

Lemma fetch_bars_rest_Ok (symbol : string) (df : DataFrame) :
  fetch_bars_rest symbol = Ok df ->
  exists data bar_list,
    get_stock_bars symbol = Ok data /\
    assoc_get symbol data = Some bar_list /\
    df = sort_index bar_list.
Proof.
  unfold fetch_bars_rest, fetch_bars_try.
  destruct (get_stock_bars symbol) as [data|]; cbn [bind]; [|discriminate].
  destruct data as [|entry data']; [discriminate|].
  destruct (assoc_get symbol (entry :: data')) as [bar_list|] eqn:E; [|discriminate].
  destruct (Nat.eqb (length bar_list) 0); [discriminate|].
  intros [= <-]. eauto.
Qed.

(** What [fetch_bars_rest] returns is the provider's bar list for the
    symbol, rearranged in the order of the timestamps: the same bars, none
    lost and none added, each no later than the ones after it, and at least
    one of them. *)
Theorem fetched_frame_is_sorted_response (symbol : string) (df : DataFrame) :
  fetch_bars_rest symbol = Ok df ->
  exists data bar_list,
    get_stock_bars symbol = Ok data /\
    assoc_get symbol data = Some bar_list /\
    df ≡ₚ bar_list /\
    StronglySorted index_le df /\
    (0 < length df)%nat.
Proof.
  intros H. pose proof (fetch_bars_rest_nonempty symbol df H) as Hlen.
  destruct (fetch_bars_rest_Ok symbol df H) as (data & bar_list & Hd & Ha & ->).
  exists data, bar_list.
  destruct (sort_index_sorted bar_list) as [Hperm Hsorted].
  repeat split; assumption.
Qed.

(** The result of [calculate_score] when both fetches succeeded, by the kill
    switch. *)
Lemma calculate_score_fetched (ticker : string) (stock_df spy_df : DataFrame) :
  fetch_bars_rest ticker = Ok stock_df ->
  fetch_bars_rest "SPY" = Ok spy_df ->
  exists rel_score rel_details kill_switch current_price,
    calculate_relative_strength stock_df spy_df =
      (rel_score, rel_details, kill_switch) /\
    iloc_neg (col close stock_df) 1 = Ok current_price /\
    calculate_score ticker =
    if kill_switch then
      <["ticker" := VStr ticker]>
      (<["score" := VInt 0]>
      (<["verdict" := VStr "AVOID (Rel. Weakness)"]>
      (<["reason" := VStr "RELATIVE WEAKNESS KILL SWITCH"]>
      (<["breakdown" :=
           breakdown (calculate_technicals stock_df)
             (calculate_market_regime spy_df fetch_vix) 0 rel_details]>
      (<["current_price" := VFloat current_price]> ∅)))))
    else
      let tech_result := calculate_technicals stock_df in
      let regime_result := calculate_market_regime spy_df fetch_vix in
      let final_score := score tech_result + score regime_result + rel_score in
      <["ticker" := VStr ticker]>
      (<["score" := VInt final_score]>
      (<["verdict" := VStr (_get_verdict final_score false)]>
      (<["breakdown" := breakdown tech_result regime_result rel_score rel_details]>
      (<["current_price" := VFloat current_price]>
      (<["trade_setup" := VDict (calculate_trade_setup stock_df)]> ∅))))).
Proof.
  intros Hs Hm.
  destruct (fetched_current_price ticker stock_df Hs) as [cp Hp].
  destruct (calculate_relative_strength stock_df spy_df) as [[rs rd] k] eqn:Hrel.
  exists rs, rd, k, cp. split; [reflexivity|]. split; [exact Hp|].
  destruct k.
  - apply (calculate_score_kill_switch ticker stock_df spy_df rs rd cp); assumption.
  - apply (calculate_score_normal ticker stock_df spy_df rs rd cp); assumption.
Qed.

(** The price the engine reports is the close of a bar of the provider's
    answer that no other bar of the answer postdates. *)
Theorem current_price_is_latest_close (ticker : string) (v : pyval) :
  calculate_score ticker !! "current_price" = Some v ->
  exists data bar_list b,
    get_stock_bars ticker = Ok data /\
    assoc_get ticker data = Some bar_list /\
    In b bar_list /\
    v = VFloat (close b) /\
    forall b', In b' bar_list -> timestamp b' <= timestamp b.
Proof.
  intros H.
  destruct (fetch_bars_rest ticker) as [stock_df|e] eqn:Hs;
    [|unfold calculate_score, score_try in H; rewrite Hs in H; discriminate H].
  destruct (fetch_bars_rest "SPY") as [spy_df|e] eqn:Hm;
    [|unfold calculate_score, score_try in H; rewrite Hs, Hm in H; discriminate H].
  destruct (calculate_score_fetched ticker stock_df spy_df Hs Hm)
    as (rs & rd & k & cp & _ & Hp & Hr).
  assert (Hv : v = VFloat cp).
  { rewrite Hr in H. destruct k; cbv zeta in H;
      change (Some (VFloat cp) = Some v) in H; congruence. }
  destruct (fetch_bars_rest_Ok ticker stock_df Hs) as (data & bar_list & Hd & Ha & Hdf).
  destruct (sort_index_sorted bar_list) as [Hperm Hsorted].
  rewrite <- Hdf in Hperm, Hsorted.
  destruct (iloc_neg_last_row stock_df cp Hp) as (l & b & -> & ->).
  exists data, bar_list, b. repeat split; try assumption.
  - apply (Permutation_in _ Hperm). apply in_or_app. right. left. reflexivity.
  - intros b' Hb'. apply (Permutation_in _ (Permutation_sym Hperm)) in Hb'.
    apply in_app_or in Hb'. destruct Hb' as [Hb'|[<-|[]]].
    + apply StronglySorted_app in Hsorted. destruct Hsorted as (Hall & _ & _).
      apply (Hall b' b); [apply list_elem_of_In; exact Hb'|set_solver].
    + lia.
Qed.

End Fetch.

(** ** The shape of the engine's result *)

Section Outcomes.

Context {ta : pandas_ta} {data_client : DataClient}.

(** [calculate_score] fails exactly when the fetch of the ticker or of SPY
    fails, and then returns a dictionary holding the [error] entry alone, the
    fetch's message behind "Score calculation failed: ".  When both fetches
    succeed nothing else can fail the score (not the volatility index, not an
    indicator): the result has no [error] entry and, beside [ticker],
    [score], [verdict], [breakdown] and [current_price], holds either
    [reason] (kill switch) or [trade_setup], never both. *)
Theorem calculate_score_outcomes (ticker : string) :
  let r := calculate_score ticker in
  (forall e, fetch_bars_rest ticker = Raise e ->
     r = <["error" := VStr ("Score calculation failed: " ++ py_str e)]> ∅) /\
  (forall stock_df e,
     fetch_bars_rest ticker = Ok stock_df -> fetch_bars_rest "SPY" = Raise e ->
     r = <["error" := VStr ("Score calculation failed: " ++ py_str e)]> ∅) /\
  (forall stock_df spy_df,
     fetch_bars_rest ticker = Ok stock_df -> fetch_bars_rest "SPY" = Ok spy_df ->
     r !! "error" = None /\
     (dom r =
        {[ "ticker"; "score"; "verdict"; "breakdown"; "current_price"; "reason" ]} \/
      dom r =
        {[ "ticker"; "score"; "verdict"; "breakdown"; "current_price";
           "trade_setup" ]})).
Proof.
  intros r. unfold r. split; [|split].
  - intros e Hs. unfold calculate_score, score_try. rewrite Hs. reflexivity.
  - intros stock_df e Hs Hm. unfold calculate_score, score_try.
    rewrite Hs, Hm. reflexivity.
  - intros stock_df spy_df Hs Hm.
    destruct (calculate_score_fetched ticker stock_df spy_df Hs Hm)
      as (rs & rd & k & cp & _ & _ & ->).
    split; [destruct k; reflexivity|].
    destruct k; [left|right]; cbv zeta; rewrite !dom_insert_L, dom_empty_L;
      set_solver.
Qed.

End Outcomes.

(** ** The kill switch, in prices *)




Section KillSwitch.

Context {ta : pandas_ta} {data_client : DataClient}.


End KillSwitch.

(** ** Levels of the trade setup against the close *)

Section Levels.

Context {ta : pandas_ta}.




End Levels.


Section Volatility.

Context {ta : pandas_ta}.


End Volatility.

(** ** The market regime at its edges *)

Lemma high_fear_is_not_low (v : float) :
  fgt v (of_Z 30) = true -> flt v (of_Z 20) = false.
Proof.
  unfold fgt, of_Z. destruct v as [| |q|]; cbn; try congruence.
  change (inject_Z 30) with (30 # 1)%Q. change (inject_Z 20) with (20 # 1)%Q.
  intros H. qprop. lra.
Qed.

Section Regime.

Context {ta : pandas_ta}.

(** The regime score is 0, 15 or 30.  It is 30 only with a volatility
    reading under 20: without volatility data (the fetch failed, or the
    frame is empty) the factor gives 15 at most.  And a volatility index
    above 30 takes it to 0 whatever SPY does: the 15 points of a "Bull"
    reading are outweighed by the 20 taken off, and the factor stops at
    zero. *)
Theorem regime_score_values (spy_df : DataFrame) (vix_df : option DataFrame) :
  let s := score (calculate_market_regime spy_df vix_df) in
  (s = 0 \/ s = 15 \/ s = 30) /\
  (s = 30 ->
   exists vix v, vix_df = Some vix /\ iloc_neg (col close vix) 1 = Ok v /\
                 flt v (of_Z 20) = true) /\
  (vix_df = None \/ vix_df = Some nil -> s = 0 \/ s = 15) /\
  (forall vix v,
     vix_df = Some vix -> iloc_neg (col close vix) 1 = Ok v ->
     fgt v (of_Z 30) = true -> s = 0).
Proof.
  cbv zeta.
  unfold calculate_market_regime, market_regime_try.
  destruct (ta_sma _ _) as [sc|]; cbn [bind score];
    [|split; [auto|split; [discriminate|auto]]].
  destruct (iloc_neg (col close spy_df) 1) as [cur|]; cbn [bind score];
    [|split; [auto|split; [discriminate|auto]]].
  destruct (negb (pd_isna (last_row sc)) && fgt cur (cell_val (last_row sc)));
    [|destruct (format_cell false 2 (last_row sc)); cbn [bind score];
      [|split; [auto|split; [discriminate|auto]]]];
    (destruct vix_df as [vix|]; cbn [bind score];
       [|split; [auto|split; [discriminate|split; [auto|discriminate]]]]);
    (destruct (0 <? length vix)%nat eqn:Elen; cbn [bind score];
       [|split; [auto|split; [discriminate|split; [auto|]]];
         intros vix' v [= <-] Hv; destruct vix; discriminate]);
    (assert (Hne : ~ (Some vix = None \/ Some vix = Some nil))
       by (intros [H|H]; [discriminate|injection H as ->; discriminate]));
    (destruct (iloc_neg (col close vix) 1) as [v|] eqn:Ev; cbn [bind score];
       [|split; [auto|split; [discriminate|split; [tauto|]]];
         intros vix' v' [= <-] Hv'; congruence]);
    (destruct (flt v (of_Z 20)) eqn:Elow;
       [cbn [bind score]; split; [auto|split; [eauto 6|split; [tauto|]]];
        intros vix' v' [= <-] Hv' Hfear; assert (v' = v) by congruence; subst v';
        rewrite (high_fear_is_not_low v Hfear) in Elow; discriminate|]);
    destruct (fgt v (of_Z 30)) eqn:Efear; cbn [bind score];
    (split; [auto|split; [discriminate|split; [tauto|]]]);
    intros vix' v' [= <-] Hv' Hfear; assert (v' = v) by congruence; subst v';
    try reflexivity; congruence.
Qed.

(** When the library has no 50-period SMA to give, it matters how it says
    so.  If it returns nothing ([None], a series shorter than the window),
    the "Bear" message cannot be formatted: the factor fails internally and
    scores 0, the volatility index unread.  If it returns a series that is
    undefined at the last row (NaN), the reading is "Bear ... < $nan" and a
    calm volatility index still earns its 15 points. *)
Theorem regime_without_sma50 (spy_df : DataFrame) (vix_df : option DataFrame) :
  spy_df <> nil ->
  (ta_sma (col close spy_df) 50 = Ok None ->
   calculate_market_regime spy_df vix_df =
   mkFactor 0
     (<["error" :=
          VStr "unsupported format string passed to NoneType.__format__"]> ∅)) /\
  (forall c vix v,
     ta_sma (col close spy_df) 50 = Ok (Some c) -> List.last c NaN = NaN ->
     vix_df = Some vix -> iloc_neg (col close vix) 1 = Ok v ->
     flt v (of_Z 20) = true ->
     score (calculate_market_regime spy_df vix_df) = 15 /\
     exists shown,
       details (calculate_market_regime spy_df vix_df) !! "spy_trend" =
       Some (VStr ("Bear: $" ++ shown ++ " < $nan (0)"))).
Proof.
  intros Hne.
  destruct (iloc_neg_Ok (col close spy_df) 1) as [cur Hcur].
  { unfold col. rewrite length_map. destruct spy_df; [congruence|simpl; lia]. }
  split.
  - intros Hsma. unfold calculate_market_regime, market_regime_try.
    rewrite Hsma, Hcur. reflexivity.
  - intros c vix v Hsma Hlast -> Hv Hlow.
    assert (Hlen : (0 <? length vix)%nat = true).
    { destruct vix; [discriminate Hv|reflexivity]. }
    unfold calculate_market_regime, market_regime_try.
    rewrite Hsma, Hcur. cbn [bind last_row]. rewrite Hlast.
    cbn [pd_isna negb andb format_cell bind]. rewrite Hlen, Hv.
    cbn [bind]. rewrite Hlow. cbn [bind score details].
    split; [reflexivity|]. eexists. reflexivity.
Qed.

End Regime.

(** ** Full marks of the technical factor *)

Lemma Some_VInt_inj (a b : Z) : Some (VInt a) = Some (VInt b) <-> a = b.
Proof. split; [intros [= ->]|intros ->]; reflexivity. Qed.

Section FullMarks.

Context {ta : pandas_ta}.

Lemma technicals_try_Ok (df : DataFrame) (r : FactorResult) :
  technicals_try df = Ok r ->
  exists sc ec rc cp,
    r = technicals_of cp (last_row sc) (last_row ec) (last_row rc).
Proof.
  unfold technicals_try.
  destruct (ta_sma _ _) as [sc|]; cbn [bind]; [|discriminate].
  destruct (ta_ema _ _) as [ec|]; cbn [bind]; [|discriminate].
  destruct (ta_rsi _ _) as [rc|]; cbn [bind]; [|discriminate].
  destruct (iloc_neg _ _) as [cp|]; cbn [bind]; [|discriminate].
  intros [= <-]. eauto.
Qed.

(** The block scores as the factor reports them in its details. *)
Lemma technicals_of_details (cp : float) (sma_200 ema_20 rsi : cell) :
  let d := details (technicals_of cp sma_200 ema_20 rsi) in
  d !! "rsi_score" = Some (VInt (fst (rsi_dip_bonus rsi ∅))) /\
  d !! "ema_score" = Some (VInt (fst (ema_proximity cp ema_20 ∅))) /\
  d !! "trend_score" =
    Some (VInt (if negb (pd_isna sma_200) && fgt cp (cell_val sma_200)
                then 50 else 0)).
Proof.
  cbv zeta. unfold technicals_of, trend_filter.
  destruct (negb (pd_isna sma_200));
    [destruct (fgt cp (cell_val sma_200))|]; cbn [andb];
    (match goal with |- context [rsi_dip_bonus _ ?d] => set (d1 := d) end;
     pose proof (rsi_dip_bonus_details rsi d1 "in_uptrend" ltac:(discriminate)) as H2;
     pose proof (rsi_dip_bonus_score rsi d1 ∅) as Hrs;
     destruct (rsi_dip_bonus rsi d1) as [rs d2]; cbn [fst snd] in H2, Hrs;
     match goal with |- context [ema_proximity _ _ ?d] => set (d2' := d) end;
     pose proof (ema_proximity_details cp ema_20 d2' "in_uptrend"
                   ltac:(discriminate) ltac:(discriminate)) as H3;
     pose proof (ema_proximity_details cp ema_20 d2' "rsi_score"
                   ltac:(discriminate) ltac:(discriminate)) as H4;
     pose proof (ema_proximity_score cp ema_20 d2' ∅) as Hes;
     destruct (ema_proximity cp ema_20 d2') as [es d3]; cbn [fst snd] in H3, H4, Hes;
     rewrite <- Hrs, <- Hes;
     unfold d2' in H3, H4;
     rewrite lookup_insert_eq in H4;
     rewrite lookup_insert_ne in H3 by discriminate;
     rewrite H2 in H3; unfold d1 in H3; rewrite lookup_insert_eq in H3;
     cbn [Z.ltb Z.compare Pos.compare Pos.compare_cont details];
     repeat split;
     [rewrite !lookup_insert_ne by discriminate; exact H4
     |rewrite lookup_insert_ne by discriminate;
      rewrite ?(lookup_insert_ne _ "cap_applied") by discriminate;
      apply lookup_insert_eq
     |rewrite lookup_insert_eq;
      rewrite ?(lookup_insert_ne _ "cap_applied") by discriminate;
      rewrite lookup_insert_ne by discriminate; rewrite H3; reflexivity]).
Qed.

(** The factor returns 100 in one configuration only: uptrend (50), RSI in
    the sweet spot (30) and the close near the 20-period EMA (20), as its own
    details report them. *)
Theorem technicals_full_marks (df : DataFrame) :
  let r := calculate_technicals df in
  score r = 100 <->
  details r !! "trend_score" = Some (VInt 50) /\
  details r !! "rsi_score" = Some (VInt 30) /\
  details r !! "ema_score" = Some (VInt 20).
Proof.
  cbv zeta. unfold calculate_technicals.
  destruct (technicals_try df) as [r|e] eqn:E.
  - destruct (technicals_try_Ok df r E) as (sc & ec & rc & cp & ->).
    destruct (technicals_of_details cp (last_row sc) (last_row ec) (last_row rc))
      as (-> & -> & ->).
    rewrite technicals_of_score. rewrite !Some_VInt_inj.
    pose proof (rsi_dip_bonus_cases (last_row rc) ∅) as Hr.
    pose proof (ema_proximity_cases cp (last_row ec) ∅) as He.
    rewrite list_elem_of_In in Hr, He. cbn [In] in Hr, He.
    unfold trend_filter.
    destruct (negb (pd_isna (last_row sc))); cbn [andb];
      [destruct (fgt cp (cell_val (last_row sc)))|]; lia.
  - cbn [score details]. split; [discriminate|].
    intros (H & _). discriminate H.
Qed.

End FullMarks.

(* ================================================================== *)
(** * Properties of the licence database and of the licence check *)
(* ================================================================== *)

(** ** Queries and updates *)

Lemma query_first_Some (p : database.License -> bool) (t : database.table)
    (l : database.License) :
  database.query_first p t = Some l ->
  exists before after,
    t = (before ++ l :: after)%list /\ p l = true /\
    (forall x, In x before -> p x = false).
Proof.
  unfold database.query_first. induction t as [|a t IH]; simpl; [discriminate|].
  destruct (p a) eqn:E.
  - intros [= <-]. exists nil, t. repeat split; [exact E|]. intros x [].
  - intros H. destruct (IH H) as (before & after & -> & Hp & Hb).
    exists (a :: before), after. repeat split; [exact Hp|].
    intros x [<-|Hx]; [exact E|apply Hb, Hx].
Qed.

Lemma query_first_None (p : database.License -> bool) (t : database.table) :
  database.query_first p t = None <-> forall x, In x t -> p x = false.
Proof.
  unfold database.query_first. split.
  - intros H x Hx. exact (find_none p t H x Hx).
  - induction t as [|a t IH]; simpl; [reflexivity|].
    intros H. rewrite (H a (or_introl eq_refl)). apply IH.
    intros x Hx. apply H. right. exact Hx.
Qed.

Lemma query_first_app (p : database.License -> bool)
    (before after : database.table) (l : database.License) :
  (forall x, In x before -> p x = false) -> p l = true ->
  database.query_first p (before ++ l :: after)%list = Some l.
Proof.
  unfold database.query_first. intros Hb Hp.
  induction before as [|a before IH]; simpl.
  - rewrite Hp. reflexivity.
  - rewrite (Hb a (or_introl eq_refl)). apply IH.
    intros x Hx. apply Hb. right. exact Hx.
Qed.

Lemma update_first_app (p : database.License -> bool)
    (f : database.License -> database.License)
    (before after : database.table) (l : database.License) :
  (forall x, In x before -> p x = false) -> p l = true ->
  database.update_first p f (before ++ l :: after)%list = (before ++ f l :: after)%list.
Proof.
  intros Hb Hp. induction before as [|a before IH]; simpl.
  - rewrite Hp. reflexivity.
  - rewrite (Hb a (or_introl eq_refl)). f_equal. apply IH.
    intros x Hx. apply Hb. right. exact Hx.
Qed.

Lemma by_key_true (k : string) (l : database.License) :
  database.by_key k l = true <-> database.key l = k.
Proof. unfold database.by_key. apply String.eqb_eq. Qed.

Lemma by_key_false (k : string) (l : database.License) :
  database.by_key k l = false <-> database.key l <> k.
Proof. unfold database.by_key. apply String.eqb_neq. Qed.

(** ** Validation *)

Lemma validate_license_accepts (now : Z) (key : option string)
    (t t' : database.table) (license : database.License) :
  database.validate_license now key t = (inl license, t') ->
  exists k l before after,
    key = Some k /\ k <> "" /\
    t = (before ++ l :: after)%list /\
    (forall x, In x before -> database.key x <> k) /\
    database.key l = k /\ database.status l = "active" /\
    license = database.record_usage now l /\
    t' = (before ++ license :: after)%list.
Proof.
  unfold database.validate_license.
  destruct key as [k|]; [|discriminate].
  destruct (String.eqb k "") eqn:Ek; [discriminate|].
  apply String.eqb_neq in Ek.
  destruct (database.query_first (database.by_key k) t) as [l|] eqn:Eq;
    [|discriminate].
  destruct (query_first_Some _ _ _ Eq) as (before & after & -> & Hl & Hb).
  unfold database.is_valid.
  destruct (String.eqb (database.status l) "active") eqn:Es; cbn [negb];
    [|discriminate].
  apply String.eqb_eq in Es.
  rewrite update_first_app by assumption.
  intros [= <- <-]. exists k, l, before, after.
  apply by_key_true in Hl.
  repeat split; try assumption.
  intros x Hx. apply by_key_false, Hb, Hx.
Qed.

Lemma validate_license_rejects (now : Z) (key : option string)
    (t t' : database.table) (message : string) :
  database.validate_license now key t = (inr message, t') ->
  t' = t /\
  ((message = "License key is required" /\ (key = None \/ key = Some "")) \/
   (message = "License key not found" /\
    exists k, key = Some k /\ forall l, In l t -> database.key l <> k) \/
   (exists k l, key = Some k /\ In l t /\ database.key l = k /\
                database.status l <> "active" /\
                message = "License is " ++ database.status l)).
Proof.
  unfold database.validate_license.
  destruct key as [k|]; [|intros [= <- <-]; split; [reflexivity|left; auto]].
  destruct (String.eqb k "") eqn:Ek.
  { apply String.eqb_eq in Ek. subst k.
    intros [= <- <-]. split; [reflexivity|left; auto]. }
  destruct (database.query_first (database.by_key k) t) as [l|] eqn:Eq.
  - destruct (query_first_Some _ _ _ Eq) as (before & after & -> & Hl & Hb).
    apply by_key_true in Hl.
    unfold database.is_valid.
    destruct (String.eqb (database.status l) "active") eqn:Es; cbn [negb];
      [discriminate|].
    apply String.eqb_neq in Es. intros [= <- <-].
    split; [reflexivity|]. right. right.
    exists k, l. repeat split; try assumption.
    apply in_or_app. right. left. reflexivity.
  - intros [= <- <-]. split; [reflexivity|]. right. left. split; [reflexivity|].
    exists k. split; [reflexivity|].
    intros l Hl. apply by_key_false. revert l Hl. apply query_first_None, Eq.
Qed.

(** What [validate_license] answers and what it does to the table.  A
    rejected key leaves the table as it was, and the message tells a missing
    key from an unknown one and from one whose licence is not active.  An
    accepted key is that of the first row carrying it, which must be active;
    exactly that row changes, and in it only the usage: one request more,
    last used now. *)
Theorem validate_license_effect (now : Z) (key : option string)
    (t : database.table) :
  match database.validate_license now key t with
  | (inr message, t') =>
      t' = t /\
      ((message = "License key is required" /\ (key = None \/ key = Some "")) \/
       (message = "License key not found" /\
        exists k, key = Some k /\ forall l, In l t -> database.key l <> k) \/
       (exists k l, key = Some k /\ In l t /\ database.key l = k /\
                    database.status l <> "active" /\
                    message = "License is " ++ database.status l))
  | (inl license, t') =>
      exists k l before after,
        key = Some k /\ k <> "" /\
        t = (before ++ l :: after)%list /\
        (forall x, In x before -> database.key x <> k) /\
        database.key l = k /\ database.status l = "active" /\
        t' = (before ++ license :: after)%list /\
        database.key license = k /\
        database.email license = database.email l /\
        database.status license = "active" /\
        database.tier license = database.tier l /\
        database.created_at license = database.created_at l /\
        database.last_used license = Some now /\
        database.request_count license = database.request_count l + 1
  end.
Proof.
  destruct (database.validate_license now key t) as [[license|message] t'] eqn:E.
  - destruct (validate_license_accepts _ _ _ _ _ E)
      as (k & l & before & after & Hk & Hne & Ht & Hb & Hkey & Hs & -> & Ht').
    exists k, l, before, after. cbn.
    repeat split; assumption.
  - exact (validate_license_rejects _ _ _ _ _ E).
Qed.

(** ** Revocation *)

Lemma revoke_license_found (k : string) (t : database.table) (l : database.License) :
  database.query_first (database.by_key k) t = Some l ->
  exists before after,
    t = (before ++ l :: after)%list /\
    (forall x, In x before -> database.by_key k x = false) /\
    database.key l = k /\
    database.revoke_license k t = (true, (before ++ database.revoke l :: after)%list).
Proof.
  intros Eq. destruct (query_first_Some _ _ _ Eq) as (before & after & -> & Hl & Hb).
  exists before, after. unfold database.revoke_license. rewrite Eq.
  rewrite update_first_app by assumption.
  apply by_key_true in Hl. repeat split; assumption.
Qed.

(** A revoked key stops validating, with the message "License is revoked",
    and stays revoked: revoking again changes nothing.  Revocation touches
    nothing but the status of the one row, and it reports [False] exactly
    when no row carries the key. *)
Theorem revoked_key_is_rejected (now : Z) (k : string) (t t' : database.table) :
  k <> "" ->
  database.revoke_license k t = (true, t') ->
  database.validate_license now (Some k) t' = (inr "License is revoked", t') /\
  database.revoke_license k t' = (true, t') /\
  map database.key t' = map database.key t /\
  map database.request_count t' = map database.request_count t /\
  (forall k', fst (database.revoke_license k' t) = false <->
              forall l, In l t -> database.key l <> k').
Proof.
  intros Hne Hrev.
  assert (Hfalse : forall k', fst (database.revoke_license k' t) = false <->
                              forall l, In l t -> database.key l <> k').
  { intros k'. unfold database.revoke_license.
    destruct (database.query_first (database.by_key k') t) as [l|] eqn:Eq; cbn [fst].
    - split; [discriminate|]. intros H.
      destruct (query_first_Some _ _ _ Eq) as (before & after & -> & Hl & _).
      apply by_key_true in Hl. exfalso. apply (H l); [|exact Hl].
      apply in_or_app. right. left. reflexivity.
    - split; [|reflexivity]. intros _ l Hl. apply by_key_false.
      revert l Hl. apply query_first_None, Eq. }
  unfold database.revoke_license in Hrev.
  destruct (database.query_first (database.by_key k) t) as [l|] eqn:Eq;
    [|discriminate].
  destruct (revoke_license_found k t l Eq) as (before & after & -> & Hb & Hkey & Hr).
  rewrite update_first_app in Hrev
    by (try apply by_key_true; assumption).
  injection Hrev as <-.
  assert (Hq : database.query_first (database.by_key k)
                 (before ++ database.revoke l :: after)%list =
               Some (database.revoke l)).
  { apply query_first_app; [exact Hb|]. apply by_key_true. exact Hkey. }
  split; [|split; [|split; [|split]]].
  - unfold database.validate_license.
    rewrite (proj2 (String.eqb_neq k "") Hne), Hq. reflexivity.
  - unfold database.revoke_license. rewrite Hq.
    rewrite update_first_app by (try apply by_key_true; assumption).
    reflexivity.
  - rewrite !map_app. reflexivity.
  - rewrite !map_app. reflexivity.
  - exact Hfalse.
Qed.

(** ** Creation *)

Lemma string_app_nonempty (a b : string) (c : ascii) : a ++ String c b <> "".
Proof. destruct a; discriminate. Qed.

Section Creation.

Context {py : str_methods}.

Lemma candidate_key_nonempty (prefix : string) (entropy : nat -> N) (i : nat) :
  database.candidate_key prefix entropy i <> "".
Proof. unfold database.candidate_key. cbv zeta. apply string_app_nonempty. Qed.

(** The loop ends at the first candidate that is free, given fuel to reach
    it. *)
Lemma generate_license_key_first_free (fuel : nat) (prefix : string)
    (t : database.table) (entropy : nat -> N) (i j : nat) :
  (j < fuel)%nat ->
  database.query_first
    (database.by_key (database.candidate_key prefix entropy (2 * j + i))) t = None ->
  exists n,
    (n <= j)%nat /\
    database.generate_license_key fuel prefix t entropy i =
      Some (database.candidate_key prefix entropy (2 * n + i), (2 * S n + i)%nat) /\
    database.query_first
      (database.by_key (database.candidate_key prefix entropy (2 * n + i))) t = None.
Proof.
  revert i j. induction fuel as [|fuel IH]; intros i j Hj Hfree; [lia|].
  cbn [database.generate_license_key]. cbv zeta.
  destruct (database.query_first
              (database.by_key (database.candidate_key prefix entropy i)) t)
    as [l|] eqn:E.
  - destruct j as [|j].
    { replace (2 * 0 + i)%nat with i in Hfree by lia. congruence. }
    destruct (IH (2 + i)%nat j) as (n & Hn & Hgen & Hfree').
    + lia.
    + replace (2 * j + (2 + i))%nat with (2 * S j + i)%nat by lia. exact Hfree.
    + exists (S n). split; [lia|].
      replace (2 * S n + i)%nat with (2 * n + (2 + i))%nat by lia.
      replace (2 * S (S n) + i)%nat with (2 * S n + (2 + i))%nat by lia.
      split; assumption.
  - exists O. split; [lia|].
    replace (2 * 0 + i)%nat with i by lia.
    replace (2 * 1 + i)%nat with (2 + i)%nat by lia.
    split; [reflexivity|exact E].
Qed.

(** What the loop returns is a candidate no row carries. *)
Lemma generate_license_key_fresh (fuel : nat) (prefix : string)
    (t : database.table) (entropy : nat -> N) (i i' : nat) (k : string) :
  database.generate_license_key fuel prefix t entropy i = Some (k, i') ->
  (exists n, k = database.candidate_key prefix entropy n) /\
  database.query_first (database.by_key k) t = None.
Proof.
  revert i. induction fuel as [|fuel IH]; intros i; [discriminate|].
  cbn [database.generate_license_key]. cbv zeta.
  destruct (database.query_first
              (database.by_key (database.candidate_key prefix entropy i)) t)
    as [l|] eqn:E.
  - apply IH.
  - intros [= <- <-]. split; [eauto|exact E].
Qed.

(** [create_license] returns as soon as the entropy source yields a
    candidate key that no row carries (given fuel to reach it), with a key
    that is new to the table.  The licence is appended with the e-mail and
    the lower-cased tier, unused; created active, its key validates at
    once, and that first validation counts as its first request. *)
Theorem created_license_validates (fuel j : nat) (now later : Z)
    (entropy : nat -> N) (i : nat) (email tier : string) (t : database.table) :
  (j < fuel)%nat ->
  database.query_first
    (database.by_key
       (database.candidate_key
          (dict_get database.tier_prefixes (str_lower tier) "PRO") entropy
          (2 * j + i))) t = None ->
  exists license i',
    database.create_license fuel now entropy i email tier "active" t =
      Some (license, (t ++ license :: nil)%list, i') /\
    (forall l, In l t -> database.key l <> database.key license) /\
    database.email license = email /\
    database.tier license = str_lower tier /\
    database.request_count license = 0 /\
    database.last_used license = None /\
    database.validate_license later (Some (database.key license))
      (t ++ license :: nil)%list =
    (inl (database.record_usage later license),
     (t ++ database.record_usage later license :: nil)%list) /\
    database.request_count (database.record_usage later license) = 1.
Proof.
  intros Hj Hfree.
  destruct (generate_license_key_first_free fuel _ t entropy i j Hj Hfree)
    as (n & _ & Hgen & Hfree').
  unfold database.create_license. cbv zeta. rewrite Hgen.
  eexists _, _. split; [reflexivity|]. cbn [database.key database.email
    database.tier database.request_count database.last_used database.record_usage].
  set (k := database.candidate_key _ entropy (2 * n + i)) in *.
  assert (Hnew : forall l, In l t -> database.by_key k l = false)
    by (apply query_first_None, Hfree').
  split; [intros l Hl; apply by_key_false, Hnew, Hl|].
  do 4 (split; [reflexivity|]). split; [|reflexivity].
  unfold database.validate_license.
  rewrite (proj2 (String.eqb_neq k "")) by apply candidate_key_nonempty.
  rewrite query_first_app by (try apply by_key_true; auto).
  cbn [database.is_valid database.status negb String.eqb].
  rewrite update_first_app by (try apply by_key_true; auto).
  reflexivity.
Qed.

End Creation.

(** ** The format of a key *)

Lemma string_map_app (f : ascii -> ascii) (a b : string) :
  string_map f (a ++ b) = string_map f a ++ string_map f b.
Proof. induction a as [|c a IH]; simpl; [reflexivity|]. rewrite IH. reflexivity. Qed.

Lemma string_map_length (f : ascii -> ascii) (s : string) :
  String.length (string_map f s) = String.length s.
Proof. induction s as [|c s IH]; simpl; [reflexivity|]. rewrite IH. reflexivity. Qed.

Lemma string_app_length (a b : string) :
  String.length (a ++ b) = (String.length a + String.length b)%nat.
Proof. induction a as [|c a IH]; simpl; [reflexivity|]. rewrite IH. reflexivity. Qed.

Lemma is_ascii_app (a b : string) :
  is_ascii (a ++ b) = is_ascii a && is_ascii b.
Proof.
  induction a as [|c a IH]; simpl; [reflexivity|].
  rewrite IH. apply andb_assoc.
Qed.

Lemma is_upper_hex_app (a b : string) :
  database.is_upper_hex (a ++ b) = database.is_upper_hex a && database.is_upper_hex b.
Proof.
  induction a as [|c a IH]; simpl; [reflexivity|].
  rewrite IH. apply andb_assoc.
Qed.

Lemma hex_digit_chars (d : N) :
  (d < 16)%N ->
  is_ascii_char (database.hex_digit d) = true /\
  database.is_upper_hex_char (ascii_upper_char (database.hex_digit d)) = true.
Proof.
  intros Hd. destruct d as [|p]; [split; reflexivity|].
  do 4 (destruct p as [p|p|]; try (split; reflexivity)); lia.
Qed.

Lemma hex_digits_chars (width : nat) (n : N) :
  is_ascii (database.hex_digits width n) = true /\
  String.length (database.hex_digits width n) = width /\
  database.is_upper_hex (ascii_upper (database.hex_digits width n)) = true.
Proof.
  revert n. induction width as [|w IH]; intros n; [repeat split; reflexivity|].
  cbn [database.hex_digits].
  destruct (IH (n / 16)%N) as (Ha & Hl & Hh).
  destruct (hex_digit_chars (n mod 16)%N) as [Hc Hu];
    [apply N.mod_lt; discriminate|].
  unfold ascii_upper in *.
  rewrite is_ascii_app, string_app_length, string_map_app, is_upper_hex_app.
  rewrite Ha, Hl, Hh.
  cbn [is_ascii database.is_upper_hex string_map String.length].
  rewrite Hc, Hu. repeat split. lia.
Qed.

Section Format.

Context {py : str_methods}.

(** A segment of a key: six characters out of 0-9 and A-F. *)
Lemma segment_chars (draw : N) :
  String.length (str_upper (database.token_hex 3 draw)) = 6%nat /\
  database.is_upper_hex (str_upper (database.token_hex 3 draw)) = true.
Proof.
  unfold database.token_hex.
  destruct (hex_digits_chars (2 * 3) draw) as (Ha & Hl & Hh).
  rewrite (str_upper_ascii _ Ha). unfold ascii_upper at 1.
  rewrite string_map_length. split; assumption.
Qed.

Lemma tier_prefix_cases (tier : string) :
  In (dict_get database.tier_prefixes tier "PRO") ("FREE" :: "PRO" :: "ENT" :: nil).
Proof.
  unfold database.tier_prefixes. cbn [dict_get].
  destruct (String.eqb "free" tier); [cbn; auto|].
  destruct (String.eqb "pro" tier); [cbn; auto|].
  destruct (String.eqb "enterprise" tier); cbn; auto.
Qed.

(** Every key [create_license] hands out reads PREFIX-XXXXXX-YYYYYY: the
    prefix FREE, PRO or ENT by the lower-cased tier (PRO for any other
    tier), and two segments of six characters out of 0-9 and A-F.  The
    development key "PRO-TEST00-KEY123" is outside that format, so no
    generated key ever coincides with it. *)
Theorem license_key_format (fuel : nat) (now : Z) (entropy : nat -> N) (i i' : nat)
    (email tier status : string) (t t' : database.table)
    (license : database.License) :
  database.create_license fuel now entropy i email tier status t =
    Some (license, t', i') ->
  exists prefix segment1 segment2,
    database.key license = prefix ++ "-" ++ segment1 ++ "-" ++ segment2 /\
    prefix = dict_get database.tier_prefixes (str_lower tier) "PRO" /\
    In prefix ("FREE" :: "PRO" :: "ENT" :: nil) /\
    String.length segment1 = 6%nat /\ String.length segment2 = 6%nat /\
    database.is_upper_hex segment1 = true /\
    database.is_upper_hex segment2 = true /\
    database.key license <> app_new.test_key.
Proof.
  unfold database.create_license. cbv zeta.
  set (prefix := dict_get database.tier_prefixes (str_lower tier) "PRO").
  destruct (database.generate_license_key fuel prefix t entropy i)
    as [[k i'']|] eqn:Egen; [|discriminate].
  intros [= <- <- <-]. cbn [database.key].
  destruct (generate_license_key_fresh _ _ _ _ _ _ _ Egen) as [[n ->] _].
  unfold database.candidate_key. cbv zeta.
  destruct (segment_chars (entropy n)) as [Hl1 Hh1].
  destruct (segment_chars (entropy (S n))) as [Hl2 Hh2].
  set (segment1 := str_upper (database.token_hex 3 (entropy n))) in *.
  set (segment2 := str_upper (database.token_hex 3 (entropy (S n)))) in *.
  pose proof (tier_prefix_cases (str_lower tier)) as Hp. fold prefix in Hp.
  exists prefix, segment1, segment2.
  do 7 (split; [solve [reflexivity | assumption]|]).
  unfold app_new.test_key.
  destruct Hp as [<-|[<-|[<-|[]]]]; cbn; try discriminate.
  destruct segment1 as [|c segment1]; [discriminate Hl1|].
  cbn. intros [= -> _]. discriminate Hh1.
Qed.

End Format.

(** ** Unique keys *)

Lemma NoDup_keys_snoc (t : database.table) (l : database.License) :
  NoDup (map database.key t) ->
  (forall x, In x t -> database.key x <> database.key l) ->
  NoDup (map database.key (t ++ l :: nil)%list).
Proof.
  induction t as [|a t IH]; intros Hnd Hnew; cbn.
  - apply NoDup_singleton.
  - cbn in Hnd. apply NoDup_cons in Hnd. destruct Hnd as [Hnotin Hnd'].
    apply NoDup_cons. split.
    + rewrite list_elem_of_In, map_app, in_app_iff. intros [H|[H|[]]].
      * apply Hnotin, list_elem_of_In, H.
      * apply (Hnew a (or_introl eq_refl)). symmetry. exact H.
    + apply IH; [exact Hnd'|]. intros x Hx. apply Hnew. right. exact Hx.
Qed.

Lemma update_first_keys (p : database.License -> bool)
    (f : database.License -> database.License) (t : database.table) :
  (forall l, database.key (f l) = database.key l) ->
  map database.key (database.update_first p f t) = map database.key t.
Proof.
  intros Hf. induction t as [|a t IH]; simpl; [reflexivity|].
  destruct (p a); simpl; [rewrite Hf|rewrite IH]; reflexivity.
Qed.

Section Unique.

Context {py : str_methods}.

(** No operation on the table ever gives two rows the same key: validation
    and revocation keep the keys as they are, [create_license] adds a key
    that its loop found free, and the test-key route adds its key only when
    it is absent. *)
Theorem keys_stay_unique (t : database.table) :
  NoDup (map database.key t) ->
  (forall now key, NoDup (map database.key (snd (database.validate_license now key t)))) /\
  (forall k, NoDup (map database.key (snd (database.revoke_license k t)))) /\
  (forall fuel now entropy i email tier status license t' i',
     database.create_license fuel now entropy i email tier status t =
       Some (license, t', i') ->
     NoDup (map database.key t')) /\
  (forall now, NoDup (map database.key (snd (app_new.create_test_key now t)))).
Proof.
  intros Hnd. split; [|split; [|split]].
  - intros now key. unfold database.validate_license.
    destruct key as [k|]; [|exact Hnd].
    destruct (String.eqb k ""); [exact Hnd|].
    destruct (database.query_first (database.by_key k) t) as [l|]; [|exact Hnd].
    destruct (negb (database.is_valid l)); [exact Hnd|]. cbn [snd].
    rewrite update_first_keys by reflexivity. exact Hnd.
  - intros k. unfold database.revoke_license.
    destruct (database.query_first (database.by_key k) t) as [l|]; [|exact Hnd].
    cbn [snd]. rewrite update_first_keys by reflexivity. exact Hnd.
  - intros fuel now entropy i email tier status license t' i'.
    unfold database.create_license. cbv zeta.
    destruct (database.generate_license_key _ _ _ _ _) as [[k i'']|] eqn:Egen;
      [|discriminate].
    intros [= <- <- <-].
    destruct (generate_license_key_fresh _ _ _ _ _ _ _ Egen) as [_ Hfree].
    apply NoDup_keys_snoc; [exact Hnd|]. cbn [database.key].
    intros x Hx. apply by_key_false. revert x Hx. apply query_first_None, Hfree.
  - intros now. unfold app_new.create_test_key.
    destruct (database.query_first (database.by_key app_new.test_key) t)
      as [l|] eqn:Eq; [exact Hnd|]. cbn [snd].
    apply NoDup_keys_snoc; [exact Hnd|]. cbn [database.key].
    intros x Hx. apply by_key_false. revert x Hx. apply query_first_None, Eq.
Qed.

End Unique.

(** ** Statistics *)

Lemma requests_of_app (a b : database.table) :
  database.requests_of (a ++ b)%list = database.requests_of a + database.requests_of b.
Proof.
  unfold database.requests_of. induction a as [|x a IH]; simpl; [reflexivity|].
  rewrite IH. lia.
Qed.

Lemma count_status_app (s : string) (a b : database.table) :
  database.count_status s (a ++ b)%list =
  database.count_status s a + database.count_status s b.
Proof.
  unfold database.count_status. rewrite List.filter_app, List.length_app. lia.
Qed.

Lemma count_status_cons (s : string) (l : database.License) (t : database.table) :
  database.count_status s (l :: t) =
  (if String.eqb (database.status l) s then 1 else 0) + database.count_status s t.
Proof.
  unfold database.count_status. cbn [List.filter].
  destruct (String.eqb (database.status l) s); cbn [length]; lia.
Qed.

Lemma get_license_stats_eq (t : database.table) :
  database.get_license_stats t =
  database.mkStats (Z.of_nat (length t)) (database.count_status "active" t)
    (database.count_status "revoked" t) (database.requests_of t).
Proof.
  unfold database.get_license_stats. f_equal.
  unfold database.sum_requests. destruct t as [|l t]; [reflexivity|].
  destruct (Z.eqb (database.requests_of (l :: t)) 0) eqn:E; [|reflexivity].
  apply Z.eqb_eq in E. congruence.
Qed.

Lemma active_revoked_le (t : database.table) :
  0 <= database.count_status "active" t /\
  0 <= database.count_status "revoked" t /\
  database.count_status "active" t + database.count_status "revoked" t <=
    Z.of_nat (length t).
Proof.
  induction t as [|l t IH].
  - unfold database.count_status. cbn. lia.
  - rewrite !count_status_cons. cbn [length].
    destruct (String.eqb (database.status l) "active") eqn:Ea.
    + apply String.eqb_eq in Ea. rewrite Ea. cbn [String.eqb Ascii.eqb Bool.eqb]. lia.
    + destruct (String.eqb (database.status l) "revoked"); lia.
Qed.

(** The statistics follow the operations: an accepted validation adds one
    to the total of requests and changes no other figure, a rejected one
    changes nothing, and revoking an active licence moves one licence from
    active to revoked.  Active and revoked licences never outnumber the
    table. *)
Theorem stats_track_operations (t : database.table) :
  let s := database.get_license_stats t in
  (0 <= database.active s /\ 0 <= database.revoked s /\
   database.active s + database.revoked s <= database.total_licenses s) /\
  (forall now key license t',
     database.validate_license now key t = (inl license, t') ->
     database.get_license_stats t' =
     database.mkStats (database.total_licenses s) (database.active s)
       (database.revoked s) (database.total_requests s + 1)) /\
  (forall now key message t',
     database.validate_license now key t = (inr message, t') ->
     database.get_license_stats t' = s) /\
  (forall k l,
     database.query_first (database.by_key k) t = Some l ->
     database.status l = "active" ->
     database.get_license_stats (snd (database.revoke_license k t)) =
     database.mkStats (database.total_licenses s) (database.active s - 1)
       (database.revoked s + 1) (database.total_requests s)).
Proof.
  cbv zeta. rewrite get_license_stats_eq.
  cbn [database.active database.revoked database.total_licenses
       database.total_requests].
  split; [apply active_revoked_le|]. split; [|split].
  - intros now key license t' H.
    destruct (validate_license_accepts _ _ _ _ _ H)
      as (k & l & before & after & _ & _ & -> & _ & _ & Hs & -> & ->).
    rewrite get_license_stats_eq. f_equal.
    + rewrite !length_app. reflexivity.
    + rewrite !count_status_app, !count_status_cons. reflexivity.
    + rewrite !count_status_app, !count_status_cons. reflexivity.
    + rewrite !requests_of_app. unfold database.requests_of.
      cbn [fold_right database.record_usage database.request_count]. lia.
  - intros now key message t' H.
    destruct (validate_license_rejects _ _ _ _ _ H) as [-> _].
    apply get_license_stats_eq.
  - intros k l Hq Hs.
    destruct (revoke_license_found k t l Hq) as (before & after & -> & _ & _ & ->).
    cbn [snd]. rewrite get_license_stats_eq. f_equal.
    + rewrite !length_app. reflexivity.
    + rewrite !count_status_app, !count_status_cons. rewrite Hs. cbn. lia.
    + rewrite !count_status_app, !count_status_cons. rewrite Hs. cbn. lia.
    + rewrite !requests_of_app. reflexivity.
Qed.

(** ** The test-key route *)

(** The route that creates the test key asks for no credentials: on a table
    without that key it answers 201 and adds an active licence of tier "pro"
    whose key, "PRO-TEST00-KEY123", validates from then on like any paid
    one.  Called again it answers 200 and leaves the table alone. *)
Theorem test_key_route_mints_a_licence (now later : Z) (t : database.table) :
  (forall l, In l t -> database.key l <> app_new.test_key) ->
  exists license,
    app_new.status_code (fst (app_new.create_test_key now t)) = 201 /\
    snd (app_new.create_test_key now t) = (t ++ license :: nil)%list /\
    database.key license = app_new.test_key /\
    database.tier license = "pro" /\
    database.status license = "active" /\
    database.validate_license later (Some app_new.test_key)
      (t ++ license :: nil)%list =
    (inl (database.record_usage later license),
     (t ++ database.record_usage later license :: nil)%list) /\
    app_new.status_code
      (fst (app_new.create_test_key later (t ++ license :: nil)%list)) = 200 /\
    snd (app_new.create_test_key later (t ++ license :: nil)%list) =
      (t ++ license :: nil)%list.
Proof.
  intros Hnew.
  assert (Hfree : forall l, In l t -> database.by_key app_new.test_key l = false)
    by (intros l Hl; apply by_key_false, Hnew, Hl).
  assert (Hq : database.query_first (database.by_key app_new.test_key) t = None)
    by (apply query_first_None, Hfree).
  unfold app_new.create_test_key at 1 2. rewrite Hq. cbn [fst snd].
  eexists. split; [reflexivity|]. split; [reflexivity|].
  do 3 (split; [reflexivity|]).
  split.
  - unfold database.validate_license.
    change (String.eqb app_new.test_key "") with false. cbv iota.
    rewrite query_first_app by (auto; reflexivity).
    cbn [database.is_valid database.status negb String.eqb].
    rewrite update_first_app by (auto; reflexivity).
    reflexivity.
  - unfold app_new.create_test_key.
    rewrite query_first_app by (auto; reflexivity).
    split; reflexivity.
Qed.

(* ================================================================== *)
(** * Properties of the ticker check *)
(* ================================================================== *)

(** [String.append] is kept folded by the reduction tactics; its two
    equations, for rewriting. *)
Lemma append_nil_l (s : string) : "" ++ s = s.
Proof. reflexivity. Qed.

Lemma append_cons (c : ascii) (a b : string) : String c a ++ b = String c (a ++ b).
Proof. reflexivity. Qed.

Ltac str_simpl := rewrite ?append_cons, ?append_nil_l; simpl.

Lemma string_forall_app (p : ascii -> bool) (a b : string) :
  string_forall p (a ++ b) = string_forall p a && string_forall p b.
Proof.
  induction a as [|c a IH]; str_simpl; [reflexivity|].
  rewrite IH. apply andb_assoc.
Qed.

Lemma string_app_empty_r (s : string) : s ++ "" = s.
Proof. induction s as [|c s IH]; str_simpl; [reflexivity|]. rewrite IH. reflexivity. Qed.

(** What the capitals scanned off the head of a string are. *)
Lemma span_capitals_spec (n : nat) (s : string) :
  exists w,
    s = w ++ snd (app_new.span_capitals n s) /\
    String.length w = fst (app_new.span_capitals n s) /\
    (String.length w <= n)%nat /\
    string_forall is_upper_letter w = true.
Proof.
  revert s. induction n as [|n IH]; intros s.
  - exists "". destruct s; repeat split; cbn; lia.
  - destruct s as [|c s]; [exists ""; repeat split; cbn; lia|].
    cbn [app_new.span_capitals].
    destruct (is_upper_letter c) eqn:Ec; [|exists ""; repeat split; cbn; lia].
    destruct (IH s) as (w & Hs & Hl & Hn & Hw).
    destruct (app_new.span_capitals n s) as [k tail]. cbn [fst snd] in *.
    exists (String c w). cbn. rewrite Ec, Hw, Hl. subst s.
    repeat split. lia.
Qed.

Lemma span_capitals_app (n : nat) (w tail : string) :
  string_forall is_upper_letter w = true ->
  (String.length w <= n)%nat ->
  match tail with
  | String c _ => is_upper_letter c = false
  | EmptyString => True
  end ->
  app_new.span_capitals n (w ++ tail) = (String.length w, tail).
Proof.
  revert n. induction w as [|c w IH]; intros n Hw Hn Htail.
  - simpl. destruct n; [destruct tail; reflexivity|].
    destruct tail as [|c tail]; [reflexivity|].
    simpl. rewrite Htail. reflexivity.
  - simpl in Hw, Hn.
    apply andb_true_iff in Hw. destruct Hw as [Hc Hw].
    destruct n as [|n]; [lia|].
    simpl. rewrite Hc.
    rewrite (IH n Hw) by (assumption || lia). reflexivity.
Qed.

(** What the pattern accepts: one to five capitals, alone or followed by one
    newline. *)
Lemma ticker_re_match_spec (s : string) :
  app_new.ticker_re_match s = true <->
  exists w,
    string_forall is_upper_letter w = true /\
    (1 <= String.length w <= 5)%nat /\
    (s = w \/ s = w ++ newline).
Proof.
  unfold app_new.ticker_re_match. split.
  - destruct (span_capitals_spec 5 s) as (w & Hs & Hl & Hn & Hw).
    destruct (app_new.span_capitals 5 s) as [k tail]. cbn [fst snd] in *.
    intros H. apply andb_true_iff in H. destruct H as [Hk Ht].
    apply Nat.leb_le in Hk. apply orb_true_iff in Ht.
    exists w. split; [exact Hw|]. split; [lia|].
    destruct Ht as [Ht|Ht]; apply String.eqb_eq in Ht; subst tail.
    + left. rewrite Hs. apply string_app_empty_r.
    + right. exact Hs.
  - intros (w & Hw & Hl & [->| ->]).
    + rewrite <- (string_app_empty_r w) at 1. rewrite span_capitals_app by (try assumption; try lia; exact I).
      destruct (String.length w); [lia|reflexivity].
    + rewrite span_capitals_app by (try assumption; try lia; reflexivity).
      destruct (String.length w); [lia|reflexivity].
Qed.

(** Characters, by cases. *)
Lemma letter_facts (c : ascii) :
  is_letter c = true ->
  is_upper_letter (ascii_upper_char c) = true /\
  is_ascii_char c = true /\ is_space c = false /\
  Ascii.eqb (ascii_upper_char c) "$" = false.
Proof.
  destruct c as [b0 b1 b2 b3 b4 b5 b6 b7].
  destruct b0, b1, b2, b3, b4, b5, b6, b7; intros H;
    try discriminate H; repeat split; reflexivity.
Qed.

Lemma capital_facts (c : ascii) :
  is_upper_letter c = true ->
  ascii_upper_char c = c /\ is_letter c = true.
Proof.
  destruct c as [b0 b1 b2 b3 b4 b5 b6 b7].
  destruct b0, b1, b2, b3, b4, b5, b6, b7; intros H;
    try discriminate H; repeat split; reflexivity.
Qed.

Lemma space_facts (c : ascii) :
  is_space c = true -> is_ascii_char c = true.
Proof.
  destruct c as [b0 b1 b2 b3 b4 b5 b6 b7].
  destruct b0, b1, b2, b3, b4, b5, b6, b7; intros H;
    try discriminate H; reflexivity.
Qed.

Lemma letters_facts (w : string) :
  string_forall is_letter w = true ->
  is_ascii w = true /\
  string_forall (fun c => negb (is_space c)) w = true /\
  string_forall is_upper_letter (ascii_upper w) = true /\
  str_remove "$" (ascii_upper w) = ascii_upper w.
Proof.
  induction w as [|c w IH]; [repeat split|].
  simpl. intros H. apply andb_true_iff in H. destruct H as [Hc Hw].
  destruct (letter_facts c Hc) as (Hu & Ha & Hs & Hd).
  destruct (IH Hw) as (IHa & IHs & IHu & IHr).
  unfold ascii_upper in *. rewrite Ha, Hs, Hu, Hd, IHa, IHs, IHu, IHr.
  repeat split.
Qed.

Lemma capitals_facts (w : string) :
  string_forall is_upper_letter w = true ->
  ascii_upper w = w /\ string_forall is_letter w = true.
Proof.
  induction w as [|c w IH]; [repeat split|].
  simpl. intros H. apply andb_true_iff in H. destruct H as [Hc Hw].
  destruct (capital_facts c Hc) as (Hu & Hl). destruct (IH Hw) as (IHu & IHl).
  unfold ascii_upper in *. simpl. rewrite Hu, Hl, IHu, IHl. repeat split.
Qed.

Lemma spaces_ascii (s : string) :
  string_forall is_space s = true -> is_ascii s = true.
Proof.
  induction s as [|c s IH]; [reflexivity|].
  simpl. intros H. apply andb_true_iff in H. destruct H as [Hc Hs].
  rewrite (space_facts c Hc), (IH Hs). reflexivity.
Qed.

(** Stripping. *)
Lemma ascii_lstrip_spaces (lead s : string) :
  string_forall is_space lead = true ->
  ascii_lstrip (lead ++ s) = ascii_lstrip s.
Proof.
  induction lead as [|c lead IH]; [reflexivity|].
  simpl. intros H. apply andb_true_iff in H. destruct H as [Hc Hl].
  rewrite Hc. apply IH, Hl.
Qed.

Lemma ascii_rstrip_spaces (trail : string) :
  string_forall is_space trail = true -> ascii_rstrip trail = "".
Proof.
  induction trail as [|c trail IH]; [reflexivity|].
  simpl. intros H. apply andb_true_iff in H. destruct H as [Hc Ht].
  rewrite (IH Ht), Hc. reflexivity.
Qed.

Lemma ascii_rstrip_solid (s : string) :
  string_forall (fun c => negb (is_space c)) s = true -> ascii_rstrip s = s.
Proof.
  induction s as [|c s IH]; [reflexivity|].
  simpl. intros H. apply andb_true_iff in H. destruct H as [Hc Hs].
  rewrite (IH Hs). apply negb_true_iff in Hc. rewrite Hc. reflexivity.
Qed.

Lemma ascii_rstrip_app (s trail : string) :
  string_forall (fun c => negb (is_space c)) s = true ->
  string_forall is_space trail = true ->
  ascii_rstrip (s ++ trail) = s.
Proof.
  intros Hs Ht. induction s as [|c s IH].
  - apply ascii_rstrip_spaces, Ht.
  - simpl in Hs |- *. apply andb_true_iff in Hs. destruct Hs as [Hc Hs].
    rewrite (IH Hs). apply negb_true_iff in Hc. rewrite Hc. reflexivity.
Qed.

Lemma string_app_assoc (a b c : string) : a ++ b ++ c = (a ++ b) ++ c.
Proof.
  induction a as [|x a IH]; [reflexivity|].
  rewrite !append_cons, IH. reflexivity.
Qed.

Lemma str_remove_app (c : ascii) (a b : string) :
  str_remove c (a ++ b) = str_remove c a ++ str_remove c b.
Proof.
  induction a as [|x a IH]; [reflexivity|].
  rewrite append_cons. simpl. destruct (Ascii.eqb x c); rewrite IH; reflexivity.
Qed.

Lemma ascii_rstrip_last (a : string) (c : ascii) :
  is_space c = false ->
  ascii_rstrip (a ++ String c "") = a ++ String c "".
Proof.
  intros Hc. induction a as [|x a IH].
  - rewrite append_nil_l. simpl. rewrite Hc. reflexivity.
  - rewrite append_cons. simpl. rewrite IH.
    destruct a; rewrite ?append_cons, ?append_nil_l; simpl;
      rewrite andb_false_r; reflexivity.
Qed.

Section Ticker.

Context {py : str_methods}.

(** What [validate_ticker] lets through.  A rejected ticker comes back as
    the empty string.  An accepted one comes back as one to five capitals,
    or as one to five capitals followed by a newline: the pattern's [$]
    also matches before a final newline, and stripping happens before the
    dollar signs are removed, so a ticker such as "AAPL\n$" is accepted and
    cleaned to "AAPL\n". *)
Theorem validate_ticker_outcomes :
  (forall ticker,
     match app_new.validate_ticker ticker with
     | (true, cleaned) =>
         exists w,
           string_forall is_upper_letter w = true /\
           (1 <= String.length w <= 5)%nat /\
           (cleaned = w \/ cleaned = w ++ newline)
     | (false, cleaned) => cleaned = ""
     end) /\
  (forall w,
     string_forall is_upper_letter w = true ->
     (1 <= String.length w <= 5)%nat ->
     app_new.validate_ticker (w ++ newline ++ "$") = (true, w ++ newline)).
Proof.
  split.
  - intros ticker. unfold app_new.validate_ticker.
    destruct (String.eqb ticker ""); [reflexivity|]. cbv zeta.
    destruct (app_new.ticker_re_match _) eqn:E; cbn [negb]; [|reflexivity].
    apply ticker_re_match_spec, E.
  - intros w Hw Hl.
    destruct (capitals_facts w Hw) as [Hup Hletters].
    destruct (letters_facts w Hletters) as (Ha & Hsolid & _ & Hrem).
    rewrite Hup in Hrem.
    unfold app_new.validate_ticker.
    assert (Hne : String.eqb (w ++ newline ++ "$") "" = false).
    { destruct w; [cbn in Hl; lia|reflexivity]. }
    rewrite Hne. cbv zeta.
    assert (Hascii : is_ascii (w ++ newline ++ "$") = true).
    { rewrite is_ascii_app, Ha. reflexivity. }
    rewrite (str_strip_ascii _ Hascii).
    assert (Hstrip : ascii_strip (w ++ newline ++ "$") = w ++ newline ++ "$").
    { unfold ascii_strip.
      assert (Hl' : ascii_lstrip (w ++ newline ++ "$") = w ++ newline ++ "$").
      { destruct w as [|c w]; [simpl in Hl; lia|].
        simpl in Hsolid. apply andb_true_iff in Hsolid.
        destruct Hsolid as [Hc _]. apply negb_true_iff in Hc.
        rewrite append_cons. simpl. rewrite Hc. reflexivity. }
      rewrite Hl'. rewrite string_app_assoc.
      apply ascii_rstrip_last. reflexivity. }
    rewrite Hstrip, (str_upper_ascii _ Hascii).
    unfold ascii_upper. rewrite string_map_app. fold (ascii_upper w).
    rewrite Hup, str_remove_app, Hrem.
    change (str_remove "$" (string_map ascii_upper_char (newline ++ "$")))
      with newline.
    assert (Hm : app_new.ticker_re_match (w ++ newline) = true).
    { apply ticker_re_match_spec. exists w. auto. }
    rewrite Hm. reflexivity.
Qed.

(** How a ticker is normalised: white space around it is dropped, a
    leading dollar sign is dropped, and letters are capitalised.  Any word
    of one to five ASCII letters, written that way, is accepted as its
    capitals. *)
Theorem validate_ticker_normalises (lead trail w : string) (dollar : bool) :
  string_forall is_space lead = true ->
  string_forall is_space trail = true ->
  string_forall is_letter w = true ->
  (1 <= String.length w <= 5)%nat ->
  app_new.validate_ticker (lead ++ (if dollar then "$" else "") ++ w ++ trail) =
  (true, ascii_upper w).
Proof.
  intros Hlead Htrail Hw Hl.
  destruct (letters_facts w Hw) as (Ha & Hsolid & Hcap & Hrem).
  set (d := if dollar then "$" else "").
  assert (Hd : is_ascii d = true /\
               string_forall (fun c => negb (is_space c)) d = true /\
               ascii_upper d = d /\ str_remove "$" d = "")
    by (unfold d; destruct dollar; repeat split).
  destruct Hd as (Hda & Hds & Hdu & Hdr).
  assert (Hcore_ascii : is_ascii (d ++ w) = true)
    by (rewrite is_ascii_app, Hda, Ha; reflexivity).
  assert (Hinput_ascii : is_ascii (lead ++ d ++ w ++ trail) = true).
  { rewrite !is_ascii_app, Hda, Ha, (spaces_ascii _ Hlead), (spaces_ascii _ Htrail).
    reflexivity. }
  assert (Hstrip : ascii_strip (lead ++ d ++ w ++ trail) = d ++ w).
  { unfold ascii_strip. rewrite (ascii_lstrip_spaces _ _ Hlead).
    assert (Hhead : ascii_lstrip (d ++ w ++ trail) = d ++ w ++ trail).
    { unfold d. destruct dollar; [reflexivity|]. rewrite append_nil_l.
      destruct w as [|c w]; [simpl in Hl; lia|].
      simpl in Hsolid. apply andb_true_iff in Hsolid.
      destruct Hsolid as [Hc _]. apply negb_true_iff in Hc.
      rewrite append_cons. simpl. rewrite Hc. reflexivity. }
    rewrite Hhead, string_app_assoc.
    apply ascii_rstrip_app; [|exact Htrail].
    rewrite string_forall_app, Hds, Hsolid. reflexivity. }
  unfold app_new.validate_ticker.
  assert (Hne : String.eqb (lead ++ d ++ w ++ trail) "" = false).
  { apply String.eqb_neq. intros E.
    apply (f_equal String.length) in E.
    rewrite !string_app_length in E. simpl in E. lia. }
  assert (Hclean : str_remove "$" (str_upper (str_strip (lead ++ d ++ w ++ trail))) =
                   ascii_upper w).
  { rewrite (str_strip_ascii _ Hinput_ascii), Hstrip.
    rewrite (str_upper_ascii _ Hcore_ascii).
    assert (Hup : ascii_upper (d ++ w) = d ++ ascii_upper w).
    { rewrite <- Hdu at 2. unfold ascii_upper. apply string_map_app. }
    rewrite Hup, str_remove_app, Hdr, Hrem. reflexivity. }
  assert (Hm : app_new.ticker_re_match (ascii_upper w) = true).
  { apply ticker_re_match_spec. exists (ascii_upper w).
    split; [exact Hcap|]. split; [|auto].
    unfold ascii_upper. rewrite string_map_length. exact Hl. }
  rewrite Hne. cbv zeta. rewrite Hclean, Hm. reflexivity.
Qed.

End Ticker.

(* ================================================================== *)
(** * Properties of the analyst and of the analysis endpoint *)
(* ================================================================== *)

(** ** The sentiment *)

Section Sentiment.

Context {py : str_methods} {services : market_analyst.Services}.

Lemma analyze_context_try_sentiment (ticker : string) (score breakdown : pyval)
    (news_list : list (gmap string pyval)) (r : gmap string pyval) :
  market_analyst.analyze_context_try ticker score breakdown news_list = Ok r ->
  exists n,
    r !! "sentiment_score" = Some (VInt n) /\ -10 <= n <= 10 /\
    is_Some (r !! "analysis") /\ is_Some (r !! "key_risk") /\
    r !! "news_count" = Some (VInt (Z.of_nat (length news_list))).
Proof.
  unfold market_analyst.analyze_context_try.
  destruct (market_analyst.openai_analysis _ _ _ _) as [reply|]; cbn [bind];
    [|discriminate].
  destruct (market_analyst.as_dict reply) as [analysis|]; cbn [bind]; [|discriminate].
  destruct (market_analyst.py_int _) as [n|]; cbn [bind]; [|discriminate].
  intros [= <-]. exists (Z.max (-10) (Z.min 10 n)).
  split; [reflexivity|]. split; [lia|]. repeat split; eexists; reflexivity.
Qed.

Lemma fallback_int (score : Z) :
  market_analyst.fallback (VInt score) =
  Ok (<["sentiment_score" :=
          VInt (if Z.leb 70 score then 5 else if Z.leb 50 score then 0 else -3)]>
     (<["analysis" :=
          VStr (if Z.leb 70 score then
                  "Strong technical setup with favorable market conditions. Monitor for entry timing."
                else if Z.leb 50 score then
                  "Mixed signals present. If holding, maintain position. If flat, wait for clearer setup."
                else "Technical setup not favorable for swing entry at current levels.")]>
     (<["key_risk" :=
          VStr (if Z.leb 70 score then "Potential for short-term pullback"
                else if Z.leb 50 score then "Unclear momentum direction"
                else "Weak momentum and market headwinds")]>
     (<["news_count" := VInt 0]> ∅)))).
Proof.
  unfold market_analyst.fallback, market_analyst.score_ge. cbn [bind].
  destruct (Z.leb 70 score); [reflexivity|]. cbn [bind].
  destruct (Z.leb 50 score); reflexivity.
Qed.

Lemma fallback_sentiment (score : pyval) (r : gmap string pyval) :
  market_analyst.fallback score = Ok r ->
  exists n, r !! "sentiment_score" = Some (VInt n) /\ -10 <= n <= 10.
Proof.
  unfold market_analyst.fallback.
  destruct (market_analyst.score_ge score 70) as [[|]|]; cbn [bind];
    [| |discriminate].
  - intros [= <-]. eexists. split; [reflexivity|lia].
  - destruct (market_analyst.score_ge score 50) as [[|]|]; cbn [bind];
      [| |discriminate]; intros [= <-]; eexists; (split; [reflexivity|lia]).
Qed.

(** Whatever [analyze_context] returns carries a sentiment between -10 and
    10. *)
Lemma analyze_context_sentiment (ticker : string) (score breakdown : pyval)
    (news_list : list (gmap string pyval)) (r : gmap string pyval) :
  market_analyst.analyze_context ticker score breakdown news_list = Ok r ->
  exists n, r !! "sentiment_score" = Some (VInt n) /\ -10 <= n <= 10.
Proof.
  unfold market_analyst.analyze_context.
  destruct (market_analyst.analyze_context_try _ _ _ _) as [r'|e] eqn:E.
  - intros [= <-].
    destruct (analyze_context_try_sentiment _ _ _ _ _ E) as (n & Hn & Hr & _).
    eauto.
  - apply fallback_sentiment.
Qed.

(** For an integer score the analyst always answers, whatever the language
    service does, with a sentiment between -10 and 10: the service's own
    figure is converted to an integer and clamped, and when the service
    fails, or its reply is unusable, the sentiment is 5 from a score of 70,
    0 from 50, and -3 below, with a news count of 0. *)
Theorem sentiment_is_clamped (ticker : string) (score : Z) (breakdown : pyval)
    (news_list : list (gmap string pyval)) :
  exists r n,
    market_analyst.analyze_context ticker (VInt score) breakdown news_list = Ok r /\
    r !! "sentiment_score" = Some (VInt n) /\ -10 <= n <= 10 /\
    is_Some (r !! "analysis") /\ is_Some (r !! "key_risk") /\
    (forall e,
       market_analyst.analyze_context_try ticker (VInt score) breakdown news_list =
         Raise e ->
       n = (if Z.leb 70 score then 5 else if Z.leb 50 score then 0 else -3) /\
       r !! "news_count" = Some (VInt 0)).
Proof.
  unfold market_analyst.analyze_context.
  destruct (market_analyst.analyze_context_try _ _ _ _) as [r|e] eqn:E.
  - destruct (analyze_context_try_sentiment _ _ _ _ _ E)
      as (n & Hn & Hr & Ha & Hk & _).
    exists r, n. split; [reflexivity|]. do 4 (split; [assumption || lia|]).
    intros e' He'. discriminate He'.
  - rewrite fallback_int. eexists _, _. split; [reflexivity|].
    split; [reflexivity|].
    split; [destruct (Z.leb 70 score), (Z.leb 50 score); lia|].
    split; [eexists; reflexivity|]. split; [eexists; reflexivity|].
    intros _ _. split; reflexivity.
Qed.

End Sentiment.

(** ** The engine's result, as the endpoint reads it *)

Section EngineResult.

Context {ta : pandas_ta} {data_client : DataClient}.

Lemma calculate_score_no_error (ticker : string) :
  calculate_score ticker !! "error" = None ->
  exists stock_df spy_df,
    fetch_bars_rest ticker = Ok stock_df /\ fetch_bars_rest "SPY" = Ok spy_df.
Proof.
  intros H.
  destruct (fetch_bars_rest ticker) as [stock_df|e] eqn:Hs;
    [|unfold calculate_score, score_try in H; rewrite Hs in H; discriminate H].
  destruct (fetch_bars_rest "SPY") as [spy_df|e] eqn:Hm;
    [|unfold calculate_score, score_try in H; rewrite Hs, Hm in H; discriminate H].
  eauto.
Qed.

(** The entries of a result without [error]: the breakdown with its three
    sub-scores and its details, the score and the price, and either the
    trade setup or the reason of the kill switch. *)
Lemma engine_result_shape (ticker : string) (stock_df spy_df : DataFrame) :
  fetch_bars_rest ticker = Ok stock_df ->
  fetch_bars_rest "SPY" = Ok spy_df ->
  exists b details t m rs es cp,
    calculate_score ticker !! "error" = None /\
    calculate_score ticker !! "breakdown" = Some (VDict b) /\
    b !! "details" = Some (VDict details) /\
    b !! "technicals" = Some (VInt t) /\
    b !! "market_regime" = Some (VInt m) /\
    b !! "relative_strength" = Some (VInt rs) /\
    0 <= t <= 100 /\ 0 <= m <= 30 /\ (rs = 0 \/ rs = 20) /\
    calculate_score ticker !! "score" = Some (VInt es) /\
    calculate_score ticker !! "current_price" = Some (VFloat cp) /\
    ((calculate_score ticker !! "reason" = None /\ es = t + m + rs /\
      calculate_score ticker !! "trade_setup" =
        Some (VDict (calculate_trade_setup stock_df))) \/
     (calculate_score ticker !! "reason" =
        Some (VStr "RELATIVE WEAKNESS KILL SWITCH") /\
      es = 0 /\ rs = 0 /\ calculate_score ticker !! "trade_setup" = None)).
Proof.
  intros Hs Hm.
  destruct (calculate_score_fetched ticker stock_df spy_df Hs Hm)
    as (rs & rd & k & cp & Hrel & _ & ->).
  pose proof (calculate_technicals_bounds stock_df) as Ht.
  pose proof (calculate_market_regime_bounds spy_df fetch_vix) as Hr.
  pose proof (calculate_relative_strength_cases stock_df spy_df) as Hc.
  rewrite Hrel in Hc.
  destruct k; cbv zeta; unfold breakdown.
  - eexists _, _, _, _, 0, 0, cp.
    do 6 (split; [reflexivity|]). do 2 (split; [assumption|]).
    split; [auto|]. do 2 (split; [reflexivity|]).
    right. repeat split; reflexivity.
  - eexists _, _, _, _, rs, _, cp.
    do 6 (split; [reflexivity|]). do 2 (split; [assumption|]).
    split; [destruct Hc as [Hc|[Hc _]]; auto|]. do 2 (split; [reflexivity|]).
    left. repeat split; reflexivity.
Qed.

End EngineResult.

(** A trade setup always names a stop. *)
Lemma calculate_trade_setup_sell_stop {ta : pandas_ta} (df : DataFrame) :
  is_Some (calculate_trade_setup df !! "sell_stop").
Proof.
  unfold calculate_trade_setup.
  destruct (trade_setup_try df) as [ts|e] eqn:E.
  - destruct (trade_setup_try_Ok df ts E)
      as (ec & mc & sc & ac & cp & _ & _ & _ & _ & _ & ->).
    rewrite trade_setup_of_fields. eexists. reflexivity.
  - eexists. reflexivity.
Qed.

(** ** The analysis endpoint *)

Section Endpoint.

Context {py : str_methods} {ta : pandas_ta}.

(** The sentiment the endpoint reads off [ai_result]: an integer between
    -10 and 10, and 0 with the analysis disabled. *)
Lemma ai_analysis_sentiment (market_analyst : option market_analyst.Services)
    (use_ai : pyval) (cleaned_ticker : string)
    (technical_result : gmap string pyval)
    (news_articles : list (gmap string pyval)) :
  exists n,
    market_analyst.py_get
      (app_new.ai_analysis market_analyst use_ai cleaned_ticker technical_result
         news_articles) "sentiment_score" (VInt 0) = VInt n /\
    -10 <= n <= 10 /\
    (market_analyst = None \/ py_truthy (Some use_ai) = false ->
     n = 0 /\
     app_new.ai_analysis market_analyst use_ai cleaned_ticker technical_result
       news_articles = app_new.ai_disabled).
Proof.
  unfold app_new.ai_analysis.
  destruct market_analyst as [services|];
    [|exists 0; repeat split; lia].
  destruct (py_truthy (Some use_ai)); [|exists 0; repeat split; lia].
  destruct (py_getitem technical_result "score") as [score|]; cbn [bind].
  2:{ exists 0. split; [reflexivity|]. split; [lia|].
      intros [H|H]; discriminate H. }
  destruct (py_getitem technical_result "breakdown") as [breakdown|]; cbn [bind].
  2:{ exists 0. split; [reflexivity|]. split; [lia|].
      intros [H|H]; discriminate H. }
  destruct (market_analyst.analyze_context _ _ _ _) as [r|] eqn:E.
  2:{ exists 0. split; [reflexivity|]. split; [lia|].
      intros [H|H]; discriminate H. }
  destruct (analyze_context_sentiment _ _ _ _ _ E) as (n & Hn & Hr).
  exists n. unfold market_analyst.py_get. rewrite Hn.
  split; [reflexivity|]. split; [exact Hr|]. intros [H|H]; discriminate H.
Qed.

(** The response built from an engine result without [error]. *)
Lemma build_response_ok (cleaned_ticker : string)
    (technical_result ai_result : gmap string pyval)
    (news_articles : list (gmap string pyval)) (timestamp : string)
    (n es : Z) (b details : gmap string pyval) (cp : pyval) :
  market_analyst.py_get ai_result "sentiment_score" (VInt 0) = VInt n ->
  -10 <= n <= 10 ->
  technical_result !! "breakdown" = Some (VDict b) ->
  b !! "details" = Some (VDict details) ->
  technical_result !! "score" = Some (VInt es) ->
  technical_result !! "current_price" = Some cp ->
  exists ai_points ai_details body,
    ai_points_of n = Ok ai_points /\
    ai_points = Qround_half_even (inject_Z (n + 10) / 20 * 10) /\
    0 <= ai_points <= 10 /\
    app_new.build_response cleaned_ticker technical_result ai_result news_articles
      timestamp =
    Ok (app_new.mkResponse
          (match technical_result !! "reason" with
           | Some reason => <["warning" := reason]> body
           | None => body
           end)
          (Some (firstn 3 news_articles)) 200) /\
    body =
      <["ticker" := VStr cleaned_ticker]>
      (<["score" := VInt (Z.min 100 (es + ai_points))]>
      (<["verdict" :=
           VStr (app_verdict (bool_decide (is_Some (technical_result !! "reason")))
                   (Z.min 100 (es + ai_points)))]>
      (<["breakdown" :=
           VDict (<["details" := VDict (<["ai_sentiment" := VDict ai_details]> details)]>
                    (<["ai_sentiment" := VInt ai_points]> b))]>
      (<["ai_summary" :=
           market_analyst.py_get ai_result "analysis" (VStr "No analysis available")]>
      (<["current_price" := cp]>
      (<["timestamp" := VStr timestamp]>
      (<["trade_setup" :=
           market_analyst.py_get technical_result "trade_setup" (VDict ∅)]> ∅))))))).
Proof.
  intros Hn Hr Hb Hd He Hc.
  destruct (ai_points_of_range n Hr) as (pts & Hp & Hround & Hrange).
  exists pts. eexists _, _. do 3 (split; [assumption|]).
  unfold app_new.build_response, py_getitem.
  rewrite Hn. cbn [app_new.sentiment_of bind]. rewrite Hp. cbn [bind].
  rewrite Hb. cbn [bind market_analyst.as_dict]. rewrite Hd.
  cbn [bind market_analyst.as_dict]. rewrite He. cbn [bind]. rewrite Hc.
  cbn [bind]. split; reflexivity.
Qed.

(** What it takes for the endpoint to answer 200. *)
Lemma analyze_ticker_200 (scorer : option DataClient)
    (market_analyst : option market_analyst.Services) (timestamp : string)
    (request_json : result pyval) :
  app_new.status_code
    (app_new.analyze_ticker scorer market_analyst timestamp request_json) = 200 ->
  exists data ticker cleaned data_client,
    request_json = Ok (VDict data) /\
    market_analyst.py_get data "ticker" (VStr "") = VStr ticker /\
    app_new.validate_ticker (str_strip ticker) = (true, cleaned) /\
    scorer = Some data_client /\
    calculate_score (data_client := data_client) cleaned !! "error" = None /\
    app_new.build_response cleaned
      (calculate_score (data_client := data_client) cleaned)
      (app_new.ai_analysis market_analyst
         (market_analyst.py_get data "use_ai" (VBool true)) cleaned
         (calculate_score (data_client := data_client) cleaned)
         (match market_analyst with
          | Some services => market_analyst.fetch_news (services := services) cleaned
          | None => nil
          end))
      (match market_analyst with
       | Some services => market_analyst.fetch_news (services := services) cleaned
       | None => nil
       end) timestamp =
    Ok (app_new.analyze_ticker scorer market_analyst timestamp request_json).
Proof.
  unfold app_new.analyze_ticker, app_new.analyze_ticker_try.
  destruct request_json as [json|]; cbn [bind]; [|discriminate].
  destruct json as [| | | | |data]; cbn [bind market_analyst.as_dict];
    try discriminate.
  destruct (market_analyst.py_get data "ticker" (VStr "")) as [| | | |ticker|] eqn:Et;
    cbn [bind app_new.as_str]; try discriminate.
  destruct (app_new.validate_ticker (str_strip ticker)) as [[|] cleaned] eqn:Ev;
    cbn [negb]; [|discriminate].
  destruct scorer as [data_client|]; [|discriminate].
  destruct (bool_decide (is_Some (calculate_score cleaned !! "error"))) eqn:Eerr;
    [discriminate|].
  apply bool_decide_eq_false in Eerr.
  destruct (app_new.build_response _ _ _ _ _) as [r|] eqn:Eb; [|discriminate].
  intros _. exists data, ticker, cleaned, data_client.
  split; [reflexivity|]. split; [exact Et|]. split; [exact Ev|].
  split; [reflexivity|]. split; [|exact Eb].
  destruct (calculate_score cleaned !! "error") as [v|] eqn:E; [|reflexivity].
  exfalso. apply Eerr. eauto.
Qed.

(** The answers of [/api/analyze], case by case.  A body that is no JSON
    object, or whose ticker is no string, is answered 500; a ticker that
    does not validate, 400; a missing engine, 500; an engine error, 500 with
    the engine's own dictionary.  Once the engine has answered without
    error, the answer is 200 whatever the news and the language service do:
    nothing in the rest of the view can fail. *)
Theorem analyze_ticker_status (scorer : option DataClient)
    (market_analyst : option market_analyst.Services) (timestamp : string)
    (request_json : result pyval) :
  let r := app_new.analyze_ticker scorer market_analyst timestamp request_json in
  let failure :=
    app_new.jsonify
      (<["error" := VStr "Could not analyze ticker. Please try again."]> ∅, 500) in
  match request_json with
  | Ok (VDict data) =>
      match market_analyst.py_get data "ticker" (VStr "") with
      | VStr ticker =>
          match app_new.validate_ticker (str_strip ticker), scorer with
          | (false, _), _ =>
              r = app_new.jsonify
                    (<["error" :=
                         VStr "Invalid ticker symbol. Please enter 1-5 letters (e.g., AAPL, TSLA)"]> ∅,
                     400)
          | (true, _), None =>
              r = app_new.jsonify
                    (<["error" := VStr "Swing Score Engine not available"]> ∅, 500)
          | (true, cleaned), Some data_client =>
              let technical_result :=
                calculate_score (data_client := data_client) cleaned in
              match technical_result !! "error" with
              | Some _ => r = app_new.jsonify (technical_result, 500)
              | None =>
                  app_new.status_code r = 200 /\
                  app_new.body r !! "ticker" = Some (VStr cleaned) /\
                  app_new.body r !! "error" = None /\
                  exists shown,
                    app_new.news r = Some shown /\ (length shown <= 3)%nat
              end
          end
      | _ => r = failure
      end
  | _ => r = failure
  end.
Proof.
  cbv zeta. unfold app_new.analyze_ticker, app_new.analyze_ticker_try.
  destruct request_json as [json|]; cbn [bind]; [|reflexivity].
  destruct json as [| | | | |data]; cbn [bind market_analyst.as_dict];
    try reflexivity.
  destruct (market_analyst.py_get data "ticker" (VStr "")) as [| | | |ticker|];
    cbn [bind app_new.as_str]; try reflexivity.
  destruct (app_new.validate_ticker (str_strip ticker)) as [[|] cleaned];
    cbn [negb]; [|reflexivity].
  destruct scorer as [data_client|]; [|reflexivity].
  destruct (calculate_score cleaned !! "error") as [v|] eqn:Eerr.
  { rewrite bool_decide_eq_true_2 by eauto. reflexivity. }
  rewrite bool_decide_eq_false_2 by (intros [v Hv]; discriminate Hv).
  destruct (calculate_score_no_error cleaned Eerr) as (stock_df & spy_df & Hs & Hm).
  destruct (engine_result_shape cleaned stock_df spy_df Hs Hm)
    as (b & details & t & m & rs & es & cp & _ & Hb & Hd & _ & _ & _ & _ & _ & _ &
        Hes & Hcp & _).
  match goal with |- context [app_new.build_response _ _ ?a ?n _] =>
    set (ai_result := a); set (news_articles := n) end.
  destruct (ai_analysis_sentiment market_analyst
              (market_analyst.py_get data "use_ai" (VBool true)) cleaned
              (calculate_score cleaned) news_articles) as (n & Hn & Hr & _).
  fold ai_result in Hn.
  destruct (build_response_ok cleaned (calculate_score cleaned) ai_result
              news_articles timestamp n es b details (VFloat cp) Hn Hr Hb Hd Hes Hcp)
    as (pts & ad & body & _ & _ & _ & -> & ->).
  cbn [app_new.status_code app_new.body app_new.news].
  split; [reflexivity|].
  split; [destruct (calculate_score cleaned !! "reason"); reflexivity|].
  split; [destruct (calculate_score cleaned !! "reason"); reflexivity|].
  eexists. split; [reflexivity|]. rewrite length_firstn. lia.
Qed.

(** Off the kill switch, the score of a 200 answer is the sum of the four
    entries of its breakdown, capped at 100: technicals (0..100), market
    regime (0..30), relative strength (0 or 20) and the sentiment points
    (0..10).  It lies between 0 and 100, the verdict is the calling layer's
    reading of it, and the engine's trade setup is attached. *)
Theorem api_score_is_capped_sum (scorer : option DataClient)
    (market_analyst : option market_analyst.Services) (timestamp : string)
    (request_json : result pyval) :
  let r := app_new.analyze_ticker scorer market_analyst timestamp request_json in
  app_new.status_code r = 200 ->
  app_new.body r !! "warning" = None ->
  exists b t m rs pts final_score trade_setup,
    app_new.body r !! "breakdown" = Some (VDict b) /\
    b !! "technicals" = Some (VInt t) /\
    b !! "market_regime" = Some (VInt m) /\
    b !! "relative_strength" = Some (VInt rs) /\
    b !! "ai_sentiment" = Some (VInt pts) /\
    0 <= t <= 100 /\ 0 <= m <= 30 /\ (rs = 0 \/ rs = 20) /\ 0 <= pts <= 10 /\
    app_new.body r !! "score" = Some (VInt final_score) /\
    final_score = Z.min 100 (t + m + rs + pts) /\
    0 <= final_score <= 100 /\
    app_new.body r !! "verdict" = Some (VStr (app_verdict false final_score)) /\
    app_new.body r !! "trade_setup" = Some (VDict trade_setup) /\
    is_Some (trade_setup !! "sell_stop").
Proof.
  cbv zeta. intros H200 Hwarn.
  destruct (analyze_ticker_200 _ _ _ _ H200)
    as (data & ticker & cleaned & data_client & _ & _ & _ & _ & Herr & Hbuild).
  destruct (calculate_score_no_error cleaned Herr) as (stock_df & spy_df & Hs & Hm).
  destruct (engine_result_shape cleaned stock_df spy_df Hs Hm)
    as (b & details & t & m & rs & es & cp & _ & Hb & Hd & Ht & Hmr & Hrs &
        Htb & Hmb & Hrb & Hes & Hcp & Hpath).
  match type of Hbuild with context [app_new.build_response _ _ ?a ?n _] =>
    set (ai_result := a) in *; set (news_articles := n) in * end.
  destruct (ai_analysis_sentiment market_analyst
              (market_analyst.py_get data "use_ai" (VBool true)) cleaned
              (calculate_score cleaned) news_articles) as (n & Hn & Hr & _).
  fold ai_result in Hn.
  destruct (build_response_ok cleaned (calculate_score cleaned) ai_result
              news_articles timestamp n es b details (VFloat cp) Hn Hr Hb Hd Hes Hcp)
    as (pts & ad & body & _ & _ & Hpts & Hresp & ->).
  rewrite Hresp in Hbuild. injection Hbuild as Hbuild. rewrite <- Hbuild in *.
  clear Hbuild Hresp. cbn [app_new.body] in *.
  destruct Hpath as [(Hreason & Hsum & Hsetup)|(Hreason & _)];
    rewrite Hreason in *; [|discriminate Hwarn].
  unfold market_analyst.py_get. rewrite Hsetup.
  eexists _, t, m, rs, pts, _, _.
  split; [reflexivity|].
  split; [rewrite !lookup_insert_ne by discriminate; exact Ht|].
  split; [rewrite !lookup_insert_ne by discriminate; exact Hmr|].
  split; [rewrite !lookup_insert_ne by discriminate; exact Hrs|].
  split; [rewrite lookup_insert_ne by discriminate; apply lookup_insert_eq|].
  do 4 (split; [assumption|]).
  split; [reflexivity|]. split; [rewrite Hsum; reflexivity|].
  split; [lia|]. split; [reflexivity|]. split; [reflexivity|].
  apply calculate_trade_setup_sell_stop.
Qed.

(** A response that was built is a 200. *)
Lemma build_response_status (cleaned_ticker : string)
    (technical_result ai_result : gmap string pyval)
    (news_articles : list (gmap string pyval)) (timestamp : string)
    (r : app_new.Response) :
  app_new.build_response cleaned_ticker technical_result ai_result news_articles
    timestamp = Ok r ->
  app_new.status_code r = 200.
Proof.
  unfold app_new.build_response.
  repeat match goal with
         | |- bind ?m _ = _ -> _ => destruct m; cbn [bind]; [|discriminate]
         | |- match ?v with VInt _ => _ | _ => _ end = _ -> _ =>
             destruct v; try discriminate
         end.
  intros [= <-]. reflexivity.
Qed.

(** The view answers 200, 400 or 500, and below 200 its body holds no
    warning. *)
Lemma analyze_ticker_codes (scorer : option DataClient)
    (market_analyst : option market_analyst.Services) (timestamp : string)
    (request_json : result pyval) :
  let r := app_new.analyze_ticker scorer market_analyst timestamp request_json in
  app_new.status_code r = 200 \/
  ((app_new.status_code r = 400 \/ app_new.status_code r = 500) /\
   app_new.body r !! "warning" = None).
Proof.
  cbv zeta. unfold app_new.analyze_ticker, app_new.analyze_ticker_try.
  destruct request_json as [json|]; cbn [bind]; [|solve [right; split; [auto|reflexivity]]].
  destruct json as [| | | | |data]; cbn [bind market_analyst.as_dict];
    try solve [right; split; [auto|reflexivity]].
  destruct (market_analyst.py_get data "ticker" (VStr "")) as [| | | |ticker|];
    cbn [bind app_new.as_str]; try solve [right; split; [auto|reflexivity]].
  destruct (app_new.validate_ticker (str_strip ticker)) as [[|] cleaned];
    cbn [negb]; [|solve [right; split; [auto|reflexivity]]].
  destruct scorer as [data_client|]; [|solve [right; split; [auto|reflexivity]]].
  destruct (calculate_score cleaned !! "error") as [v|] eqn:Eerr.
  - rewrite bool_decide_eq_true_2 by eauto. right. split; [auto|].
    cbn [app_new.jsonify app_new.body fst].
    destruct (fetch_bars_rest cleaned) as [stock_df|e] eqn:Hs;
      [|unfold calculate_score, score_try; rewrite Hs; reflexivity].
    destruct (fetch_bars_rest "SPY") as [spy_df|e] eqn:Hm;
      [|unfold calculate_score, score_try; rewrite Hs, Hm; reflexivity].
    destruct (engine_result_shape cleaned stock_df spy_df Hs Hm)
      as (? & ? & ? & ? & ? & ? & ? & Hnone & _). congruence.
  - rewrite bool_decide_eq_false_2 by (intros [v Hv]; discriminate Hv).
    destruct (app_new.build_response _ _ _ _ _) as [r|] eqn:Eb; [|solve [right; split; [auto|reflexivity]]].
    left. exact (build_response_status _ _ _ _ _ _ Eb).
Qed.

(** On the kill switch the endpoint does not answer with the engine's score
    of 0: it adds the sentiment points to it, so the score of the answer is
    those points, between 0 and 10.  The verdict is "AVOID (Rel. Weakness)",
    the engine's reason comes back as [warning], relative strength stands at
    0 in the breakdown beside the technical and regime sub-scores, and the
    trade setup is the empty dictionary. *)
Theorem api_kill_switch_score (scorer : option DataClient)
    (market_analyst : option market_analyst.Services) (timestamp : string)
    (request_json : result pyval) :
  let r := app_new.analyze_ticker scorer market_analyst timestamp request_json in
  is_Some (app_new.body r !! "warning") ->
  exists b t m pts,
    app_new.status_code r = 200 /\
    app_new.body r !! "warning" = Some (VStr "RELATIVE WEAKNESS KILL SWITCH") /\
    app_new.body r !! "verdict" = Some (VStr "AVOID (Rel. Weakness)") /\
    app_new.body r !! "score" = Some (VInt pts) /\ 0 <= pts <= 10 /\
    app_new.body r !! "breakdown" = Some (VDict b) /\
    b !! "ai_sentiment" = Some (VInt pts) /\
    b !! "relative_strength" = Some (VInt 0) /\
    b !! "technicals" = Some (VInt t) /\ 0 <= t <= 100 /\
    b !! "market_regime" = Some (VInt m) /\ 0 <= m <= 30 /\
    app_new.body r !! "trade_setup" = Some (VDict ∅).
Proof.
  cbv zeta. intros Hwarn.
  destruct (analyze_ticker_codes scorer market_analyst timestamp request_json)
    as [H200|[_ Hnone]];
    [|rewrite Hnone in Hwarn; destruct Hwarn as [v Hv]; discriminate Hv].
  destruct (analyze_ticker_200 _ _ _ _ H200)
    as (data & ticker & cleaned & data_client & _ & _ & _ & _ & Herr & Hbuild).
  destruct (calculate_score_no_error cleaned Herr) as (stock_df & spy_df & Hs & Hm).
  destruct (engine_result_shape cleaned stock_df spy_df Hs Hm)
    as (b & details & t & m & rs & es & cp & _ & Hb & Hd & Ht & Hmr & Hrs &
        Htb & Hmb & Hrb & Hes & Hcp & Hpath).
  match type of Hbuild with context [app_new.build_response _ _ ?a ?n _] =>
    set (ai_result := a) in *; set (news_articles := n) in * end.
  destruct (ai_analysis_sentiment market_analyst
              (market_analyst.py_get data "use_ai" (VBool true)) cleaned
              (calculate_score cleaned) news_articles) as (n & Hn & Hr & _).
  fold ai_result in Hn.
  destruct (build_response_ok cleaned (calculate_score cleaned) ai_result
              news_articles timestamp n es b details (VFloat cp) Hn Hr Hb Hd Hes Hcp)
    as (pts & ad & body & _ & _ & Hpts & Hresp & ->).
  rewrite Hresp in Hbuild. injection Hbuild as Hbuild. rewrite <- Hbuild in *.
  clear Hbuild Hresp. cbn [app_new.body app_new.status_code] in *.
  destruct Hpath as [(Hreason & _)|(Hreason & Hzero & Hrs0 & Hsetup)];
    rewrite Hreason in *;
    [destruct Hwarn as [v Hv]; discriminate Hv|].
  subst es rs. unfold market_analyst.py_get. rewrite Hsetup.
  eexists _, t, m, pts.
  split; [reflexivity|]. split; [reflexivity|]. split; [reflexivity|].
  split; [rewrite Z.min_r by lia; reflexivity|]. split; [assumption|].
  split; [reflexivity|].
  split; [rewrite lookup_insert_ne by discriminate; apply lookup_insert_eq|].
  split; [rewrite !lookup_insert_ne by discriminate; exact Hrs|].
  split; [rewrite !lookup_insert_ne by discriminate; exact Ht|].
  split; [assumption|].
  split; [rewrite !lookup_insert_ne by discriminate; exact Hmr|].
  split; [assumption|]. reflexivity.
Qed.

(** With the analysis disabled (the request says so, or the analyst failed
    to start) the sentiment counts as neutral, and neutral is worth 5 of the
    10 points: every such answer scores the engine's result plus 5, capped
    at 100. *)
Theorem disabled_analysis_adds_five (scorer : option DataClient)
    (market_analyst : option market_analyst.Services) (timestamp : string)
    (data : gmap string pyval) :
  let r :=
    app_new.analyze_ticker scorer market_analyst timestamp (Ok (VDict data)) in
  market_analyst = None \/
  py_truthy (Some (market_analyst.py_get data "use_ai" (VBool true))) = false ->
  app_new.status_code r = 200 ->
  exists data_client cleaned engine_score b,
    scorer = Some data_client /\
    calculate_score (data_client := data_client) cleaned !! "score" =
      Some (VInt engine_score) /\
    app_new.body r !! "score" = Some (VInt (Z.min 100 (engine_score + 5))) /\
    app_new.body r !! "breakdown" = Some (VDict b) /\
    b !! "ai_sentiment" = Some (VInt 5) /\
    app_new.body r !! "ai_summary" = Some (VStr "AI analysis disabled").
Proof.
  cbv zeta. intros Hoff H200.
  destruct (analyze_ticker_200 _ _ _ _ H200)
    as (data' & ticker & cleaned & data_client & Hdata & _ & _ & Hscorer & Herr &
        Hbuild).
  injection Hdata as <-.
  destruct (calculate_score_no_error cleaned Herr) as (stock_df & spy_df & Hs & Hm).
  destruct (engine_result_shape cleaned stock_df spy_df Hs Hm)
    as (b & details & t & m & rs & es & cp & _ & Hb & Hd & _ & _ & _ &
        _ & _ & _ & Hes & Hcp & _).
  match type of Hbuild with context [app_new.build_response _ _ ?a ?n _] =>
    set (ai_result := a) in *; set (news_articles := n) in * end.
  destruct (ai_analysis_sentiment market_analyst
              (market_analyst.py_get data "use_ai" (VBool true)) cleaned
              (calculate_score cleaned) news_articles) as (n & Hn & Hr & Hdis).
  destruct (Hdis Hoff) as [-> Hai]. fold ai_result in Hn, Hai.
  destruct (build_response_ok cleaned (calculate_score cleaned) ai_result
              news_articles timestamp 0 es b details (VFloat cp) Hn Hr Hb Hd Hes Hcp)
    as (pts & ad & body & Hp & _ & _ & Hresp & ->).
  assert (pts = 5) by (vm_compute in Hp; congruence). subst pts.
  rewrite Hresp in Hbuild. injection Hbuild as Hbuild. rewrite <- Hbuild.
  cbn [app_new.body]. rewrite Hai.
  exists data_client, cleaned, es. eexists.
  split; [exact Hscorer|]. split; [exact Hes|].
  split; [destruct (calculate_score cleaned !! "reason"); reflexivity|].
  split; [destruct (calculate_score cleaned !! "reason"); reflexivity|].
  split; [rewrite lookup_insert_ne by discriminate; apply lookup_insert_eq|].
  destruct (calculate_score cleaned !! "reason"); reflexivity.
Qed.

(** Behind the licence check: [/api/analyze] answers 401 exactly when the key
    does not validate, and then nothing else happened: the table is
    untouched and the answer is the same whatever the request and the
    components are.  With a key that validates the request is counted once
    against the licence, whether the analysis then answers 200, 400 or
    500. *)
Theorem usage_is_counted_whatever_the_answer (scorer : option DataClient)
    (market_analyst : option market_analyst.Services) (timestamp : string)
    (now : Z) (license_key : option string) (request_json : result pyval)
    (t : database.table) :
  let r :=
    fst (app_new.api_analyze scorer market_analyst timestamp now license_key
           request_json t) in
  let t' :=
    snd (app_new.api_analyze scorer market_analyst timestamp now license_key
           request_json t) in
  (app_new.status_code r = 200 \/ app_new.status_code r = 400 \/
   app_new.status_code r = 401 \/ app_new.status_code r = 500) /\
  (app_new.status_code r = 401 <->
   exists message, fst (database.validate_license now license_key t) = inr message) /\
  (app_new.status_code r = 401 ->
   t' = t /\
   app_new.body r !! "error" = Some (VStr "Unauthorized") /\
   forall scorer' market_analyst' timestamp' request_json',
     app_new.api_analyze scorer' market_analyst' timestamp' now license_key
       request_json' t = (r, t)) /\
  (app_new.status_code r <> 401 ->
   r = app_new.analyze_ticker scorer market_analyst timestamp request_json /\
   length t' = length t /\
   database.requests_of t' = database.requests_of t + 1).
Proof.
  cbv zeta. unfold app_new.api_analyze, auth.require_license.
  destruct (database.validate_license now license_key t) as [[license|message] t']
    eqn:E; cbn [fst snd].
  - pose proof (analyze_ticker_codes scorer market_analyst timestamp request_json)
      as Hcodes. cbv zeta in Hcodes.
    assert (Hne : app_new.status_code
                    (app_new.analyze_ticker scorer market_analyst timestamp
                       request_json) <> 401) by lia.
    split; [lia|]. split; [|split].
    + split; [intros H; contradiction|]. intros [message Hm]. discriminate Hm.
    + intros H. contradiction.
    + intros _. split; [reflexivity|].
      destruct (validate_license_accepts _ _ _ _ _ E)
        as (k & l & before & after & _ & _ & -> & _ & _ & _ & -> & ->).
      rewrite !length_app, !requests_of_app. unfold database.requests_of.
      cbn [length fold_right database.record_usage database.request_count].
      split; lia.
  - destruct (validate_license_rejects _ _ _ _ _ E) as [-> _].
    split; [auto|]. split; [|split].
    + split; [eauto|reflexivity].
    + intros _. split; [reflexivity|]. split; [reflexivity|]. reflexivity.
    + intros H. exfalso. apply H. reflexivity.
Qed.

End Endpoint.

(** ** The news *)

Section News.

Context {py : str_methods} {services : market_analyst.Services}.

Lemma collect_articles_spec (ticker : string)
    (results : list market_analyst.Article)
    (ticker_articles : list (gmap string pyval)) :
  (length ticker_articles < 10)%nat ->
  market_analyst.collect_articles ticker results ticker_articles =
  firstn 10
    (ticker_articles ++
     map market_analyst.news_entry
       (List.filter (market_analyst.relevant ticker) results))%list.
Proof.
  revert ticker_articles.
  induction results as [|article rest IH]; intros acc Hacc.
  - cbn [market_analyst.collect_articles List.filter map].
    rewrite app_nil_r, firstn_all2 by lia. reflexivity.
  - cbn [market_analyst.collect_articles List.filter].
    destruct (market_analyst.relevant ticker article); [|apply IH, Hacc].
    cbn [map].
    replace (acc ++ market_analyst.news_entry article ::
               map market_analyst.news_entry
                 (List.filter (market_analyst.relevant ticker) rest))%list
      with ((acc ++ market_analyst.news_entry article :: nil) ++
            map market_analyst.news_entry
              (List.filter (market_analyst.relevant ticker) rest))%list
      by (rewrite <- app_assoc; reflexivity).
    set (acc' := (acc ++ market_analyst.news_entry article :: nil)%list).
    assert (Hlen : length acc' = S (length acc))
      by (unfold acc'; rewrite length_app; cbn; lia).
    destruct (10 <=? length acc')%nat eqn:E.
    + apply Nat.leb_le in E.
      rewrite firstn_app. replace (10 - length acc')%nat with O by lia.
      rewrite firstn_all2 by lia. cbn [firstn]. rewrite app_nil_r. reflexivity.
    + apply Nat.leb_gt in E. apply IH. exact E.
Qed.

(** [fetch_news] returns the articles of the provider's answer that name
    the ticker (among their tickers or in their title, capitals
    disregarded), in the provider's order, and stops at the tenth: the loop
    with its [break] is the first ten of the filtered list.  It returns no
    article when the provider fails or sends no results. *)
Theorem fetch_news_first_ten (ticker : string) :
  match market_analyst.polygon_news with
  | Ok (Some results) =>
      market_analyst.fetch_news ticker =
      firstn 10
        (map market_analyst.news_entry
           (List.filter (market_analyst.relevant ticker) results))
  | _ => market_analyst.fetch_news ticker = nil
  end /\
  (length (market_analyst.fetch_news ticker) <= 10)%nat.
Proof.
  unfold market_analyst.fetch_news.
  destruct market_analyst.polygon_news as [[results|]|];
    [|split; [reflexivity|cbn; lia]|split; [reflexivity|cbn; lia]].
  destruct results as [|article rest]; [split; [reflexivity|cbn; lia]|].
  cbn [length Nat.eqb].
  rewrite collect_articles_spec by (cbn; lia).
  split; [reflexivity|]. rewrite length_firstn. lia.
Qed.

End News.

(* ================================================================== *)
(** ** The hypotheses of the properties above are met *)
(* ================================================================== *)

(** The six falling bars served for "AAPL". *)
Lemma fetched_frame_is_sorted_response_witness :
  exists data bar_list,
    @get_stock_bars Samples.weak_client "AAPL" = Ok data /\
    assoc_get "AAPL" data = Some bar_list /\
    Samples.frame Samples.falling_closes ≡ₚ bar_list /\
    StronglySorted index_le (Samples.frame Samples.falling_closes) /\
    (0 < length (Samples.frame Samples.falling_closes))%nat.
Proof.
  apply (@fetched_frame_is_sorted_response Samples.weak_client "AAPL").
  vm_compute. reflexivity.
Defined.

(** The same bars: the reported price is 95, the close of the sixth. *)
Lemma current_price_is_latest_close_witness :
  exists data bar_list b,
    @get_stock_bars Samples.weak_client "AAPL" = Ok data /\
    assoc_get "AAPL" data = Some bar_list /\
    In b bar_list /\
    VFloat (Fin 95) = VFloat (close b) /\
    forall b', In b' bar_list -> timestamp b' <= timestamp b.
Proof.
  apply (@current_price_is_latest_close Reference.reference_ta
           Samples.weak_client "AAPL" (VFloat (Fin 95))).
  vm_compute. reflexivity.
Defined.





(** Six bars of the market proxy: the 50-period SMA is [None]. *)
Lemma regime_without_sma50_witness :
  @calculate_market_regime Reference.reference_ta
    (Samples.frame Samples.climbing_closes) None =
  mkFactor 0
    (<["error" :=
         VStr "unsupported format string passed to NoneType.__format__"]> ∅).
Proof.
  destruct (@regime_without_sma50 Reference.reference_ta
              (Samples.frame Samples.climbing_closes) None) as [Hnone _].
  - discriminate.
  - apply Hnone. reflexivity.
Defined.

(** ** Licences *)

(** Revoking alice's licence. *)
Lemma revoked_key_is_rejected_witness :
  database.validate_license 1700001000 (Some (database.key Fixtures.alice))
    (database.revoke Fixtures.alice :: Fixtures.bob :: nil) =
  (inr "License is revoked", database.revoke Fixtures.alice :: Fixtures.bob :: nil).
Proof.
  apply (revoked_key_is_rejected 1700001000 (database.key Fixtures.alice)
           Fixtures.customers).
  - discriminate.
  - reflexivity.
Defined.

(** A new "Pro" licence.  The first candidate is alice's key, the second is
    free. *)
Lemma created_license_validates_witness :
  exists license i',
    @database.create_license Fixtures.ascii_methods 5 1700001000 Fixtures.entropy 0
      "carol@example.com" "Pro" "active" Fixtures.customers =
      Some (license, (Fixtures.customers ++ license :: nil)%list, i') /\
    database.tier license = "pro" /\
    database.request_count (database.record_usage 1700002000 license) = 1.
Proof.
  destruct (@created_license_validates Fixtures.ascii_methods 5 1 1700001000
              1700002000 Fixtures.entropy 0 "carol@example.com" "Pro"
              Fixtures.customers)
    as (license & i' & Hcreate & _ & _ & Htier & _ & _ & _ & Hcount).
  - lia.
  - reflexivity.
  - exists license, i'. repeat split; assumption.
Defined.

(** The key of that licence. *)
Lemma license_key_format_witness :
  exists prefix segment1 segment2,
    "PRO-1E2C3D-8000FF" = prefix ++ "-" ++ segment1 ++ "-" ++ segment2 /\
    In prefix ("FREE" :: "PRO" :: "ENT" :: nil) /\
    database.is_upper_hex segment1 = true /\
    database.is_upper_hex segment2 = true.
Proof.
  pose (license := database.mkLicense "PRO-1E2C3D-8000FF" "carol@example.com"
                     "active" "pro" 1700001000 None 0).
  destruct (@license_key_format Fixtures.ascii_methods 5 1700001000
              Fixtures.entropy 0 4 "carol@example.com" "Pro" "active"
              Fixtures.customers (Fixtures.customers ++ license :: nil)%list
              license)
    as (prefix & segment1 & segment2 & Hkey & _ & Hprefix & _ & _ & H1 & H2 & _).
  - reflexivity.
  - exists prefix, segment1, segment2. repeat split; assumption.
Defined.

(** The two customers' keys differ, and stay so when alice's is revoked. *)
Lemma keys_stay_unique_witness :
  NoDup (map database.key
           (snd (database.revoke_license (database.key Fixtures.alice)
                   Fixtures.customers))).
Proof.
  destruct (@keys_stay_unique Fixtures.ascii_methods Fixtures.customers)
    as (_ & Hrevoke & _).
  - apply NoDup_cons. split.
    + rewrite list_elem_of_In. cbn. intros [H|[]]. discriminate H.
    + apply NoDup_singleton.
  - apply Hrevoke.
Defined.

(** Neither customer holds the test key. *)
Lemma test_key_route_mints_a_licence_witness :
  exists license,
    app_new.status_code (fst (app_new.create_test_key 1700001000 Fixtures.customers))
      = 201 /\
    database.key license = app_new.test_key /\
    database.validate_license 1700002000 (Some app_new.test_key)
      (Fixtures.customers ++ license :: nil)%list =
    (inl (database.record_usage 1700002000 license),
     (Fixtures.customers ++ database.record_usage 1700002000 license :: nil)%list).
Proof.
  destruct (test_key_route_mints_a_licence 1700001000 1700002000
              Fixtures.customers)
    as (license & H201 & _ & Hkey & _ & _ & Hvalid & _).
  - intros l [<-|[<-|[]]]; discriminate.
  - exists license. repeat split; assumption.
Defined.

(** ** Tickers *)

(** " $aapl " *)
Lemma validate_ticker_normalises_witness :
  @app_new.validate_ticker Fixtures.ascii_methods " $aapl " = (true, "AAPL").
Proof.
  apply (@validate_ticker_normalises Fixtures.ascii_methods " " " " "aapl" true).
  - reflexivity.
  - reflexivity.
  - reflexivity.
  - cbn. lia.
Defined.

(** ** The endpoint *)

(** Five bars of "AAPL" with the sample analyst: a 200 answer without
    warning. *)
Lemma api_score_is_capped_sum_witness :
  let r :=
    @app_new.analyze_ticker Fixtures.ascii_methods Reference.reference_ta
      (Some Samples.short_client) (Some Fixtures.analyst) "2024-01-02 10:00:00"
      (Ok (VDict (Fixtures.request "aapl"))) in
  exists b t m rs pts final_score,
    app_new.body r !! "breakdown" = Some (VDict b) /\
    b !! "technicals" = Some (VInt t) /\
    b !! "market_regime" = Some (VInt m) /\
    b !! "relative_strength" = Some (VInt rs) /\
    b !! "ai_sentiment" = Some (VInt pts) /\
    app_new.body r !! "score" = Some (VInt final_score) /\
    final_score = Z.min 100 (t + m + rs + pts).
Proof.
  cbv zeta.
  destruct (@api_score_is_capped_sum Fixtures.ascii_methods Reference.reference_ta
              (Some Samples.short_client) (Some Fixtures.analyst)
              "2024-01-02 10:00:00" (Ok (VDict (Fixtures.request "aapl"))))
    as (b & t & m & rs & pts & final_score & trade_setup & Hb & Ht & Hm & Hrs &
        Hpts & _ & _ & _ & _ & Hscore & Hsum & _).
  - vm_compute. reflexivity.
  - vm_compute. reflexivity.
  - exists b, t, m, rs, pts, final_score. repeat split; assumption.
Defined.

(** The falling "AAPL" against a rising market proxy: the warning is
    there. *)
Lemma api_kill_switch_score_witness :
  let r :=
    @app_new.analyze_ticker Fixtures.ascii_methods Reference.reference_ta
      (Some Samples.weak_client) (Some Fixtures.analyst) "2024-01-02 10:00:00"
      (Ok (VDict (Fixtures.request "aapl"))) in
  exists pts,
    app_new.status_code r = 200 /\
    app_new.body r !! "verdict" = Some (VStr "AVOID (Rel. Weakness)") /\
    app_new.body r !! "score" = Some (VInt pts) /\ 0 <= pts <= 10 /\
    app_new.body r !! "trade_setup" = Some (VDict ∅).
Proof.
  cbv zeta.
  destruct (@api_kill_switch_score Fixtures.ascii_methods Reference.reference_ta
              (Some Samples.weak_client) (Some Fixtures.analyst)
              "2024-01-02 10:00:00" (Ok (VDict (Fixtures.request "aapl"))))
    as (b & t & m & pts & H200 & _ & Hverdict & Hscore & Hpts & _ & _ & _ & _ &
        _ & _ & _ & Hsetup).
  - exists (VStr "RELATIVE WEAKNESS KILL SWITCH"). vm_compute. reflexivity.
  - exists pts. repeat split; solve [assumption | apply Hpts].
Defined.

(** The request turns the analysis off. *)
Lemma disabled_analysis_adds_five_witness :
  let r :=
    @app_new.analyze_ticker Fixtures.ascii_methods Reference.reference_ta
      (Some Samples.short_client) (Some Fixtures.analyst) "2024-01-02 10:00:00"
      (Ok (VDict (Fixtures.request_without_ai "aapl"))) in
  exists b,
    app_new.body r !! "breakdown" = Some (VDict b) /\
    b !! "ai_sentiment" = Some (VInt 5) /\
    app_new.body r !! "ai_summary" = Some (VStr "AI analysis disabled").
Proof.
  cbv zeta.
  destruct (@disabled_analysis_adds_five Fixtures.ascii_methods
              Reference.reference_ta (Some Samples.short_client)
              (Some Fixtures.analyst) "2024-01-02 10:00:00"
              (Fixtures.request_without_ai "aapl"))
    as (data_client & cleaned & engine_score & b & _ & _ & _ & Hb & Hpts & Hsummary).
  - right. reflexivity.
  - vm_compute. reflexivity.
  - exists b. repeat split; assumption.
Defined.
